(** * StabDiffAuto1111: a GIMP client for the Automatic1111 web API

    A shallow embedding of the plug-in's settings shelf, HTTP client,
    request translator, control-unit extractor and response materializer
    (gimp_sd_a1111.py) and of the helpers they use (sd_gui_utils.py),
    then of the start of the plug-in, its configuration and model
    procedures, the control layers and the dialog populators, followed
    by the properties proved about them.

    Conventions of the embedding:
    - Python values are the terms of [pyval]; a Python [int] is a [Z], a
      Python [float] is the rational it denotes (every finite double is
      a rational, and the float operations used by the plug-in, a division
      by 8 or by 64 and [round], are exact on doubles);
    - a Python exception is a constructor of [exn]; a computation that
      may raise returns a [result];
    - stateful code is a function [world -> result A * world]: the world
      holds the log, the network, the settings file, the plug-in instance
      and the GIMP layer objects;
    - a [dict] used as a map with string keys is a [gmap string pyval]; a
      [dict] whose key order and key collisions matter is an association
      list;
    - a JSON text is kept as the value [json.loads] reads from it, and
      [json_value] gives that value for what [json.dumps] is given;
    - a dictionary that is shared between the shelf and its caller is an
      object of the store [w_objects]: a change made through one name is
      seen through the other. *)

From Stdlib Require Import ZArith QArith Qround Qabs String Ascii List Lia Lqa.
From stdpp Require Import gmap strings list pretty sorting.

Set Default Proof Using "Type".

(** ** Python values *)

(** The hashable scalars that occur as dictionary keys. *)
Inductive pykey : Type :=
| KNone
| KBool (b : bool)
| KInt (n : Z)
| KStr (s : string).

#[warnings="-register-all"]
Inductive pyval : Type :=
| PNone
| PBool (b : bool)
| PInt (n : Z)
| PFloat (x : Q)
| PStr (s : string)
| PList (items : list pyval)
| PDict (items : list (pykey * pyval)).

Inductive exn : Type :=
| ValueError (msg : string)
| TypeError
| AttributeError
| IndexError
| KeyError (key : string)
| ZeroDivisionError
| JSONDecodeError
| OSError
| HTTPError (url : string) (code : Z) (reason : string) (hdrs : string)
| URLError (reason : string).

Inductive result (A : Type) : Type :=
| Ok (a : A)
| Raise (e : exn).
Arguments Ok {A} a.
Arguments Raise {A} e.

Definition rbind {A B : Type} (r : result A) (k : A -> result B) : result B :=
  match r with
  | Ok a => k a
  | Raise e => Raise e
  end.

Definition is_ok {A : Type} (r : result A) : bool :=
  match r with Ok _ => true | Raise _ => false end.

(** [str(k)] for a key. *)
Definition py_str_key (k : pykey) : string :=
  match k with
  | KNone => "None"
  | KBool true => "True"
  | KBool false => "False"
  | KInt n => pretty n
  | KStr s => s
  end.

(** Truth value of an object, as [or], [not] and [if] test it. *)
Definition truthy (v : pyval) : bool :=
  match v with
  | PNone => false
  | PBool b => b
  | PInt n => negb (n =? 0)%Z
  | PFloat x => negb (Qeq_bool x 0)
  | PStr s => negb (String.eqb s EmptyString)
  | PList items => match items with [] => false | _ => true end
  | PDict items => match items with [] => false | _ => true end
  end.

(** [a or b] *)
Definition py_or (a b : pyval) : pyval := if truthy a then a else b.

(** The number a numeric object denotes; [bool] is a subclass of [int]. *)
Definition py_number (v : pyval) : option Q :=
  match v with
  | PBool b => Some (inject_Z (if b then 1 else 0))
  | PInt n => Some (inject_Z n)
  | PFloat x => Some x
  | _ => None
  end.

(** [a < b] between numbers; any other pairing met here is an [int]
    against a non-number, which raises [TypeError]. *)
Definition py_lt (a b : pyval) : result bool :=
  match py_number a, py_number b with
  | Some x, Some y => Ok (negb (Qle_bool y x))
  | _, _ => Raise TypeError
  end.

(** [max(a, b)] keeps [a] unless [b > a]; [min(a, b)] keeps [a] unless
    [b < a]. *)
Definition py_max (a b : pyval) : result pyval :=
  rbind (py_lt a b) (fun gt => Ok (if gt then b else a)).

Definition py_min (a b : pyval) : result pyval :=
  rbind (py_lt b a) (fun lt => Ok (if lt then b else a)).

(** [l[i]] on a list: negative indices count from the end, anything out
    of range raises [IndexError]. *)
Definition py_getitem {A : Type} (l : list A) (i : Z) : result A :=
  let n := Z.of_nat (length l) in
  let j := (if i <? 0 then i + n else i)%Z in
  if ((0 <=? j) && (j <? n))%Z
  then match l !! Z.to_nat j with Some x => Ok x | None => Raise IndexError end
  else Raise IndexError.

(** [l.index(x)]: the position of the first occurrence. *)
Fixpoint py_index (l : list string) (x : string) : result Z :=
  match l with
  | [] => Raise (ValueError "is not in list")
  | y :: l' =>
      if String.eqb y x then Ok 0%Z
      else rbind (py_index l' x) (fun i => Ok (i + 1)%Z)
  end.

(** *** Dictionaries in insertion order

    Keys are compared as Python compares them: [True == 1] and
    [False == 0], a string only equals the same string. *)

Definition key_number (k : pykey) : option Z :=
  match k with
  | KBool b => Some (if b then 1 else 0)%Z
  | KInt n => Some n
  | _ => None
  end.

Definition pykey_eqb (a b : pykey) : bool :=
  match a, b with
  | KNone, KNone => true
  | KStr s, KStr t => String.eqb s t
  | _, _ =>
      match key_number a, key_number b with
      | Some m, Some n => (m =? n)%Z
      | _, _ => false
      end
  end.

(** [d[k] = v]: an existing key keeps its place (and the key object
    first stored) and takes the new value, a new key goes to the end. *)
Fixpoint dict_setitem (k : pykey) (v : pyval) (d : list (pykey * pyval))
  : list (pykey * pyval) :=
  match d with
  | [] => [(k, v)]
  | (k', v') :: d' =>
      if pykey_eqb k k' then (k', v) :: d'
      else (k', v') :: dict_setitem k v d'
  end.

(** [dict(pairs)] and [{k1: v1, ...}]: the pairs are stored one after
    the other. *)
Definition dict_of_pairs (pairs : list (pykey * pyval)) : list (pykey * pyval) :=
  fold_left (fun d kv => dict_setitem (fst kv) (snd kv) d) pairs [].

(** [d.update(other)] *)
Definition dict_update (d other : list (pykey * pyval)) : list (pykey * pyval) :=
  fold_left (fun d kv => dict_setitem (fst kv) (snd kv) d) other d.

(** [d.get(k)], [None] (the Rocq one) when the key is absent *)
Fixpoint dict_get (k : pykey) (d : list (pykey * pyval)) : option pyval :=
  match d with
  | [] => None
  | (k', v) :: d' => if pykey_eqb k k' then Some v else dict_get k d'
  end.

(** *** Strings

    A character of a [string] stands for the code point of the same
    number; the functions below follow [str.strip], [str.lower] and
    [str.startswith] on the code points below 256. *)

Definition is_py_space (c : ascii) : bool :=
  let n := nat_of_ascii c in
  ((9 <=? n) && (n <=? 13) || (28 <=? n) && (n <=? 32)
   || (n =? 133) || (n =? 160))%nat.

Fixpoint lstrip (s : string) : string :=
  match s with
  | EmptyString => EmptyString
  | String c s' => if is_py_space c then lstrip s' else s
  end.

Fixpoint rstrip (s : string) : string :=
  match s with
  | EmptyString => EmptyString
  | String c s' =>
      match rstrip s' with
      | EmptyString => if is_py_space c then EmptyString else String c EmptyString
      | t => String c t
      end
  end.

Definition py_strip (s : string) : string := rstrip (lstrip s).

Definition lower_char (c : ascii) : ascii :=
  let n := nat_of_ascii c in
  if ((65 <=? n) && (n <=? 90)
      || (192 <=? n) && (n <=? 222) && negb (n =? 215))%nat
  then ascii_of_nat (n + 32)
  else c.

Fixpoint py_lower (s : string) : string :=
  match s with
  | EmptyString => EmptyString
  | String c s' => String (lower_char c) (py_lower s')
  end.

Definition dquote : string := String "034"%char EmptyString.

Definition py_startswith (s p : string) : bool := String.prefix p s.

(** ** sd_gui_utils.py *)

Fixpoint as_strings_deeply (data : pyval) : pyval :=
  match data with
  | PStr s => PStr s
  | PDict items =>
      PDict (dict_of_pairs
               (map (fun kv => (KStr (py_str_key (fst kv)), as_strings_deeply (snd kv)))
                    items))
  | _ => data
  end.

(** [round(x)] on a float: the nearest integer, a tie going to the even
    one. *)
Definition py_round (x : Q) : Z :=
  let f := Qfloor x in
  match Qcompare (x - inject_Z f) (1 # 2) with
  | Lt => f
  | Gt => (f + 1)%Z
  | Eq => if Z.even f then f else (f + 1)%Z
  end.

(** [multiple * round(float(value) / multiple)]; [value] is the number
    as a float. The quotient is the exact one. That is the quotient of
    the doubles when [multiple] is a power of two, as 8 and 64 are, the
    multiples the plug-in rounds to: such a division only changes the
    exponent, and a quotient too small for a double rounds to 0 either
    way. For another multiple the quotient of the doubles is the nearest
    double, and a value near the largest double can overflow; the
    properties of rounding keep to powers of two. *)
Definition round_to_multiple (value : Q) (multiple : Z) : result Z :=
  if (multiple =? 0)%Z then Raise ZeroDivisionError
  else Ok (multiple * py_round (value / inject_Z multiple))%Z.

(** [float(n)] for an [int]; exact up to 2^53 in absolute value, which
    covers every size GIMP hands out (a C [gint]). *)
Definition py_float (n : Z) : Q := inject_Z n.

(** ** json.dumps and json.loads *)

(** The name [json.dumps] writes for a key: a string as it is, a number
    in digits, and [true], [false] and [null] for the three constants. *)
Definition json_key (k : pykey) : string :=
  match k with
  | KNone => "null"
  | KBool true => "true"
  | KBool false => "false"
  | KInt n => pretty n
  | KStr s => s
  end.

(** [a < b] between two keys that can be compared: two strings, by code
    points, or two numbers. *)
Definition key_ltb (a b : pykey) : bool :=
  match a, b with
  | KStr s, KStr t => String.ltb s t
  | _, _ =>
      match key_number a, key_number b with
      | Some m, Some n => (m <? n)%Z
      | _, _ => false
      end
  end.

Definition is_str_key (k : pykey) : bool :=
  match k with KStr _ => true | _ => false end.

Definition is_number_key (k : pykey) : bool :=
  match key_number k with Some _ => true | None => false end.

(** [sorted] compares the keys with [<], which raises [TypeError]
    between a string and a number and between [None] and anything: the
    keys can be sorted when there is at most one, or they are all
    strings, or all numbers. *)
Definition sortable (keys : list pykey) : bool :=
  (length keys <=? 1)%nat || forallb is_str_key keys || forallb is_number_key keys.

(** [sorted(d.items())] on keys that can be sorted: an insertion sort,
    which keeps the order of equal keys as [sorted] does. *)
Fixpoint insert_by_key {A : Type} (kv : pykey * A) (sorted : list (pykey * A))
  : list (pykey * A) :=
  match sorted with
  | [] => [kv]
  | kv' :: sorted' =>
      if key_ltb (fst kv') (fst kv) then kv' :: insert_by_key kv sorted'
      else kv :: sorted
  end.

Definition sorted_items {A : Type} (items : list (pykey * A)) : list (pykey * A) :=
  fold_right insert_by_key [] items.

(** The values of a list of results, or the first exception. *)
Fixpoint all_ok {A : Type} (rs : list (result A)) : result (list A) :=
  match rs with
  | [] => Ok []
  | r :: rs' => rbind r (fun a => rbind (all_ok rs') (fun l => Ok (a :: l)))
  end.

(** [json.loads(json.dumps(v, sort_keys=True))]: the document written
    for [v], as it is read back, or the [TypeError] of [json.dumps].
    Scalars and strings come back as they are (a float is written with
    [repr], which [float] reads back exactly); a list comes back with
    the documents of its items; a dictionary comes back with its
    entries in the order of its keys, the keys written by [json_key],
    and raises [TypeError] when its keys cannot be sorted. [TypeError]
    is the only exception, so it does not matter here that [json.dumps]
    sorts the entries before it turns to the values. *)
Fixpoint json_value (v : pyval) : result pyval :=
  match v with
  | PList items =>
      rbind (all_ok (map json_value items)) (fun items' => Ok (PList items'))
  | PDict items =>
      if sortable (map fst items)
      then
        rbind (all_ok
                 (map (fun kv => rbind (snd kv)
                                   (fun v' => Ok (KStr (json_key (fst kv)), v')))
                    (sorted_items
                       (map (fun kv => (fst kv, json_value (snd kv))) items))))
              (fun pairs => Ok (PDict (dict_of_pairs pairs)))
      else Raise TypeError
  | _ => Ok v
  end.

(** The document of a mapping with string keys, as [MyShelf.data] is:
    the keys are strings already, and a mapping has no order. *)
Definition json_object (d : gmap string pyval) : result (gmap string pyval) :=
  if decide (map_Forall (fun _ v => is_ok (json_value v) = true) d)
  then Ok (omap (fun v => match json_value v with
                           | Ok v' => Some v'
                           | Raise _ => None
                           end) d)
  else Raise TypeError.

(** ** gimp_sd_a1111.py: constants *)

Definition MAX_BATCH_SIZE : Z := 20.

Definition STABLE_DIFF_AUTO1111_DEFAULT_SETTINGS : gmap string pyval :=
  list_to_map
    [ ("api_base", PStr "http://127.0.0.1:7860");
      ("batch_size", PInt 1);
      ("cfg_scale", PFloat (75 # 10));
      ("cn_models", PList []);
      ("denoising_strength", PFloat (8 # 10));
      ("height", PInt 512);
      ("is_server_running", PBool false);
      ("mask_blur", PInt 4);
      ("model", PStr EmptyString);
      ("models", PList []);
      ("negative_prompt", PStr EmptyString);
      ("prompt", PStr EmptyString);
      ("sampler_name", PStr "Euler a");
      ("sd_model_checkpoint", PNone);
      ("seed", PInt (-1));
      ("steps", PInt 50);
      ("width", PInt 512) ].

Definition SAMPLERS : list string :=
  [ "Euler a"; "Euler"; "LMS"; "Heun"; "DPM2"; "DPM2 a"; "DPM++ 2S a";
    "DPM++ 2M"; "DPM++ SDE"; "DPM fast"; "DPM adaptive"; "LMS Karras";
    "DPM2 Karras"; "DPM2 a Karras"; "DPM++ 2S a Karras"; "DPM++ 2M Karras";
    "DPM++ SDE Karras"; "DDIM" ].

Definition CONTROLNET_DEFAULT_SETTINGS : list (pykey * pyval) :=
  dict_of_pairs
    [ (KStr "input_image", PStr EmptyString);
      (KStr "mask", PStr EmptyString);
      (KStr "module", PStr "none");
      (KStr "model", PStr "none");
      (KStr "weight", PFloat 1);
      (KStr "resize_mode", PStr "Scale to Fit (Inner Fit)");
      (KStr "lowvram", PBool false);
      (KStr "processor_res", PInt 64);
      (KStr "threshold_a", PInt 64);
      (KStr "threshold_b", PInt 64);
      (KStr "guidance", PFloat 1);
      (KStr "guidance_start", PFloat 0);
      (KStr "guidance_end", PFloat 1);
      (KStr "control_mode", PInt 0) ].

(** ** The world the plug-in runs in *)

(** What the logger receives; [LogException] is [LOGGER.exception]: an
    error record followed by the traceback. *)
Inductive log_level : Type :=
| LogDebug | LogInfo | LogWarning | LogError | LogException.

(** A request handed to [urlopen]; the body is the JSON document that
    [json.dumps] writes. *)
Record http_request : Type := {
  req_url : string;
  req_data : option pyval;
  req_headers : list (string * string)
}.

(** What comes back; the body is the document [json.loads] reads, or
    nothing when the body is not JSON. *)
Record http_reply : Type := {
  rep_code : Z;
  rep_reason : string;
  rep_headers : string;
  rep_body : option pyval
}.

(** How a call of [urlopen] ends: with a reply, or with the exception
    raised before any reply came ([URLError] when the server cannot be
    reached, something else for a URL that cannot be used). *)
Inductive net_outcome : Type :=
| Replied (r : http_reply)
| Fails (e : exn).

(** The settings file [stable_diffusion_auto1111.json]: absent, holding
    something [json.load] rejects, or holding a JSON object, kept as the
    mapping [json.load] reads from it. *)
Inductive file_state : Type :=
| NoFile
| Corrupt
| JsonObject (m : gmap string pyval).

(** The content of a layer, as far as the plug-in can tell. *)
Inductive pixels : Type :=
| Png (base64_data : string)
| Scaled (p : pixels) (width height : Z).

(** A GIMP layer object. [l_parasite] is the parasite named
    [stabdiffauto1111], as the JSON document it holds; [l_attached]
    tells whether the layer is in the image's layer stack. *)
Record layer : Type := {
  l_name : string;
  l_width : Z;
  l_height : Z;
  l_pixels : pixels;
  l_mask : option pixels;
  l_parasite : option pyval;
  l_attached : bool
}.

Record world : Type := {
  w_log : list (log_level * string);
  (* the network: the requests made so far and how the other end answers *)
  w_sent : list http_request;
  w_answer : http_request -> net_outcome;
  (* the settings file and whether it can be written *)
  w_file : file_state;
  w_writable : bool;
  (* MyShelf.data, ApiClient.base_url, the plug-in's attributes *)
  w_data : gmap string pyval;
  w_base_url : pyval;
  w_is_server_running : bool;
  w_layer_count : Z;
  (* the layer objects GIMP holds, by handle *)
  w_layers : gmap nat layer;
  (* the dictionaries the callers of the shelf hold, by address, and the
     address of MyShelf.data when it is one of them *)
  w_objects : gmap nat (gmap string pyval);
  w_data_at : option nat
}.

(** How the loading of an image given in base64 ends:
    [base64.b64decode] raises on a text that is not base64
    ([binascii.Error], a [ValueError]), [Gimp.file_load_layer] gives
    [None] for a file it cannot load, or raises. *)
Inductive load_outcome : Type :=
| Loaded
| NoLayer
| LoadRaises (e : exn).

(** What GIMP and the library do that the plug-in's code does not
    determine: how the loading of a text ends, the size of the image a
    PNG decodes to, and the PNG (in base64) written for a layer or for a
    mask. *)
Class GimpHost : Type := {
  png_load : string -> load_outcome;
  png_width : string -> Z;
  png_height : string -> Z;
  file_save_layer : layer -> string;
  file_save_mask : pixels -> string
}.

(** ** Computations over the world *)

Definition M (A : Type) : Type := world -> result A * world.

Definition ret {A : Type} (a : A) : M A := fun w => (Ok a, w).

Definition bind {A B : Type} (c : M A) (k : A -> M B) : M B :=
  fun w =>
    match c w with
    | (Ok a, w') => k a w'
    | (Raise e, w') => (Raise e, w')
    end.

Definition raise {A : Type} (e : exn) : M A := fun w => (Raise e, w).

Definition lift {A : Type} (r : result A) : M A := fun w => (r, w).

Definition gets {A : Type} (f : world -> A) : M A := fun w => (Ok (f w), w).

Definition modify (f : world -> world) : M unit := fun w => (Ok tt, f w).

(** [try: body except <handles>: handler]; an exception the clause does
    not name goes on to the caller. *)
Definition try_except {A : Type} (body : M A) (handles : exn -> bool)
    (handler : exn -> M A) : M A :=
  fun w =>
    match body w with
    | (Ok a, w') => (Ok a, w')
    | (Raise e, w') => if handles e then handler e w' else (Raise e, w')
    end.

Declare Scope py_scope.
Delimit Scope py_scope with py.
Notation "x <- c1 ;; c2" := (bind c1 (fun x => c2))
  (at level 100, c1 at next level, right associativity) : py_scope.
Notation "c1 ;; c2" := (bind c1 (fun _ => c2))
  (at level 100, right associativity) : py_scope.
Local Open Scope py_scope.

(** [except Exception] and [except URLError]; [HTTPError] is a subclass
    of [URLError]. *)
Definition any_Exception (e : exn) : bool := true.

Definition is_HTTPError (e : exn) : bool :=
  match e with HTTPError _ _ _ _ => true | _ => false end.

Definition is_URLError (e : exn) : bool :=
  match e with HTTPError _ _ _ _ | URLError _ => true | _ => false end.

Definition set_log (f : list (log_level * string) -> list (log_level * string))
    (w : world) : world :=
  {| w_log := f (w_log w); w_sent := w_sent w; w_answer := w_answer w;
     w_file := w_file w; w_writable := w_writable w; w_data := w_data w;
     w_base_url := w_base_url w; w_is_server_running := w_is_server_running w;
     w_layer_count := w_layer_count w; w_layers := w_layers w;
     w_objects := w_objects w; w_data_at := w_data_at w |}.

Definition set_sent (f : list http_request -> list http_request) (w : world) : world :=
  {| w_log := w_log w; w_sent := f (w_sent w); w_answer := w_answer w;
     w_file := w_file w; w_writable := w_writable w; w_data := w_data w;
     w_base_url := w_base_url w; w_is_server_running := w_is_server_running w;
     w_layer_count := w_layer_count w; w_layers := w_layers w;
     w_objects := w_objects w; w_data_at := w_data_at w |}.

Definition set_file (f : file_state) (w : world) : world :=
  {| w_log := w_log w; w_sent := w_sent w; w_answer := w_answer w;
     w_file := f; w_writable := w_writable w; w_data := w_data w;
     w_base_url := w_base_url w; w_is_server_running := w_is_server_running w;
     w_layer_count := w_layer_count w; w_layers := w_layers w;
     w_objects := w_objects w; w_data_at := w_data_at w |}.

(** A change of [self.data] in place ([update], [self.data[name] = v]):
    when [self.data] is a dictionary of the caller, that dictionary is
    the one that changes. *)
Definition set_data (d : gmap string pyval) (w : world) : world :=
  {| w_log := w_log w; w_sent := w_sent w; w_answer := w_answer w;
     w_file := w_file w; w_writable := w_writable w; w_data := d;
     w_base_url := w_base_url w; w_is_server_running := w_is_server_running w;
     w_layer_count := w_layer_count w; w_layers := w_layers w;
     w_objects := match w_data_at w with
                  | Some a => <[a := d]> (w_objects w)
                  | None => w_objects w
                  end;
     w_data_at := w_data_at w |}.

(** What the dictionary at an address holds; an address the store does
    not know stands for an empty dictionary. *)
Definition dict_at (a : nat) (w : world) : gmap string pyval :=
  match w_objects w !! a with
  | Some d => d
  | None => ∅
  end.

(** [self.data = default_shelf]: from now on [self.data] is the
    dictionary of the caller, not a copy of it. *)
Definition bind_data (a : nat) (w : world) : world :=
  {| w_log := w_log w; w_sent := w_sent w; w_answer := w_answer w;
     w_file := w_file w; w_writable := w_writable w; w_data := dict_at a w;
     w_base_url := w_base_url w; w_is_server_running := w_is_server_running w;
     w_layer_count := w_layer_count w; w_layers := w_layers w;
     w_objects := w_objects w; w_data_at := Some a |}.

(** [self.data = json.load(f)]: a new dictionary, which nobody else
    holds. *)
Definition own_data (m : gmap string pyval) (w : world) : world :=
  {| w_log := w_log w; w_sent := w_sent w; w_answer := w_answer w;
     w_file := w_file w; w_writable := w_writable w; w_data := m;
     w_base_url := w_base_url w; w_is_server_running := w_is_server_running w;
     w_layer_count := w_layer_count w; w_layers := w_layers w;
     w_objects := w_objects w; w_data_at := None |}.

Definition set_objects
    (f : gmap nat (gmap string pyval) -> gmap nat (gmap string pyval))
    (w : world) : world :=
  {| w_log := w_log w; w_sent := w_sent w; w_answer := w_answer w;
     w_file := w_file w; w_writable := w_writable w; w_data := w_data w;
     w_base_url := w_base_url w; w_is_server_running := w_is_server_running w;
     w_layer_count := w_layer_count w; w_layers := w_layers w;
     w_objects := f (w_objects w); w_data_at := w_data_at w |}.

Definition set_is_server_running (b : bool) (w : world) : world :=
  {| w_log := w_log w; w_sent := w_sent w; w_answer := w_answer w;
     w_file := w_file w; w_writable := w_writable w; w_data := w_data w;
     w_base_url := w_base_url w; w_is_server_running := b;
     w_layer_count := w_layer_count w; w_layers := w_layers w;
     w_objects := w_objects w; w_data_at := w_data_at w |}.

Definition set_layer_count (n : Z) (w : world) : world :=
  {| w_log := w_log w; w_sent := w_sent w; w_answer := w_answer w;
     w_file := w_file w; w_writable := w_writable w; w_data := w_data w;
     w_base_url := w_base_url w; w_is_server_running := w_is_server_running w;
     w_layer_count := n; w_layers := w_layers w;
     w_objects := w_objects w; w_data_at := w_data_at w |}.

Definition set_layers (f : gmap nat layer -> gmap nat layer) (w : world) : world :=
  {| w_log := w_log w; w_sent := w_sent w; w_answer := w_answer w;
     w_file := w_file w; w_writable := w_writable w; w_data := w_data w;
     w_base_url := w_base_url w; w_is_server_running := w_is_server_running w;
     w_layer_count := w_layer_count w; w_layers := f (w_layers w);
     w_objects := w_objects w; w_data_at := w_data_at w |}.

Definition LOGGER (lvl : log_level) (msg : string) : M unit :=
  modify (set_log (fun l => l ++ [(lvl, msg)])).

(** ** urllib.request.urlopen

    One request goes out; a reply outside 200..299 is raised as an
    [HTTPError] carrying the URL, the code, the reason and the
    headers. The reply is the one [urlopen] ends with: a redirection
    that urllib follows by itself is not a reply here. *)
Definition urlopen (r : http_request) : M http_reply :=
  modify (set_sent (fun l => l ++ [r])) ;;
  answer <- gets w_answer ;;
  match answer r with
  | Replied rep =>
      if ((200 <=? rep_code rep) && (rep_code rep <? 300))%Z then ret rep
      else raise (HTTPError (req_url r) (rep_code rep) (rep_reason rep) (rep_headers rep))
  | Fails e => raise e
  end.

(** sd_gui_utils.server_online *)
Definition server_online (url_in : string) : M bool :=
  try_except
    (urlopen {| req_url := url_in; req_data := None; req_headers := [] |} ;;
     ret true)
    is_URLError
    (fun _ =>
       LOGGER LogException ("Could not connect to " +:+ url_in) ;;
       ret false).

(** ** MyShelf: the settings kept in a JSON file *)

Definition shelf_file_name : string := "stable_diffusion_auto1111.json".

(** [MyShelf.load]; [default_shelf] is the address of the dictionary
    the caller gives. [self.data] is that dictionary itself first, and
    the new dictionary read from the file when there is one to read. *)
Definition MyShelf_load (default_shelf : nat) : M unit :=
  modify (bind_data default_shelf) ;;
  try_except
    (file <- gets w_file ;;
     match file with
     | NoFile => LOGGER LogWarning ("Did not find " +:+ shelf_file_name)
     | Corrupt =>
         LOGGER LogDebug ("Loading shelf from " +:+ shelf_file_name) ;;
         raise JSONDecodeError
     | JsonObject m =>
         LOGGER LogDebug ("Loading shelf from " +:+ shelf_file_name) ;;
         modify (own_data m) ;;
         LOGGER LogInfo ("Successfully loaded shelf from " +:+ shelf_file_name)
     end)
    any_Exception
    (fun _ => LOGGER LogException ("Error reading " +:+ shelf_file_name)).

(** [MyShelf.__init__] *)
Definition MyShelf_init (default_shelf : nat) : M unit :=
  MyShelf_load default_shelf.

(** The text logged for an exception of [save]. *)
Definition save_error_text (e : exn) : string :=
  match e with
  | TypeError => "'<' not supported between the keys"
  | _ => "Permission denied"
  end.

(** [MyShelf.save]: [self.data.update(data)], in place, then the whole
    mapping is written with [json.dump]. A file that cannot be opened
    for writing raises inside the [try] and is left as it was. A file
    that can is emptied when it is opened, and [json.dump] writes the
    text piece by piece: when it raises on the way the file is left with
    the start of a text, which [json.load] rejects. *)
Definition MyShelf_save (data : gmap string pyval) : M unit :=
  try_except
    (modify (fun w => set_data (data ∪ w_data w) w) ;;
     LOGGER LogInfo ("Saving shelf to " +:+ shelf_file_name) ;;
     writable <- gets w_writable ;;
     (if writable : bool
      then
        d <- gets w_data ;;
        match json_object d with
        | Ok document => modify (set_file (JsonObject document))
        | Raise e => modify (set_file Corrupt) ;; raise e
        end
      else raise OSError) ;;
     LOGGER LogInfo ("Successfully saved shelf to " +:+ shelf_file_name))
    any_Exception
    (fun e => LOGGER LogException (save_error_text e)).

(** [MyShelf.get] *)
Definition MyShelf_get (name : string) (default_value : pyval) : M pyval :=
  d <- gets w_data ;;
  match d !! name with
  | Some v => ret v
  | None => ret default_value
  end.

(** ** ApiClient *)

(** [a + b] where [b] is a [str]. *)
Definition py_concat (a : pyval) (b : string) : result string :=
  match a with
  | PStr s => Ok (s +:+ b)
  | _ => Raise TypeError
  end.

Definition json_headers : list (string * string) :=
  [ ("Content-Type", "application/json"); ("Accept", "application/json") ].

(** [ApiClient.post], with [params] left at its default and [DEBUG]
    off. The [except] clause ends without a [return]: the caller gets
    [None]. *)
Definition ApiClient_post (endpoint : string) (dict_in : pyval)
    (headers : list (string * string)) : M pyval :=
  try_except
    (base_url <- gets w_base_url ;;
     url <- lift (py_concat base_url (endpoint +:+ "?")) ;;
     LOGGER LogWarning ("POST " +:+ url) ;;
     let headers := match headers with [] => json_headers | _ => headers end in
     response <- urlopen {| req_url := url; req_data := Some dict_in;
                            req_headers := headers |} ;;
     match rep_body response with
     | Some response_dict => ret response_dict
     | None => raise JSONDecodeError
     end)
    is_HTTPError
    (fun ex =>
       LOGGER LogException "ERROR: ApiClient.post()" ;;
       match ex with
       | HTTPError url code reason hdrs =>
           LOGGER LogError ("url=" +:+ url +:+ ", code=" +:+ pretty code
                            +:+ ", reason=" +:+ reason) ;;
           LOGGER LogError hdrs
       | _ => ret tt
       end ;;
       ret PNone).

(** ** poll_server *)

Definition poll_server : M bool :=
  server_url <- MyShelf_get "api_base" PNone ;;
  match server_url with
  | PNone => raise (ValueError "api_base setting is missing.")
  | PStr url =>
      if String.eqb (py_strip url) EmptyString
      then raise (ValueError "api_base setting is blank.")
      else if negb (py_startswith (py_lower url) "http://")
      then raise (ValueError ("api_base setting " +:+ dquote +:+ url +:+ dquote
                              +:+ " is not a valid http URL."))
      else
        running <- server_online url ;;
        modify (set_is_server_running running) ;;
        gets w_is_server_running
  | _ => raise AttributeError
  end.

(** ** Layers *)

Definition with_name (name : string) (l : layer) : layer :=
  {| l_name := name; l_width := l_width l; l_height := l_height l;
     l_pixels := l_pixels l; l_mask := l_mask l; l_parasite := l_parasite l;
     l_attached := l_attached l |}.

Definition with_parasite (doc : option pyval) (l : layer) : layer :=
  {| l_name := l_name l; l_width := l_width l; l_height := l_height l;
     l_pixels := l_pixels l; l_mask := l_mask l; l_parasite := doc;
     l_attached := l_attached l |}.

Definition with_attached (b : bool) (l : layer) : layer :=
  {| l_name := l_name l; l_width := l_width l; l_height := l_height l;
     l_pixels := l_pixels l; l_mask := l_mask l; l_parasite := l_parasite l;
     l_attached := b |}.

(** [Gimp.Layer.scale]: the layer and its mask take the new size. *)
Definition layer_scale (width height : Z) (l : layer) : layer :=
  {| l_name := l_name l; l_width := width; l_height := height;
     l_pixels := Scaled (l_pixels l) width height;
     l_mask := (fun m => Scaled m width height) <$> l_mask l;
     l_parasite := l_parasite l; l_attached := l_attached l |}.

(** [Gimp.Layer.copy]: a new object, not in any image. *)
Definition layer_copy (l : layer) : layer :=
  with_attached false (with_name (l_name l +:+ " copy") l).

(** The layer behind a handle; GIMP rejects a handle it does not know. *)
Definition the_layer (h : nat) : M layer :=
  ls <- gets w_layers ;;
  match ls !! h with
  | Some l => ret l
  | None => raise (ValueError "invalid layer")
  end.

Definition update_layer (h : nat) (f : layer -> layer) : M unit :=
  the_layer h ;;
  modify (set_layers (alter f h)).

(** A new layer object gets a handle no other object has. *)
Definition new_layer (l : layer) : M nat :=
  ls <- gets w_layers ;;
  let h := fresh (dom ls) in
  modify (set_layers (insert h l)) ;;
  ret h.

(** *** LayerData: the JSON document attached to a layer *)

(** [x.copy()] exists on a [dict] and on a [list]. *)
Definition py_copy (v : pyval) : result pyval :=
  match v with
  | PDict _ | PList _ => Ok v
  | _ => Raise AttributeError
  end.

(** [LayerData.__init__] with [LayerData.load]: [defaults] of [None]
    stands for an empty dictionary; the value is [self.data]. *)
Definition LayerData_load (layer_in : nat) (defaults : pyval) : M pyval :=
  let defaults := match defaults with PNone => PDict [] | _ => defaults end in
  l <- the_layer layer_in ;;
  match l_parasite l with
  | None =>
      data <- lift (py_copy defaults) ;;
      ret (as_strings_deeply data)
  | Some doc => ret (as_strings_deeply doc)
  end.

(** [LayerData.save]: the text of [json.dumps(data, sort_keys=True)]
    becomes the parasite. *)
Definition LayerData_save (layer_in : nat) (data : pyval) : M unit :=
  dumped <- lift (json_value data) ;;
  update_layer layer_in (with_parasite (Some dumped)).

(** *** LayerLocal *)

Record LayerLocal : Type := { ll_id : Z; ll_layer : nat }.

(** [d.update({k: v})] exists on a [dict]. *)
Definition py_update (d : pyval) (k : string) (v : pyval) : result pyval :=
  match d with
  | PDict items => Ok (PDict (dict_update items [(KStr k, v)]))
  | _ => Raise AttributeError
  end.

Section Gimp.
Context `{GimpHost}.

(** [LayerLocal.__init__] *)
Definition LayerLocal_init (layer_in : nat) : M LayerLocal :=
  the_layer layer_in ;;
  n <- gets w_layer_count ;;
  modify (set_layer_count (n + 1)) ;;
  ret {| ll_id := n; ll_layer := layer_in |}.

(** [LayerLocal.from_base64]. When [Gimp.file_load_layer] gives [None],
    the wrapper made of it has a number and no layer, and raises
    [AttributeError] at the first use of its layer; the two calls of
    [from_base64] go on with [rename], so the exception is raised
    here. *)
Definition LayerLocal_from_base64 (base64_data : string) : M LayerLocal :=
  match png_load base64_data with
  | LoadRaises e => raise e
  | NoLayer =>
      n <- gets w_layer_count ;;
      modify (set_layer_count (n + 1)) ;;
      raise AttributeError
  | Loaded =>
      h <- new_layer {| l_name := "generated.png";
                        l_width := png_width base64_data;
                        l_height := png_height base64_data;
                        l_pixels := Png base64_data;
                        l_mask := None; l_parasite := None; l_attached := false |} ;;
      LayerLocal_init h
  end.

Definition LayerLocal_rename (self : LayerLocal) (name : string) : M LayerLocal :=
  update_layer (ll_layer self) (with_name name) ;;
  ret self.

Definition LayerLocal_save_data (self : LayerLocal) (data : pyval) : M LayerLocal :=
  LayerData_load (ll_layer self) PNone ;;
  LayerData_save (ll_layer self) data ;;
  ret self.

Definition LayerLocal_load_data (self : LayerLocal) (default_data : pyval) : M pyval :=
  data <- LayerData_load (ll_layer self) default_data ;;
  lift (py_copy data).

Definition LayerLocal_copy (self : LayerLocal) : M LayerLocal :=
  l <- the_layer (ll_layer self) ;;
  h <- new_layer (layer_copy l) ;;
  LayerLocal_init h.

Definition LayerLocal_resize_to_multiple_of (self : LayerLocal) (multiple : Z) : M LayerLocal :=
  l <- the_layer (ll_layer self) ;;
  width <- lift (round_to_multiple (py_float (l_width l)) multiple) ;;
  height <- lift (round_to_multiple (py_float (l_height l)) multiple) ;;
  update_layer (ll_layer self) (layer_scale width height) ;;
  ret self.

Definition LayerLocal_insert (self : LayerLocal) : M LayerLocal :=
  update_layer (ll_layer self) (with_attached true) ;;
  ret self.

Definition LayerLocal_insert_to (self : LayerLocal) : M LayerLocal :=
  update_layer (ll_layer self) (with_attached true) ;;
  ret self.

Definition LayerLocal_mask_to_base64 (self : LayerLocal) : M string :=
  l <- the_layer (ll_layer self) ;;
  match l_mask l with
  | Some m => ret (file_save_mask m)
  | None => raise OSError
  end.

Definition LayerLocal_to_base64 (self : LayerLocal) : M string :=
  l <- the_layer (ll_layer self) ;;
  ret (file_save_layer l).

Definition LayerLocal_remove (self : LayerLocal) : M LayerLocal :=
  update_layer (ll_layer self) (with_attached false) ;;
  ret self.

(** ** get_control_net_params *)

Definition get_control_net_params (cn_layer : option nat) : M pyval :=
  match cn_layer with
  | Some cn =>
      layer <- LayerLocal_init cn ;;
      data <- LayerLocal_load_data layer (PDict CONTROLNET_DEFAULT_SETTINGS) ;;
      duplicate <- LayerLocal_copy layer ;;
      duplicate <- LayerLocal_insert duplicate ;;
      layer64 <- LayerLocal_resize_to_multiple_of duplicate 64 ;;
      input_image <- LayerLocal_to_base64 layer64 ;;
      data <- lift (py_update data "input_image" (PStr input_image)) ;;
      source <- the_layer cn ;;
      data <- match l_mask source with
              | Some _ =>
                  mask <- LayerLocal_mask_to_base64 layer64 ;;
                  lift (py_update data "mask" (PStr mask))
              | None => ret data
              end ;;
      LayerLocal_remove layer64 ;;
      ret data
  | None => ret PNone
  end.

(** ** ResponseLayers *)

(** The decoded reply of a generation end point: [response["images"]],
    and what [json.loads(response["info"])] holds under [infotexts] and
    [all_seeds]. *)
Record generation_response : Type := {
  images : list string;
  infotexts : list string;
  all_seeds : list Z
}.

(** ["skip_annotator_layers" in options and not
    options["skip_annotator_layers"]] *)
Definition annotator_layers_wanted (options : gmap string pyval) : bool :=
  match options !! "skip_annotator_layers" with
  | Some skip => negb (truthy skip)
  | None => false
  end.

(** The body of the loop over [response["images"]], up to the
    [layers.append]: the handle to append, or the exception raised. *)
Definition response_layer (response : generation_response)
    (options : gmap string pyval) (index : nat) (image : string) : M nat :=
  layer_local <-
    (if (index <? length (all_seeds response))%nat
     then
       info <- lift (py_getitem (infotexts response) (Z.of_nat index)) ;;
       seed <- lift (py_getitem (all_seeds response) (Z.of_nat index)) ;;
       let layer_data :=
         PDict (dict_of_pairs [(KStr "info", PStr info); (KStr "seed", PInt seed)]) in
       fresh_layer <- LayerLocal_from_base64 image ;;
       fresh_layer <- LayerLocal_rename fresh_layer ("Generated Layer " +:+ pretty seed) ;;
       fresh_layer <- LayerLocal_save_data fresh_layer layer_data ;;
       fresh_layer <- LayerLocal_insert_to fresh_layer ;;
       ret (Some fresh_layer)
     else
       if annotator_layers_wanted options
       then
         fresh_layer <- LayerLocal_from_base64 image ;;
         fresh_layer <- LayerLocal_rename fresh_layer "Annotator Layer" ;;
         fresh_layer <- LayerLocal_insert_to fresh_layer ;;
         ret (Some fresh_layer)
       else ret None) ;;
  match layer_local with
  | Some l => ret (ll_layer l)
  | None => raise AttributeError
  end.

(** A [for] loop that appends to a list: it stops at the first
    exception, and what was appended until then stays in the list. *)
Fixpoint for_each {A B : Type} (body : nat -> A -> M B) (index : nat)
    (xs : list A) (acc : list B) (w : world) : (list B * option exn) * world :=
  match xs with
  | [] => ((acc, None), w)
  | x :: xs' =>
      match body index x w with
      | (Ok b, w') => for_each body (S index) xs' (acc ++ [b]) w'
      | (Raise e, w') => ((acc, Some e), w')
      end
  end.

(** [ResponseLayers.__init__]: the value is [self.layers]. A [response]
    of [None] raises at [response["info"]]. The two debug records of the
    lists and the foreground colour that is set and put back are left
    out. *)
Definition ResponseLayers_init (response : option generation_response)
    (options : option (gmap string pyval)) : M (list nat) :=
  fun w =>
    let options := match options with Some o => o | None => ∅ end in
    match response with
    | None => (LOGGER LogException "ResponseLayers" ;; ret []) w
    | Some r =>
        match for_each (response_layer r options) 0 (images r) [] w with
        | ((layers, Some _), w') =>
            (LOGGER LogException "ResponseLayers" ;; ret layers) w'
        | ((layers, None), w') => (Ok layers, w')
        end
    end.

End Gimp.

(** ** The request translator *)

(** What the dialog hands to [image_to_image] and [text_to_image]: the
    scales give floats, the seed entry and the batch size are kept as
    the objects they are. *)
Record generation_args : Type := {
  resize_mode : pyval;
  p_prompt_prefix : string;
  n_prompt_prefix : string;
  seed : pyval;
  batch_size : pyval;
  steps : Q;
  mask_blur : Q;
  width : Q;
  height : Q;
  cfg_scale : Q;
  denoising_strength : Q;
  sampler_index : Z
}.

(** [int(x)] on a float: towards zero. *)
Definition py_int (x : Q) : Z := Z.quot (Qnum x) (Z.pos (Qden x)).

(** [(prefix + " " + self.settings.get(key)).strip()] *)
Definition prompt_text (prefix key : string) : M string :=
  stored <- MyShelf_get key PNone ;;
  match stored with
  | PStr s => ret (py_strip (prefix +:+ " " +:+ s))
  | _ => raise TypeError
  end.

(** [min(StabDiffAuto1111.MAX_BATCH_SIZE, max(1, batch_size))] *)
Definition clamp_batch_size (batch_size : pyval) : result pyval :=
  rbind (py_max (PInt 1) batch_size) (fun m => py_min (PInt MAX_BATCH_SIZE) m).

(** The [data] dictionary of [image_to_image]; [init_image] is what
    [get_active_layer_as_base64] gave. *)
Definition image_to_image_data (a : generation_args) (init_image : string)
  : M (list (pykey * pyval)) :=
  prompt <- prompt_text (p_prompt_prefix a) "prompt" ;;
  negative_prompt <- prompt_text (n_prompt_prefix a) "negative_prompt" ;;
  w <- lift (round_to_multiple (width a) 8) ;;
  h <- lift (round_to_multiple (height a) 8) ;;
  sampler <- lift (py_getitem SAMPLERS (sampler_index a)) ;;
  batch <- lift (clamp_batch_size (batch_size a)) ;;
  ret (dict_of_pairs
         [ (KStr "resize_mode", resize_mode a);
           (KStr "init_images", PList [PStr init_image]);
           (KStr "prompt", PStr prompt);
           (KStr "negative_prompt", PStr negative_prompt);
           (KStr "denoising_strength", PFloat (denoising_strength a));
           (KStr "steps", PInt (py_int (steps a)));
           (KStr "cfg_scale", PFloat (cfg_scale a));
           (KStr "width", PInt w);
           (KStr "height", PInt h);
           (KStr "sampler_index", PStr sampler);
           (KStr "batch_size", batch);
           (KStr "seed", py_or (seed a) (PInt (-1))) ]).

(** The [data] dictionary of [text_to_image]. *)
Definition text_to_image_data (a : generation_args) : M (list (pykey * pyval)) :=
  prompt <- prompt_text (p_prompt_prefix a) "prompt" ;;
  negative_prompt <- prompt_text (n_prompt_prefix a) "negative_prompt" ;;
  w <- lift (round_to_multiple (width a) 8) ;;
  h <- lift (round_to_multiple (height a) 8) ;;
  sampler <- lift (py_getitem SAMPLERS (sampler_index a)) ;;
  batch <- lift (clamp_batch_size (batch_size a)) ;;
  ret (dict_of_pairs
         [ (KStr "prompt", PStr prompt);
           (KStr "negative_prompt", PStr negative_prompt);
           (KStr "cfg_scale", PFloat (cfg_scale a));
           (KStr "denoising_strength", PFloat (denoising_strength a));
           (KStr "steps", PInt (py_int (steps a)));
           (KStr "width", PInt w);
           (KStr "height", PInt h);
           (KStr "mask_blur", PInt (py_int (mask_blur a)));
           (KStr "sampler_index", PStr sampler);
           (KStr "batch_size", batch);
           (KStr "seed", py_or (seed a) (PInt (-1))) ]).

(** ** More of sd_gui_utils.py *)

(** [i in chars] for a character [i]. *)
Definition py_in_chars (i : ascii) (chars : string) : bool :=
  existsb (Ascii.eqb i) (list_ascii_of_string chars).

(** [''.join([i for i in text if i in chars])] *)
Fixpoint join_chars_in (chars text : string) : string :=
  match text with
  | EmptyString => EmptyString
  | String i text' =>
      if py_in_chars i chars then String i (join_chars_in chars text')
      else join_chars_in chars text'
  end.

(** The handler [filter_numbers] that [restrict_to_ints] connects to the
    [changed] signal of an entry: from the text of the entry to the text
    it puts back. *)
Definition filter_numbers (text : string) : string :=
  join_chars_in "0123456789-" (py_strip text).

(** ** More of the settings shelf *)

(** [MyShelf.assert_settings_available]; [self.data] is a mapping here,
    so the two tests for [None] pass. *)
Definition MyShelf_assert_settings_available : M unit :=
  d <- gets w_data ;;
  match d !! "api_base" with
  | Some _ => ret tt
  | None => raise (ValueError "api_base value unavailable.")
  end.

(** [MyShelf.set]: the entry is put in [self.data] in place, and [save]
    is called with its default, the empty mapping. *)
Definition MyShelf_set (name : string) (default_value : pyval) : M unit :=
  modify (fun w => set_data (<[name := default_value]> (w_data w)) w) ;;
  MyShelf_save ∅.

(** ** The plug-in instance *)

(** A new dictionary object, at an address no other has. *)
Definition new_dict (d : gmap string pyval) : M nat :=
  objects <- gets w_objects ;;
  let a := fresh (dom objects) in
  modify (set_objects (insert a d)) ;;
  ret a.

Definition set_base_url (base_url : pyval) (w : world) : world :=
  {| w_log := w_log w; w_sent := w_sent w; w_answer := w_answer w;
     w_file := w_file w; w_writable := w_writable w; w_data := w_data w;
     w_base_url := base_url; w_is_server_running := w_is_server_running w;
     w_layer_count := w_layer_count w; w_layers := w_layers w;
     w_objects := w_objects w; w_data_at := w_data_at w |}.

(** [ApiClient.set_base_url] and [ApiClient.__init__] *)
Definition ApiClient_set_base_url (base_url : pyval) : M unit :=
  modify (set_base_url base_url).

Definition ApiClient_init (base_url : pyval) : M unit :=
  modify (set_base_url PNone) ;;
  ApiClient_set_base_url base_url.

(** [a + b] where [a] is a [str]. *)
Definition py_concat_to (a : string) (b : pyval) : result string :=
  match b with
  | PStr s => Ok (a +:+ s)
  | _ => Raise TypeError
  end.

(** [StabDiffAuto1111.__init__]. The attributes that the world does not
    hold ([_name], [_image], [_files], [_models], [_sd_model_checkpoint],
    [_skip_a1111]) are assigned without any call that could raise, apart
    from [self._settings.get("models", [])], which returns.
    [__init_plugin] finds the class flag that [__new__] has just
    cleared, sets it and returns. The text of [Gimp.message] is built
    and shown; showing it changes nothing here.

    The shelf is given the class attribute
    [STABLE_DIFF_AUTO1111_DEFAULT_SETTINGS], one dictionary, made from
    its literal when the class statement runs. GIMP starts a process for
    a plug-in and makes the one plug-in object of that process right
    after the module is loaded, so [__init__] finds the dictionary as
    the literal made it: a new object [default_settings]. *)
Definition StabDiffAuto1111_init : M unit :=
  default_settings <- new_dict STABLE_DIFF_AUTO1111_DEFAULT_SETTINGS ;;
  MyShelf_init default_settings ;;
  MyShelf_assert_settings_available ;;
  modify (set_layer_count 1) ;;
  api_base <- MyShelf_get "api_base" PNone ;;
  ApiClient_init api_base ;;
  MyShelf_get "models" (PList []) ;;
  modify (set_is_server_running false) ;;
  poll_server ;;
  running <- gets w_is_server_running ;;
  if running : bool then ret tt
  else
    api_base <- MyShelf_get "api_base" PNone ;;
    lift (py_concat_to "It seems that StableDiffusion is not running on " api_base) ;;
    ret tt.

(** [StabDiffAuto1111.config] *)
Definition config (prompt negative_prompt url : string) : M unit :=
  MyShelf_save
    (list_to_map [ ("prompt", PStr prompt);
                   ("negative_prompt", PStr negative_prompt);
                   ("api_base", PStr url) ]).

(** ** ApiClient.get and fetch_stablediffusion_options *)

(** [ApiClient.get], with [params] left at its default. The first
    statement reads the class attribute [StabDiffAuto1111.skip_a1111],
    which [__new__] creates (as [True]) only when the environment holds
    [skip_a1111]; [skip_a1111] is that attribute when the class has it.
    The read is outside the [try]. *)
Definition ApiClient_get (skip_a1111 : option pyval) (endpoint : string)
    (headers : list (string * string)) : M pyval :=
  match skip_a1111 with
  | None => raise AttributeError
  | Some skip =>
      if truthy skip then ret PNone
      else
        try_except
          (base_url <- gets w_base_url ;;
           url <- lift (py_concat base_url (endpoint +:+ "?")) ;;
           LOGGER LogDebug ("POST " +:+ url) ;;
           let headers := match headers with [] => json_headers | _ => headers end in
           response <- urlopen {| req_url := url; req_data := None;
                                  req_headers := headers |} ;;
           match rep_body response with
           | Some data => ret data
           | None => raise JSONDecodeError
           end)
          is_HTTPError
          (fun ex =>
             LOGGER LogException "ERROR: ApiClient.get" ;;
             match ex with
             | HTTPError url code reason hdrs =>
                 LOGGER LogError ("url=" +:+ url +:+ ", code=" +:+ pretty code
                                  +:+ ", reason=" +:+ reason) ;;
                 LOGGER LogError hdrs
             | _ => ret tt
             end ;;
             ret PNone)
  end.

(** [v.get(key, default_value)]: a method of [dict]. *)
Definition py_get_method (v : pyval) (key : string) (default_value : pyval)
  : result pyval :=
  match v with
  | PDict items =>
      Ok (match dict_get (KStr key) items with
          | Some x => x
          | None => default_value
          end)
  | _ => Raise AttributeError
  end.

(** [v[key]] for a [str] key: a [dict] looks the key up, a list or a
    string wants an integer, nothing else can be subscripted. *)
Definition py_getitem_str (v : pyval) (key : string) : result pyval :=
  match v with
  | PDict items =>
      match dict_get (KStr key) items with
      | Some x => Ok x
      | None => Raise (KeyError key)
      end
  | _ => Raise TypeError
  end.

(** [v[i]] for an [int] index. *)
Definition py_getitem_int (v : pyval) (i : Z) : result pyval :=
  match v with
  | PList items => py_getitem items i
  | PStr s =>
      rbind (py_getitem (list_ascii_of_string s) i)
            (fun c => Ok (PStr (String c EmptyString)))
  | PDict items =>
      match dict_get (KInt i) items with
      | Some x => Ok x
      | None => Raise (KeyError (pretty i))
      end
  | _ => Raise TypeError
  end.

Definition pyval_of_key (k : pykey) : pyval :=
  match k with
  | KNone => PNone
  | KBool b => PBool b
  | KInt n => PInt n
  | KStr s => PStr s
  end.

(** What a [for] or a [map] goes through: the items of a list, the keys
    of a [dict], the characters of a string. *)
Definition py_iter (v : pyval) : result (list pyval) :=
  match v with
  | PList items => Ok items
  | PDict items => Ok (map (fun kv => pyval_of_key (fst kv)) items)
  | PStr s => Ok (map (fun c => PStr (String c EmptyString)) (list_ascii_of_string s))
  | _ => Raise TypeError
  end.

(** [list(map(f, xs))]: the first exception ends it. *)
Fixpoint map_result {A B : Type} (f : A -> result B) (xs : list A) : result (list B) :=
  match xs with
  | [] => Ok []
  | x :: xs' =>
      rbind (f x) (fun y => rbind (map_result f xs') (fun ys => Ok (y :: ys)))
  end.

(** [a + b] where [a] is a list. *)
Definition py_list_add (a : list pyval) (b : pyval) : result pyval :=
  match b with
  | PList items => Ok (PList (a ++ items))
  | _ => Raise TypeError
  end.

Definition fetch_stablediffusion_options (skip_a1111 : option pyval) : M unit :=
  try_except
    (reply <- ApiClient_get skip_a1111 "/sdapi/v1/options" [] ;;
     let options := as_strings_deeply (py_or reply (PDict [])) in
     sd_model_checkpoint_local <-
       lift (py_get_method options "sd_model_checkpoint" PNone) ;;
     reply <- ApiClient_get skip_a1111 "/sdapi/v1/sd-models" [] ;;
     items <- lift (py_iter (py_or reply (PList []))) ;;
     models_local <- lift (map_result (fun data => py_getitem_str data "title") items) ;;
     reply <- ApiClient_get skip_a1111 "/controlnet/model_list" [] ;;
     cn_models <- lift (py_get_method (py_or reply (PDict [])) "model_list" (PList [])) ;;
     cn_models <- lift (py_list_add [PStr "None"] cn_models) ;;
     MyShelf_save
       (list_to_map [ ("models", PList models_local);
                      ("cn_models", cn_models);
                      ("sd_model_checkpoint", sd_model_checkpoint_local);
                      ("is_server_running", PBool true) ]))
    any_Exception
    (fun _ =>
       LOGGER LogException "ERROR: fetch_stablediffusion_options" ;;
       MyShelf_save {[ "is_server_running" := PBool false ]}).

(** ** change_model *)

(** [v == n] for an [int] [n]: only a number can be equal to it. *)
Definition py_eq_int (v : pyval) (n : Z) : bool :=
  match py_number v with
  | Some x => Qeq_bool x (inject_Z n)
  | None => false
  end.

(** [change_model]; [models] is [self.models], the list read from the
    settings when the plug-in started. The progress texts of GIMP are
    left out. *)
Definition change_model (models : pyval) (model_index : Z) : M unit :=
  current <- MyShelf_get "model" PNone ;;
  if py_eq_int current model_index then ret tt
  else
    try_except
      (title <- lift (py_getitem_int models model_index) ;;
       ApiClient_post "/sdapi/v1/options"
         (PDict (dict_of_pairs [(KStr "sd_model_checkpoint", title)])) [] ;;
       MyShelf_set "sd_model_checkpoint" (PInt model_index))
      any_Exception
      (fun _ => LOGGER LogException "Exception in change_model").

(** ** save_control_layer *)

Definition CONTROLNET_RESIZE_MODES : list string :=
  [ "Just Resize"; "Scale to Fit (Inner Fit)"; "Envelope (Outer Fit)" ].

Definition CONTROLNET_MODULES : list string :=
  [ "none"; "canny"; "depth"; "depth_leres"; "hed"; "mlsd"; "normal_map";
    "openpose"; "openpose_hand"; "clip_vision"; "color"; "pidinet";
    "scribble"; "fake_scribble"; "segmentation"; "binary" ].

(** What [run_layer_to_controlnet] hands to [save_control_layer],
    besides the layer: indices of combo boxes, [float(...)] of the
    weight, [bool(...)] of the check button, the value of the control
    mode box as it is, and the values of the scales, which are floats. *)
Record control_layer_args : Type := {
  module_index : Z;
  model_index : Z;
  weight : Q;
  resize_mode_index : Z;
  low_vram : bool;
  control_mode : pyval;
  guidance_start : Q;
  guidance_end : Q;
  guidance : Q;
  processor_res : Q;
  threshold_a : Q;
  threshold_b : Q
}.

(** The [cn_settings] dictionary of [save_control_layer]. *)
Definition cn_settings_of (a : control_layer_args) : M pyval :=
  cn_models <- MyShelf_get "cn_models" (PList []) ;;
  module <- lift (py_getitem CONTROLNET_MODULES (module_index a)) ;;
  model <- lift (py_getitem_int cn_models (model_index a)) ;;
  resize <- lift (py_getitem CONTROLNET_RESIZE_MODES (resize_mode_index a)) ;;
  ret (PDict (dict_of_pairs
                [ (KStr "module", PStr module);
                  (KStr "model", model);
                  (KStr "weight", PFloat (weight a));
                  (KStr "resize_mode", PStr resize);
                  (KStr "lowvram", PBool (low_vram a));
                  (KStr "control_mode", control_mode a);
                  (KStr "guidance_start", PFloat (guidance_start a));
                  (KStr "guidance_end", PFloat (guidance_end a));
                  (KStr "guidance", PFloat (guidance a));
                  (KStr "processor_res", PFloat (processor_res a));
                  (KStr "threshold_a", PFloat (threshold_a a));
                  (KStr "threshold_b", PFloat (threshold_b a)) ])).

Definition save_control_layer (active_layer : option nat) (a : control_layer_args)
  : M unit :=
  cn_settings <- cn_settings_of a ;;
  match active_layer with
  | Some l =>
      cn_layer <- LayerLocal_init l ;;
      LayerLocal_save_data cn_layer cn_settings ;;
      LayerLocal_rename cn_layer ("ControlNet" +:+ pretty (ll_id cn_layer)) ;;
      ret tt
  | None => LOGGER LogError "Unable to obtain active Layer"
  end.

(** ** The layers of a response, resized *)

(** [for x in xs: body] *)
Fixpoint for_in {A : Type} (xs : list A) (body : A -> M unit) : M unit :=
  match xs with
  | [] => ret tt
  | x :: xs' => body x ;; for_in xs' body
  end.

(** [LayerLocal.resize]; it returns nothing. *)
Definition LayerLocal_resize (self : LayerLocal) (width height : Z) : M unit :=
  LOGGER LogInfo ("Resizing to " +:+ pretty width +:+ "x" +:+ pretty height) ;;
  update_layer (ll_layer self) (layer_scale width height).

(** [ResponseLayers.resize]; the value is [self.layers]. *)
Definition ResponseLayers_resize (layers : list nat) (width height : Z)
  : M (list nat) :=
  for_in layers (fun layer =>
                   layer_local <- LayerLocal_init layer ;;
                   LayerLocal_resize layer_local width height) ;;
  ret layers.

Section GimpMore.
Context `{GimpHost}.

(** [ResponseLayers(self, image, response, {"skip_annotator_layers":
    cn_skip_annotator_layers}).resize(orig_width, orig_height)], the
    expression that ends [image_to_image] and [inpainting]. *)
Definition resized_response_layers (response : option generation_response)
    (cn_skip_annotator_layers : pyval) (orig_width orig_height : Z) : M (list nat) :=
  layers <- ResponseLayers_init response
              (Some {[ "skip_annotator_layers" := cn_skip_annotator_layers ]}) ;;
  ResponseLayers_resize layers orig_width orig_height.

(** [get_layer_as_base64]. The first layer of the image's stack is read
    at the start and put in a Python attribute of the image object at
    the end; that attribute is not a part of the world. *)
Definition get_layer_as_base64 (layer : nat) : M string :=
  layer_local <- LayerLocal_init layer ;;
  copy <- LayerLocal_copy layer_local ;;
  copy <- LayerLocal_insert copy ;;
  result <- LayerLocal_to_base64 copy ;;
  LayerLocal_remove copy ;;
  ret result.

(** The units of [image_to_image], [inpainting] and [text_to_image]:
    one for each enabled control layer, in the order 1, 2. *)
Definition controlnet_units_of (cn1_enabled : bool) (cn1_layer : option nat)
    (cn2_enabled : bool) (cn2_layer : option nat) : M (list pyval) :=
  controlnet_units <-
    (if cn1_enabled
     then unit <- get_control_net_params cn1_layer ;; ret [unit]
     else ret []) ;;
  if cn2_enabled
  then unit <- get_control_net_params cn2_layer ;; ret (controlnet_units ++ [unit])
  else ret controlnet_units.

(** [data] after the units have been put under [alwayson_scripts],
    which happens when there is a unit. *)
Definition with_controlnet_units (data : list (pykey * pyval))
    (cn1_enabled : bool) (cn1_layer : option nat)
    (cn2_enabled : bool) (cn2_layer : option nat) : M (list (pykey * pyval)) :=
  controlnet_units <- controlnet_units_of cn1_enabled cn1_layer cn2_enabled cn2_layer ;;
  if (0 <? length controlnet_units)%nat
  then
    let alwayson_scripts :=
      PDict (dict_of_pairs
               [(KStr "controlnet",
                 PDict (dict_of_pairs [(KStr "args", PList controlnet_units)]))]) in
    ret (dict_update data [(KStr "alwayson_scripts", alwayson_scripts)])
  else ret data.

End GimpMore.

(** ** The data of inpainting *)

(** The [data] dictionary of [inpainting]; [blur] is its [mask_blur]
    argument, [init_image] and [mask] are what
    [get_active_layer_as_base64] and [get_active_mask_as_base64] gave,
    the mask not being the empty string. *)
Definition inpainting_data (a : generation_args)
    (blur inpaint_full_res invert_mask : pyval) (init_image mask : string)
  : M (list (pykey * pyval)) :=
  prompt <- prompt_text (p_prompt_prefix a) "prompt" ;;
  negative_prompt <- prompt_text (n_prompt_prefix a) "negative_prompt" ;;
  w <- lift (round_to_multiple (width a) 8) ;;
  h <- lift (round_to_multiple (height a) 8) ;;
  sampler <- lift (py_getitem SAMPLERS (sampler_index a)) ;;
  batch <- lift (clamp_batch_size (batch_size a)) ;;
  ret (dict_of_pairs
         [ (KStr "mask", PStr mask);
           (KStr "mask_blur", blur);
           (KStr "inpaint_full_res", inpaint_full_res);
           (KStr "inpaint_full_res_padding", PInt 10);
           (KStr "inpainting_mask_invert", PInt (if truthy invert_mask then 1 else 0));
           (KStr "resize_mode", resize_mode a);
           (KStr "init_images", PList [PStr init_image]);
           (KStr "prompt", PStr prompt);
           (KStr "negative_prompt", PStr negative_prompt);
           (KStr "denoising_strength", PFloat (denoising_strength a));
           (KStr "steps", PInt (py_int (steps a)));
           (KStr "cfg_scale", PFloat (cfg_scale a));
           (KStr "width", PInt w);
           (KStr "height", PInt h);
           (KStr "sampler_index", PStr sampler);
           (KStr "batch_size", batch);
           (KStr "seed", py_or (seed a) (PInt (-1))) ]).

(** The arguments [run_inpainting] calls [inpainting] with, from the
    values of the dialog: the batch size is clamped and the height is
    rounded before the call already. *)
Definition inpainting_args_of (a : generation_args) : result generation_args :=
  rbind (clamp_batch_size (batch_size a)) (fun batch =>
  rbind (round_to_multiple (height a) 8) (fun h =>
  Ok {| resize_mode := resize_mode a;
        p_prompt_prefix := p_prompt_prefix a;
        n_prompt_prefix := n_prompt_prefix a;
        seed := seed a;
        batch_size := batch;
        steps := steps a;
        mask_blur := mask_blur a;
        width := width a;
        height := py_float h;
        cfg_scale := cfg_scale a;
        denoising_strength := denoising_strength a;
        sampler_index := sampler_index a |})).

(** [inpainting] as [run_inpainting] calls it, up to the [data]
    dictionary. *)
Definition run_inpainting_data (a : generation_args)
    (inpaint_full_res invert_mask : pyval) (init_image mask : string)
  : M (list (pykey * pyval)) :=
  args <- lift (inpainting_args_of a) ;;
  inpainting_data args (PInt (py_int (mask_blur a))) inpaint_full_res invert_mask
    init_image mask.

(** ** DialogPopulator *)

Inductive DialogPopulator : Type :=
| CHECKPOINT | COMMON | CONFIG | CONTROLNET | CONTROLNET_OPTIONS | IMAGE
| IMG2IMG | INPAINTING | LAYERS | RESIZE_MODE | SHOW_LAYER_INFO | TXT2IMG.

(** [str(populator)] *)
Definition DialogPopulator_str (p : DialogPopulator) : string :=
  "DialogPopulator." +:+
  match p with
  | CHECKPOINT => "CHECKPOINT" | COMMON => "COMMON" | CONFIG => "CONFIG"
  | CONTROLNET => "CONTROLNET" | CONTROLNET_OPTIONS => "CONTROLNET_OPTIONS"
  | IMAGE => "IMAGE" | IMG2IMG => "IMG2IMG" | INPAINTING => "INPAINTING"
  | LAYERS => "LAYERS" | RESIZE_MODE => "RESIZE_MODE"
  | SHOW_LAYER_INFO => "SHOW_LAYER_INFO" | TXT2IMG => "TXT2IMG"
  end.

Definition PYTHON_PLUGIN_NAME : string := "StabDiffAuto1111".
Definition PYTHON_PROCEDURE_CONFIG_GLOBAL : string := PYTHON_PLUGIN_NAME +:+ "-global".
Definition PYTHON_PROCEDURE_CONFIG_MODEL : string := PYTHON_PLUGIN_NAME +:+ "-change-model".
Definition PYTHON_PROCEDURE_CONTROLNET_LAYER : string :=
  PYTHON_PLUGIN_NAME +:+ "-controlnet-layer".
Definition PYTHON_PROCEDURE_CONTROLNET_LAYER_CONTEXT : string :=
  PYTHON_PLUGIN_NAME +:+ "-controlnet-layer-context".
Definition PYTHON_PROCEDURE_IMG2IMG : string := PYTHON_PLUGIN_NAME +:+ "-img2img".
Definition PYTHON_PROCEDURE_IMG2IMG_CONTEXT : string :=
  PYTHON_PLUGIN_NAME +:+ "-img2img-context".
Definition PYTHON_PROCEDURE_INPAINTING : string := PYTHON_PLUGIN_NAME +:+ "-inpainting".
Definition PYTHON_PROCEDURE_INPAINTING_CONTEXT : string :=
  PYTHON_PLUGIN_NAME +:+ "-inpainting-context".
Definition PYTHON_PROCEDURE_LAYER_INFO : string := PYTHON_PLUGIN_NAME +:+ "-layer-info".
Definition PYTHON_PROCEDURE_LAYER_INFO_CONTEXT : string :=
  PYTHON_PLUGIN_NAME +:+ "-layer-info-context".
Definition PYTHON_PROCEDURE_TEXT2IMG : string := PYTHON_PLUGIN_NAME +:+ "-text2img".
Definition PYTHON_PROCEDURE_TEXT2IMG_CONTEXT : string :=
  PYTHON_PLUGIN_NAME +:+ "-text2img-context".

Definition PYTHON_PROCEDURE_NAMES : list string :=
  [ PYTHON_PROCEDURE_CONFIG_GLOBAL;
    PYTHON_PROCEDURE_CONFIG_MODEL;
    PYTHON_PROCEDURE_CONTROLNET_LAYER;
    PYTHON_PROCEDURE_CONTROLNET_LAYER_CONTEXT;
    PYTHON_PROCEDURE_IMG2IMG;
    PYTHON_PROCEDURE_IMG2IMG_CONTEXT;
    PYTHON_PROCEDURE_INPAINTING;
    PYTHON_PROCEDURE_INPAINTING_CONTEXT;
    PYTHON_PROCEDURE_LAYER_INFO;
    PYTHON_PROCEDURE_LAYER_INFO_CONTEXT;
    PYTHON_PROCEDURE_TEXT2IMG;
    PYTHON_PROCEDURE_TEXT2IMG_CONTEXT ].

(** The dictionary that [_late_initialize] builds, as the pairs of its
    literal. *)
Definition procedure_mappings : list (string * list DialogPopulator) :=
  [ (PYTHON_PROCEDURE_CONFIG_GLOBAL, [IMAGE; CONFIG]);
    (PYTHON_PROCEDURE_CONFIG_MODEL, [CHECKPOINT]);
    (PYTHON_PROCEDURE_CONTROLNET_LAYER, [LAYERS; CONTROLNET]);
    (PYTHON_PROCEDURE_CONTROLNET_LAYER_CONTEXT, [LAYERS; CONTROLNET]);
    (PYTHON_PROCEDURE_IMG2IMG,
       [IMAGE; RESIZE_MODE; COMMON; CONTROLNET_OPTIONS; TXT2IMG; IMG2IMG]);
    (PYTHON_PROCEDURE_IMG2IMG_CONTEXT,
       [LAYERS; RESIZE_MODE; COMMON; CONTROLNET_OPTIONS; TXT2IMG; IMG2IMG]);
    (PYTHON_PROCEDURE_INPAINTING,
       [IMAGE; RESIZE_MODE; IMG2IMG; COMMON; CONTROLNET_OPTIONS; INPAINTING]);
    (PYTHON_PROCEDURE_INPAINTING_CONTEXT,
       [IMAGE; RESIZE_MODE; IMG2IMG; COMMON; CONTROLNET_OPTIONS; INPAINTING]);
    (PYTHON_PROCEDURE_LAYER_INFO, [IMAGE; SHOW_LAYER_INFO]);
    (PYTHON_PROCEDURE_LAYER_INFO_CONTEXT, [LAYERS; SHOW_LAYER_INFO]);
    (PYTHON_PROCEDURE_TEXT2IMG, [COMMON; CONTROLNET_OPTIONS; TXT2IMG]);
    (PYTHON_PROCEDURE_TEXT2IMG_CONTEXT, [LAYERS; COMMON; CONTROLNET_OPTIONS; TXT2IMG]) ].

(** [mapping[name]] on a dictionary built from pairs: the last pair
    with the key is the one kept. *)
Fixpoint mapping_lookup {A : Type} (pairs : list (string * A)) (name : string)
  : option A :=
  match pairs with
  | [] => None
  | (key, value) :: pairs' =>
      match mapping_lookup pairs' name with
      | Some later => Some later
      | None => if String.eqb key name then Some value else None
      end
  end.

(** [DialogPopulator.from_procedure_name], [DEBUG] off. The message of
    the [ValueError] for an empty list is built with [%] from a text
    without a conversion, which raises [TypeError] instead. *)
Definition from_procedure_name (procedure_name : string)
  : result (list DialogPopulator) :=
  match mapping_lookup procedure_mappings procedure_name with
  | None => Raise (KeyError procedure_name)
  | Some [] => Raise TypeError
  | Some populators => Ok populators
  end.

(** [DialogPopulator.merged_responses]; [responses] gives what
    [get_responses] returns for each populator, a dictionary or
    [None]. *)
Definition merge_response (responses : DialogPopulator -> option (list (pykey * pyval)))
    (merged_dict : list (pykey * pyval)) (populator : DialogPopulator)
  : M (list (pykey * pyval)) :=
  match responses populator with
  | Some [] =>
      LOGGER LogInfo ("Empty responses for " +:+ DialogPopulator_str populator) ;;
      ret merged_dict
  | Some found =>
      LOGGER LogInfo ("Found response for " +:+ DialogPopulator_str populator) ;;
      ret (dict_update merged_dict found)
  | None =>
      LOGGER LogInfo ("No responses for " +:+ DialogPopulator_str populator) ;;
      ret merged_dict
  end.

Fixpoint merge_responses (responses : DialogPopulator -> option (list (pykey * pyval)))
    (merged_dict : list (pykey * pyval)) (populators : list DialogPopulator)
  : M (list (pykey * pyval)) :=
  match populators with
  | [] => ret merged_dict
  | populator :: populators' =>
      merged_dict <- merge_response responses merged_dict populator ;;
      merge_responses responses merged_dict populators'
  end.

Definition merged_responses (responses : DialogPopulator -> option (list (pykey * pyval)))
    (procedure_name : string) : M (list (pykey * pyval)) :=
  populators <- lift (from_procedure_name procedure_name) ;;
  merge_responses responses [] populators.

(** * The vocabulary of the properties *)

(** ** Values and dictionaries *)

(** Every key of a dictionary, and of the dictionaries found as values
    of dictionaries from there, is a string. Lists are not entered. *)
Fixpoint string_keyed (v : pyval) : bool :=
  match v with
  | PDict items =>
      forallb (fun kv => match fst kv with
                         | KStr _ => string_keyed (snd kv)
                         | _ => false
                         end) items
  | _ => true
  end.

Definition is_KStr (k : pykey) : Prop := exists s : string, k = KStr s.

(** Induction on values that reaches the values of a dictionary. *)
Section pyval_dict_induction.
Variable P : pyval -> Prop.
Hypothesis P_None : P PNone.
Hypothesis P_Bool : forall b, P (PBool b).
Hypothesis P_Int : forall n, P (PInt n).
Hypothesis P_Float : forall x, P (PFloat x).
Hypothesis P_Str : forall s, P (PStr s).
Hypothesis P_List : forall items, P (PList items).
Hypothesis P_Dict :
  forall items, Forall (fun kv => P (snd kv)) items -> P (PDict items).

Fixpoint pyval_dict_ind (v : pyval) : P v :=
  match v with
  | PNone => P_None
  | PBool b => P_Bool b
  | PInt n => P_Int n
  | PFloat x => P_Float x
  | PStr s => P_Str s
  | PList items => P_List items
  | PDict items =>
      P_Dict items
        ((fix values (d : list (pykey * pyval))
           : Forall (fun kv => P (snd kv)) d :=
            match d with
            | [] => List.Forall_nil _
            | kv :: d' =>
                List.Forall_cons _ kv d' (pyval_dict_ind (snd kv)) (values d')
            end) items)
  end.
End pyval_dict_induction.

(** A dictionary as Python keeps it, when all its keys are strings: no
    key twice. *)
Definition str_dict (d : list (pykey * pyval)) : Prop :=
  Forall is_KStr (map fst d) /\ NoDup (map fst d).

(** The pairs [as_strings_deeply] hands to [dict]. *)
Definition stringified (items : list (pykey * pyval)) : list (pykey * pyval) :=
  map (fun kv => (KStr (py_str_key (fst kv)), as_strings_deeply (snd kv))) items.

(** The texts of [keys] without repetition, each where it first occurs:
    the order in which a dictionary keeps keys that are stored one after
    the other. *)
Fixpoint first_occurrences (keys : list string) : list string :=
  match keys with
  | [] => []
  | k :: keys' =>
      k :: List.filter (fun k' => negb (String.eqb k k')) (first_occurrences keys')
  end.

Definition key_in (keys : list string) (s : string) : bool :=
  existsb (String.eqb s) keys.

(** The value of the last entry of [items] whose key prints as [s].
    Two keys of one dictionary can print alike, as [1] and ['1'] do. *)
Fixpoint last_str_value (s : string) (items : list (pykey * pyval)) : option pyval :=
  match items with
  | [] => None
  | kv :: items' =>
      match last_str_value s items' with
      | Some v => Some v
      | None => if String.eqb (py_str_key (fst kv)) s then Some (snd kv) else None
      end
  end.

(** The value found in [v] by going down through dictionaries, at each
    step to the last entry whose key prints as the next text of [path]. *)
Fixpoint str_path (path : list string) (v : pyval) : option pyval :=
  match path, v with
  | [], _ => Some v
  | s :: path', PDict items =>
      match last_str_value s items with
      | Some v' => str_path path' v'
      | None => None
      end
  | _ :: _, _ => None
  end.

(** [v[s1][s2]...] for the texts of [path], [None] when a step meets
    no dictionary or a dictionary without the key. *)
Fixpoint dict_path (path : list string) (v : pyval) : option pyval :=
  match path, v with
  | [], _ => Some v
  | s :: path', PDict items =>
      match dict_get (KStr s) items with
      | Some v' => dict_path path' v'
      | None => None
      end
  | _ :: _, _ => None
  end.

(** ** Requests *)

(** What a built [data] dictionary holds under the keys studied below. *)
Definition holds_payload (a : generation_args) (d : list (pykey * pyval)) : Prop :=
  exists (wv hv : Z) (sampler : string) (batch : pyval),
    round_to_multiple (width a) 8 = Ok wv /\
    round_to_multiple (height a) 8 = Ok hv /\
    py_getitem SAMPLERS (sampler_index a) = Ok sampler /\
    clamp_batch_size (batch_size a) = Ok batch /\
    dict_get (KStr "width") d = Some (PInt wv) /\
    dict_get (KStr "height") d = Some (PInt hv) /\
    dict_get (KStr "sampler_index") d = Some (PStr sampler) /\
    dict_get (KStr "batch_size") d = Some batch /\
    dict_get (KStr "seed") d = Some (py_or (seed a) (PInt (-1))).

(** The settings hold the two prompts as strings: what [config] and the
    defaults store. *)
Definition prompts_stored (w : world) : Prop :=
  exists p np : string,
    w_data w !! "prompt" = Some (PStr p) /\
    w_data w !! "negative_prompt" = Some (PStr np).

(** The request [post] builds for a base URL that is a string. *)
Definition post_request (base endpoint : string) (dict_in : pyval)
    (headers : list (string * string)) : http_request :=
  {| req_url := base +:+ endpoint +:+ "?";
     req_data := Some dict_in;
     req_headers := match headers with [] => json_headers | _ => headers end |}.

(** The probe [server_online] sends. *)
Definition probe (url : string) : http_request :=
  {| req_url := url; req_data := None; req_headers := [] |}.

(** ** The stored server URL *)

(** Every character of the string is white space; the empty string
    included. *)
Fixpoint all_space (s : string) : bool :=
  match s with
  | EmptyString => true
  | String c s' => is_py_space c && all_space s'
  end.

(** The three ways the stored [api_base] is unusable. *)
Definition api_base_missing (w : world) : Prop :=
  w_data w !! "api_base" = None \/ w_data w !! "api_base" = Some PNone.

Definition api_base_blank (w : world) : Prop :=
  exists s : string, w_data w !! "api_base" = Some (PStr s) /\ all_space s = true.

(** Not a string at all, or a string that does not start with
    [http://], whatever the case of the letters. *)
Definition api_base_malformed (w : world) : Prop :=
  match w_data w !! "api_base" with
  | None | Some PNone => False
  | Some (PStr s) => py_startswith (py_lower s) "http://" = false
  | Some _ => True
  end.

(** ** Layers and the document *)

(** The layers in the image's stack, by handle, with all they hold. *)
Definition attached_layers (w : world) : gmap nat layer :=
  filter (fun kv => l_attached (snd kv) = true) (w_layers w).

(** What [LayerData.load] reads for a layer: the attached document, or
    the defaults, an empty dictionary standing for [None]. *)
Definition loaded_document (defaults : pyval) (l : layer) : pyval :=
  as_strings_deeply
    match l_parasite l with
    | Some doc => doc
    | None => match defaults with PNone => PDict [] | _ => defaults end
    end.

(** The duplicate as it is when it is encoded: in the document, scaled. *)
Definition layer64_of (l : layer) (width height : Z) : layer :=
  layer_scale width height (with_attached true (layer_copy l)).

(** New layer objects [hs], holding [ls], came to be between [w] and
    [w']; every other handle holds what it held. *)
Definition allocated (w w' : world) (hs : list nat) (ls : list layer) : Prop :=
  Forall2 (fun h l => w_layers w' !! h = Some l) hs ls /\
  Forall (fun h => w_layers w !! h = None) hs /\
  NoDup hs /\
  (forall h, h ∉ hs -> w_layers w' !! h = w_layers w !! h).

(** The caller set the skip flag: the options hold a true value under
    [skip_annotator_layers]. *)
Definition skip_requested (options : option (gmap string pyval)) : bool :=
  match options with
  | Some o =>
      match o !! "skip_annotator_layers" with
      | Some v => truthy v
      | None => false
      end
  | None => false
  end.

(** The options hold a false value under [skip_annotator_layers]. *)
Definition insert_requested (options : option (gmap string pyval)) : bool :=
  match options with
  | Some o =>
      match o !! "skip_annotator_layers" with
      | Some v => negb (truthy v)
      | None => false
      end
  | None => false
  end.

Section HostVocabulary.
Context `{GimpHost}.

(** The layer made for a generated image, and the one made for an
    annotator image. *)
Definition generated_layer (image : string) (seed : Z) (info : string) : layer :=
  {| l_name := "Generated Layer " +:+ pretty seed;
     l_width := png_width image; l_height := png_height image;
     l_pixels := Png image; l_mask := None;
     l_parasite :=
       Some (PDict (dict_of_pairs [(KStr "info", PStr info); (KStr "seed", PInt seed)]));
     l_attached := true |}.

Definition annotator_layer (image : string) : layer :=
  {| l_name := "Annotator Layer";
     l_width := png_width image; l_height := png_height image;
     l_pixels := Png image; l_mask := None; l_parasite := None;
     l_attached := true |}.

(** The text loads: it is base64 and GIMP makes a layer of what it
    decodes to. *)
Definition loads (image : string) : Prop := png_load image = Loaded.

(** The layers the materializer is to make: one per seed, from the
    first images, named and tagged from the seed and the info text; and
    one per image left, untagged. *)
Definition provenance_layers (r : generation_response) : list layer :=
  zip_with (fun image si => generated_layer image (fst si) (snd si))
    (take (length (all_seeds r)) (images r))
    (zip (all_seeds r) (infotexts r)).

Definition annotator_layers (r : generation_response) : list layer :=
  map annotator_layer (drop (length (all_seeds r)) (images r)).

End HostVocabulary.

(** ** Texts *)

(** Every character of the text is one of [chars]. *)
Definition made_of (chars text : string) : bool :=
  forallb (fun i => py_in_chars i chars) (list_ascii_of_string text).

(** ** The three data dictionaries *)

(** The three builders raise [e] and leave the world as it is. *)
Definition data_raise (e : exn) (a : generation_args)
    (blur inpaint_full_res invert_mask : pyval) (init_image mask : string)
    (w : world) : Prop :=
  image_to_image_data a init_image w = (Raise e, w) /\
  text_to_image_data a w = (Raise e, w) /\
  inpainting_data a blur inpaint_full_res invert_mask init_image mask w = (Raise e, w).

(** ** Settings and the server *)

(** What the shelf holds after it has been loaded: the object in the
    settings file, or the defaults of the plug-in. *)
Definition stored_settings (w : world) : gmap string pyval :=
  match w_file w with
  | JsonObject m => m
  | NoFile | Corrupt => STABLE_DIFF_AUTO1111_DEFAULT_SETTINGS
  end.

(** A URL that passes the checks of [poll_server]. *)
Definition usable_url (url : string) : Prop :=
  all_space url = false /\ py_startswith (py_lower url) "http://" = true.

(** The request gets a reply, or fails the way an unreachable server
    makes it fail. *)
Definition answers_or_refuses (w : world) (r : http_request) : Prop :=
  forall e : exn, w_answer w r = Fails e -> is_URLError e = true.

Definition replies_2xx (w : world) (r : http_request) : Prop :=
  exists rep : http_reply, w_answer w r = Replied rep /\ (200 <= rep_code rep < 300)%Z.

(** The value comes back from [json.dumps] and [json.loads] as it
    is. *)
Definition json_keeps (v : pyval) : Prop := json_value v = Ok v.

(** Every value of the mapping does. *)
Definition json_kept (d : gmap string pyval) : Prop :=
  map_Forall (fun _ v => json_keeps v) d.

(** What a save leaves in the file. *)
Definition saved_file (data : gmap string pyval) (w : world) : file_state :=
  if w_writable w
  then match json_object (data ∪ w_data w) with
       | Ok document => JsonObject document
       | Raise _ => Corrupt
       end
  else w_file w.

(** What the shelf leaves alone. *)
Definition shelf_frame (w w' : world) : Prop :=
  w_sent w' = w_sent w /\ w_answer w' = w_answer w /\
  w_writable w' = w_writable w /\ w_base_url w' = w_base_url w /\
  w_is_server_running w' = w_is_server_running w /\
  w_layer_count w' = w_layer_count w /\ w_layers w' = w_layers w.

(** What a request leaves alone. *)
Definition network_frame (w w' : world) : Prop :=
  w_answer w' = w_answer w /\ w_file w' = w_file w /\
  w_writable w' = w_writable w /\ w_data w' = w_data w /\
  w_base_url w' = w_base_url w /\
  w_is_server_running w' = w_is_server_running w /\
  w_layer_count w' = w_layer_count w /\ w_layers w' = w_layers w.

(** What [post] gives its caller, from how [urlopen] ended. *)
Definition post_outcome (answer : net_outcome) : result pyval :=
  match answer with
  | Replied rep =>
      if ((200 <=? rep_code rep) && (rep_code rep <? 300))%Z
      then match rep_body rep with
           | Some response_dict => Ok response_dict
           | None => Raise JSONDecodeError
           end
      else Ok PNone
  | Fails e => if is_HTTPError e then Ok PNone else Raise e
  end.

(** The request [change_model] posts for a model title. *)
Definition change_model_request (base : string) (title : pyval) : http_request :=
  post_request base "/sdapi/v1/options"
    (PDict [(KStr "sd_model_checkpoint", title)]) [].

(** [self.settings.get("model")] *)
Definition stored_model (w : world) : pyval :=
  match w_data w !! "model" with
  | Some v => v
  | None => PNone
  end.

(** The stored [model] is not equal to the index. *)
Definition model_differs (w : world) (index : Z) : Prop :=
  py_eq_int (stored_model w) index = false.

(** ** Documents and responses *)

(** The entries are in the order of their keys: no key is below the one
    before it. *)
Definition in_key_order (items : list (pykey * pyval)) : Prop :=
  Sorted (fun a b => key_ltb (fst b) (fst a) = false) items.

(** The layer has no attached document, or a dictionary. *)
Definition dict_parasite (l : layer) : Prop :=
  l_parasite l = None \/ exists items, l_parasite l = Some (PDict items).

(** The value a key gets from the populators of a procedure: that of
    the last populator, in the order of the list, whose responses hold
    the key. *)
Fixpoint last_response (responses : DialogPopulator -> option (list (pykey * pyval)))
    (key : string) (populators : list DialogPopulator) : option pyval :=
  match populators with
  | [] => None
  | populator :: populators' =>
      match last_response responses key populators' with
      | Some v => Some v
      | None =>
          match responses populator with
          | Some found => dict_get (KStr key) found
          | None => None
          end
      end
  end.

(** ** Sample inputs *)

Definition sample_args : generation_args :=
  {| resize_mode := PInt 0; p_prompt_prefix := "oil painting of";
     n_prompt_prefix := EmptyString; seed := PInt 0; batch_size := PInt 50;
     steps := 30; mask_blur := 4; width := 500; height := 300;
     cfg_scale := 75 # 10; denoising_strength := 8 # 10;
     sampler_index := 7 |}.

Definition sample_world : world :=
  {| w_log := []; w_sent := [];
     w_answer := fun _ => Fails (URLError "Connection refused");
     w_file := NoFile; w_writable := true;
     w_data := <["prompt" := PStr "a cat"]> STABLE_DIFF_AUTO1111_DEFAULT_SETTINGS;
     w_base_url := PStr "http://localhost:7860";
     w_is_server_running := false; w_layer_count := 1; w_layers := ∅;
     w_objects := ∅; w_data_at := None |}.

(** [{1: 'a', '1': {None: [{2: None}], True: 3}, 'seed': 42}] *)
Definition sample_nested : pyval :=
  PDict [(KInt 1, PStr "a");
         (KStr "1", PDict [(KNone, PList [PDict [(KInt 2, PNone)]]);
                           (KBool true, PInt 3)]);
         (KStr "seed", PInt 42)].

Definition sample_layer : layer :=
  {| l_name := "pose"; l_width := 500; l_height := 300;
     l_pixels := Png "iVBORw0KGgo="; l_mask := None; l_parasite := None;
     l_attached := true |}.

Definition sample_layer_local : LayerLocal := {| ll_id := 1; ll_layer := 0 |}.

Definition sample_error_reply : http_reply :=
  {| rep_code := 500; rep_reason := "Internal Server Error";
     rep_headers := "Content-Type: application/json"; rep_body := None |}.

Definition sample_error_world : world :=
  {| w_log := []; w_sent := [];
     w_answer := fun _ => Replied sample_error_reply;
     w_file := NoFile; w_writable := true;
     w_data := STABLE_DIFF_AUTO1111_DEFAULT_SETTINGS;
     w_base_url := PStr "http://127.0.0.1:7860";
     w_is_server_running := true; w_layer_count := 1; w_layers := ∅;
     w_objects := ∅; w_data_at := None |}.

Definition sample_blank_world : world :=
  {| w_log := []; w_sent := [];
     w_answer := fun _ => Fails (URLError "Connection refused");
     w_file := NoFile; w_writable := true;
     w_data := <["api_base" := PStr "   "]> STABLE_DIFF_AUTO1111_DEFAULT_SETTINGS;
     w_base_url := PStr "   ";
     w_is_server_running := false; w_layer_count := 1; w_layers := ∅;
     w_objects := ∅; w_data_at := None |}.

(** A plug-in started on the settings file an earlier session wrote,
    after the prompt had been configured. *)
Definition sample_second_session : world :=
  {| w_log := []; w_sent := [];
     w_answer := fun _ => Fails (URLError "Connection refused");
     w_file := JsonObject (<["prompt" := PStr "a cat"]>
                             STABLE_DIFF_AUTO1111_DEFAULT_SETTINGS);
     w_writable := true;
     w_data := ∅;
     w_base_url := PNone;
     w_is_server_running := false; w_layer_count := 1; w_layers := ∅;
     w_objects := ∅; w_data_at := None |}.

Definition sample_saved : gmap string pyval :=
  {[ "negative_prompt" := PStr "blurry" ]}.

(** A process in which the dictionary of the default settings is at
    address 0, as its literal made it, with no settings file yet. *)
Definition sample_first_session : world :=
  {| w_log := []; w_sent := [];
     w_answer := fun _ => Fails (URLError "Connection refused");
     w_file := NoFile; w_writable := true;
     w_data := ∅;
     w_base_url := PNone;
     w_is_server_running := false; w_layer_count := 1; w_layers := ∅;
     w_objects := {[ 0%nat := STABLE_DIFF_AUTO1111_DEFAULT_SETTINGS ]};
     w_data_at := None |}.

(** The same process on a settings file that holds a prompt and nothing
    else. *)
Definition sample_short_file : world :=
  set_file (JsonObject {[ "prompt" := PStr "a cat" ]}) sample_first_session.

(** A value [json.dumps] rejects: the keys of the dictionary are a
    string and a number. *)
Definition sample_mixed_keys : gmap string pyval :=
  {[ "override" := PDict [(KStr "steps", PInt 20); (KInt 1, PInt 30)] ]}.

(** A host for which every text loads but [QUF], three characters that
    [base64.b64decode] rejects for their padding. *)
Definition sample_host : GimpHost :=
  {| png_load := fun s => if String.eqb s "QUF"
                          then LoadRaises (ValueError "Incorrect padding")
                          else Loaded;
     png_width := fun _ => 512%Z;
     png_height := fun _ => 512%Z;
     file_save_layer := fun l => l_name l;
     file_save_mask := fun _ => "mask" |}.

Definition sample_document : world :=
  set_layers (insert 0%nat sample_layer) sample_world.


(** A reply with one generated image and one annotator image. *)
Definition sample_response : generation_response :=
  {| images := ["QUFB"; "QkJC"];
     infotexts := ["a cat, Steps: 20, Seed: 42"];
     all_seeds := [42%Z] |}.

(** A reply whose one image is not base64. *)
Definition sample_response_not_base64 : generation_response :=
  {| images := ["QUF"];
     infotexts := ["a cat, Steps: 20, Seed: 42"];
     all_seeds := [42%Z] |}.

(** A reply whose annotator image is not base64. *)
Definition sample_response_annotator_not_base64 : generation_response :=
  {| images := ["QUFB"; "QUF"];
     infotexts := ["a cat, Steps: 20, Seed: 42"];
     all_seeds := [42%Z] |}.

(** A sampler index past the end of [SAMPLERS]. *)
Definition sample_args_no_sampler : generation_args :=
  {| resize_mode := PInt 0; p_prompt_prefix := "oil painting of";
     n_prompt_prefix := EmptyString; seed := PInt 0; batch_size := PInt 50;
     steps := 30; mask_blur := 4; width := 500; height := 300;
     cfg_scale := 75 # 10; denoising_strength := 8 # 10;
     sampler_index := 18 |}.

(** A shelf that was started, with no settings file, from the
    dictionary at address 0, in a place where no file can be written:
    [self.data] is that dictionary. *)
Definition sample_read_only_session : world :=
  {| w_log := []; w_sent := [];
     w_answer := fun _ => Fails (URLError "Connection refused");
     w_file := NoFile; w_writable := false;
     w_data := STABLE_DIFF_AUTO1111_DEFAULT_SETTINGS;
     w_base_url := PStr "http://127.0.0.1:7860";
     w_is_server_running := false; w_layer_count := 1; w_layers := ∅;
     w_objects := {[ 0%nat := STABLE_DIFF_AUTO1111_DEFAULT_SETTINGS ]};
     w_data_at := Some 0%nat |}.

(** The settings file cannot be written. *)
Definition sample_read_only_world : world :=
  {| w_log := []; w_sent := [];
     w_answer := fun _ => Fails (URLError "Connection refused");
     w_file := NoFile; w_writable := false;
     w_data := STABLE_DIFF_AUTO1111_DEFAULT_SETTINGS;
     w_base_url := PStr "http://127.0.0.1:7860";
     w_is_server_running := false; w_layer_count := 1; w_layers := ∅;
     w_objects := ∅; w_data_at := None |}.

Definition sample_ok_reply : http_reply :=
  {| rep_code := 200; rep_reason := "OK";
     rep_headers := "Content-Type: application/json";
     rep_body := Some (PDict [(KStr "images", PList [])]) |}.

Definition sample_ok_world : world :=
  {| w_log := []; w_sent := [];
     w_answer := fun _ => Replied sample_ok_reply;
     w_file := NoFile; w_writable := true;
     w_data := STABLE_DIFF_AUTO1111_DEFAULT_SETTINGS;
     w_base_url := PStr "http://127.0.0.1:7860";
     w_is_server_running := true; w_layer_count := 1; w_layers := ∅;
     w_objects := ∅; w_data_at := None |}.

Definition sample_control_args : control_layer_args :=
  {| module_index := 1; model_index := 1; weight := 1; resize_mode_index := 1;
     low_vram := false; control_mode := PInt 0;
     guidance_start := 0; guidance_end := 1; guidance := 1;
     processor_res := 64; threshold_a := 64; threshold_b := 64 |}.

Definition sample_cn_models : list pyval :=
  [PStr "None"; PStr "control_v11p_sd15_canny"].

Definition sample_control_world : world :=
  set_data (<["cn_models" := PList sample_cn_models]> STABLE_DIFF_AUTO1111_DEFAULT_SETTINGS)
    sample_document.

(** The responses of a dialog in which two populators name a seed. *)
Definition sample_responses (p : DialogPopulator) : option (list (pykey * pyval)) :=
  match p with
  | COMMON => Some [(KStr "seed", PStr "42"); (KStr "steps", PFloat 30)]
  | TXT2IMG => Some [(KStr "seed", PStr "7")]
  | IMAGE => Some []
  | _ => None
  end.

(** * Properties *)

(** ** Numbers *)

Lemma Qle_bool_inject_Z (m n : Z) :
  Qle_bool (inject_Z m) (inject_Z n) = (m <=? n)%Z.
Proof.
  destruct (Z.leb_spec m n) as [Hle | Hlt].
  - apply Qle_bool_iff. rewrite <- Zle_Qle. exact Hle.
  - destruct (Qle_bool (inject_Z m) (inject_Z n)) eqn:E; [|reflexivity].
    apply Qle_bool_iff in E. rewrite <- Zle_Qle in E. lia.
Qed.

Lemma py_lt_int (m n : Z) : py_lt (PInt m) (PInt n) = Ok (m <? n)%Z.
Proof.
  unfold py_lt. cbn [py_number]. rewrite Qle_bool_inject_Z.
  f_equal. rewrite Z.ltb_antisym. reflexivity.
Qed.

Lemma clamp_batch_size_int (n : Z) :
  clamp_batch_size (PInt n) = Ok (PInt (Z.max 1 (Z.min 20 n))).
Proof.
  unfold clamp_batch_size, py_max, py_min, MAX_BATCH_SIZE.
  rewrite py_lt_int. cbn [rbind].
  destruct (Z.ltb_spec 1 n) as [H1 | H1]; rewrite py_lt_int; cbn [rbind].
  - destruct (Z.ltb_spec n 20) as [H2 | H2]; do 2 f_equal; lia.
  - replace (1 <? 20)%Z with true by reflexivity. do 2 f_equal. lia.
Qed.

(** ** The data dictionaries *)

Ltac run_monad :=
  repeat progress
    (unfold bind, lift, ret, raise, gets, modify, MyShelf_get, prompt_text in *;
     cbn beta iota in *).

Lemma image_to_image_data_inv (a : generation_args) (init_image : string)
    (w w' : world) (d : list (pykey * pyval)) :
  image_to_image_data a init_image w = (Ok d, w') ->
  w' = w /\ holds_payload a d.
Proof.
  unfold image_to_image_data. run_monad.
  destruct (w_data w !! "prompt") as [[]|]; try discriminate;
    destruct (w_data w !! "negative_prompt") as [[]|]; try discriminate;
    destruct (round_to_multiple (width a) 8) as [wv|?] eqn:Ew; try discriminate;
    destruct (round_to_multiple (height a) 8) as [hv|?] eqn:Eh; try discriminate;
    destruct (py_getitem SAMPLERS (sampler_index a)) as [sampler|?] eqn:Es;
    try discriminate;
    destruct (clamp_batch_size (batch_size a)) as [batch|?] eqn:Eb;
    try discriminate;
    intros [= <- <-]; (split; [reflexivity|]);
    exists wv, hv, sampler, batch; repeat split; auto.
Qed.

Lemma text_to_image_data_inv (a : generation_args) (w w' : world)
    (d : list (pykey * pyval)) :
  text_to_image_data a w = (Ok d, w') ->
  w' = w /\ holds_payload a d.
Proof.
  unfold text_to_image_data. run_monad.
  destruct (w_data w !! "prompt") as [[]|]; try discriminate;
    destruct (w_data w !! "negative_prompt") as [[]|]; try discriminate;
    destruct (round_to_multiple (width a) 8) as [wv|?] eqn:Ew; try discriminate;
    destruct (round_to_multiple (height a) 8) as [hv|?] eqn:Eh; try discriminate;
    destruct (py_getitem SAMPLERS (sampler_index a)) as [sampler|?] eqn:Es;
    try discriminate;
    destruct (clamp_batch_size (batch_size a)) as [batch|?] eqn:Eb;
    try discriminate;
    intros [= <- <-]; (split; [reflexivity|]);
    exists wv, hv, sampler, batch; repeat split; auto.
Qed.

Lemma py_getitem_in_range {A : Type} (l : list A) (i : Z) :
  (- Z.of_nat (length l) <= i < Z.of_nat (length l))%Z ->
  exists x, py_getitem l i = Ok x.
Proof.
  intros Hi. unfold py_getitem.
  set (j := (if (i <? 0)%Z then (i + Z.of_nat (length l))%Z else i)).
  assert (Hj : (0 <= j < Z.of_nat (length l))%Z).
  { subst j. destruct (Z.ltb_spec i 0); lia. }
  replace ((0 <=? j)%Z && (j <? Z.of_nat (length l))%Z) with true.
  2:{ symmetry. apply andb_true_intro. split; [apply Z.leb_le|apply Z.ltb_lt]; lia. }
  destruct (l !! Z.to_nat j) as [x|] eqn:E; [eauto|].
  apply lookup_ge_None in E. lia.
Qed.

Lemma round_to_multiple_ok (value : Q) (multiple : Z) :
  multiple <> 0%Z ->
  round_to_multiple value multiple
  = Ok (multiple * py_round (value / inject_Z multiple))%Z.
Proof.
  intros Hm. unfold round_to_multiple.
  destruct (Z.eqb_spec multiple 0); [contradiction|reflexivity].
Qed.

(** The dictionaries are built as soon as the prompts are stored, the
    sampler index is one of the list and the batch size is a number. *)
Lemma data_built (a : generation_args) (init_image : string) (w : world) :
  prompts_stored w ->
  (- 18 <= sampler_index a < 18)%Z ->
  is_ok (clamp_batch_size (batch_size a)) = true ->
  (exists d, image_to_image_data a init_image w = (Ok d, w)) /\
  (exists d, text_to_image_data a w = (Ok d, w)).
Proof.
  intros (p & np & Hp & Hnp) Hs Hb.
  destruct (py_getitem_in_range SAMPLERS (sampler_index a)) as [s Es];
    [exact Hs|].
  destruct (clamp_batch_size (batch_size a)) as [b|?] eqn:Eb; [|discriminate].
  unfold image_to_image_data, text_to_image_data. run_monad.
  rewrite Hp, Hnp, !round_to_multiple_ok, Es, Eb by discriminate.
  split; eexists; reflexivity.
Qed.

Lemma clamp_batch_size_number (v : pyval) :
  is_Some (py_number v) -> is_ok (clamp_batch_size v) = true.
Proof.
  intros [q Hq]. unfold clamp_batch_size, py_max, py_min, py_lt.
  cbn [py_number]. rewrite Hq. cbn [rbind].
  destruct (negb (Qle_bool q (inject_Z 1))); cbn [py_number]; [rewrite Hq|];
    reflexivity.
Qed.

(** ** Lists *)

Lemma py_index_lookup (l : list string) (x : string) (i : Z) :
  py_index l x = Ok i ->
  (0 <= i < Z.of_nat (length l))%Z /\ l !! Z.to_nat i = Some x.
Proof.
  revert i. induction l as [|y l IH]; intros i; cbn [py_index].
  - discriminate.
  - destruct (String.eqb_spec y x) as [->|Hne].
    + intros [= <-]. cbn [length]. split; [lia|reflexivity].
    + destruct (py_index l x) as [j|?]; [|discriminate].
      cbn [rbind]. intros [= <-].
      destruct (IH j eq_refl) as [Hj Hl]. cbn [length]. split; [lia|].
      replace (Z.to_nat (j + 1)) with (S (Z.to_nat j)) by lia. exact Hl.
Qed.

Lemma py_index_found (l : list string) (x : string) :
  In x l -> exists i, py_index l x = Ok i.
Proof.
  induction l as [|y l IH]; intros Hin; [destruct Hin|].
  cbn [py_index]. destruct (String.eqb_spec y x) as [->|Hne]; [eauto|].
  destruct Hin as [->|Hin]; [contradiction|].
  destruct (IH Hin) as [i ->]. cbn [rbind]. eauto.
Qed.

Lemma py_getitem_lookup {A : Type} (l : list A) (i : Z) (x : A) :
  (0 <= i)%Z -> l !! Z.to_nat i = Some x -> py_getitem l i = Ok x.
Proof.
  intros Hi Hl. pose proof (lookup_lt_Some _ _ _ Hl) as Hlen.
  unfold py_getitem.
  replace (i <? 0)%Z with false by (symmetry; apply Z.ltb_ge; lia).
  replace ((0 <=? i)%Z && (i <? Z.of_nat (length l))%Z) with true.
  2:{ symmetry. apply andb_true_intro. split; [apply Z.leb_le|apply Z.ltb_lt]; lia. }
  rewrite Hl. reflexivity.
Qed.

Lemma py_getitem_nonneg {A : Type} (l : list A) (i : Z) (x : A) :
  (0 <= i)%Z -> py_getitem l i = Ok x -> l !! Z.to_nat i = Some x.
Proof.
  intros Hi. unfold py_getitem.
  replace (i <? 0)%Z with false by (symmetry; apply Z.ltb_ge; lia).
  destruct ((0 <=? i)%Z && (i <? Z.of_nat (length l))%Z); [|discriminate].
  destruct (l !! Z.to_nat i); [|discriminate]. intros [= <-]. reflexivity.
Qed.

(** ** The translator's fields *)

(** C7. For every integer [n] given as batch size, the [batch_size]
    entry of the data sent by [image_to_image] and by [text_to_image] is
    [max(1, min(20, n))]. *)
Theorem batch_size_transmitted (a : generation_args) (init_image : string)
    (w : world) (n : Z) :
  batch_size a = PInt n ->
  prompts_stored w ->
  (- 18 <= sampler_index a < 18)%Z ->
  exists d1 d2 : list (pykey * pyval),
    image_to_image_data a init_image w = (Ok d1, w) /\
    text_to_image_data a w = (Ok d2, w) /\
    dict_get (KStr "batch_size") d1 = Some (PInt (Z.max 1 (Z.min 20 n))) /\
    dict_get (KStr "batch_size") d2 = Some (PInt (Z.max 1 (Z.min 20 n))).
Proof.
  intros Hn Hp Hs.
  destruct (data_built a init_image w Hp Hs) as [[d1 H1] [d2 H2]].
  { apply clamp_batch_size_number. rewrite Hn. cbn. eauto. }
  exists d1, d2. split; [exact H1|]. split; [exact H2|].
  apply image_to_image_data_inv in H1 as [_ (? & ? & ? & b1 & _ & _ & _ & Hb1 & _ & _ & _ & Hd1 & _)].
  apply text_to_image_data_inv in H2 as [_ (? & ? & ? & b2 & _ & _ & _ & Hb2 & _ & _ & _ & Hd2 & _)].
  rewrite Hn, clamp_batch_size_int in Hb1, Hb2.
  injection Hb1 as <-. injection Hb2 as <-. split; assumption.
Qed.

Lemma batch_size_transmitted_witness :
  exists d1 d2 : list (pykey * pyval),
    image_to_image_data sample_args "iVBORw0KGgo=" sample_world = (Ok d1, sample_world) /\
    text_to_image_data sample_args sample_world = (Ok d2, sample_world) /\
    dict_get (KStr "batch_size") d1 = Some (PInt (Z.max 1 (Z.min 20 50))) /\
    dict_get (KStr "batch_size") d2 = Some (PInt (Z.max 1 (Z.min 20 50))).
Proof.
  apply (batch_size_transmitted sample_args "iVBORw0KGgo=" sample_world 50).
  - reflexivity.
  - exists "a cat", EmptyString. split; reflexivity.
  - cbn. lia.
Defined.

(** C8. A seed of [0], [None] or the empty string is sent as [-1]; any
    other integer seed is sent as it is. *)
Theorem seed_transmitted (a : generation_args) (init_image : string) (w : world) :
  prompts_stored w ->
  (- 18 <= sampler_index a < 18)%Z ->
  is_Some (py_number (batch_size a)) ->
  exists (d1 d2 : list (pykey * pyval)) (sent : pyval),
    image_to_image_data a init_image w = (Ok d1, w) /\
    text_to_image_data a w = (Ok d2, w) /\
    dict_get (KStr "seed") d1 = Some sent /\
    dict_get (KStr "seed") d2 = Some sent /\
    (seed a = PInt 0 \/ seed a = PNone \/ seed a = PStr EmptyString ->
     sent = PInt (-1)) /\
    (forall n : Z, seed a = PInt n -> n <> 0%Z -> sent = PInt n).
Proof.
  intros Hp Hs Hb.
  destruct (data_built a init_image w Hp Hs) as [[d1 H1] [d2 H2]].
  { apply clamp_batch_size_number, Hb. }
  exists d1, d2, (py_or (seed a) (PInt (-1))).
  split; [exact H1|]. split; [exact H2|].
  apply image_to_image_data_inv in H1 as [_ (? & ? & ? & ? & _ & _ & _ & _ & _ & _ & _ & _ & Hd1)].
  apply text_to_image_data_inv in H2 as [_ (? & ? & ? & ? & _ & _ & _ & _ & _ & _ & _ & _ & Hd2)].
  split; [exact Hd1|]. split; [exact Hd2|]. split.
  - intros [-> | [-> | ->]]; reflexivity.
  - intros n -> Hn. unfold py_or. cbn [truthy].
    destruct (Z.eqb_spec n 0); [contradiction|reflexivity].
Qed.

Lemma seed_transmitted_witness :
  exists (d1 d2 : list (pykey * pyval)) (sent : pyval),
    image_to_image_data sample_args "iVBORw0KGgo=" sample_world = (Ok d1, sample_world) /\
    text_to_image_data sample_args sample_world = (Ok d2, sample_world) /\
    dict_get (KStr "seed") d1 = Some sent /\
    dict_get (KStr "seed") d2 = Some sent /\
    (seed sample_args = PInt 0 \/ seed sample_args = PNone
     \/ seed sample_args = PStr EmptyString ->
     sent = PInt (-1)) /\
    (forall n : Z, seed sample_args = PInt n -> n <> 0%Z -> sent = PInt n).
Proof.
  apply (seed_transmitted sample_args "iVBORw0KGgo=" sample_world).
  - exists "a cat", EmptyString. split; reflexivity.
  - cbn. lia.
  - cbn. eexists. reflexivity.
Defined.

(** C9. Every name of [SAMPLERS] is found again at its own index, and
    the [sampler_index] entry sent is the element of [SAMPLERS] at the
    index chosen in the dialog. *)
Theorem sampler_index_round_trip :
  (forall name : string,
      In name SAMPLERS ->
      exists i : Z, py_index SAMPLERS name = Ok i /\ py_getitem SAMPLERS i = Ok name) /\
  (forall (a : generation_args) (init_image : string) (w : world),
      prompts_stored w ->
      is_Some (py_number (batch_size a)) ->
      (0 <= sampler_index a < 18)%Z ->
      exists (d1 d2 : list (pykey * pyval)) (name : string),
        image_to_image_data a init_image w = (Ok d1, w) /\
        text_to_image_data a w = (Ok d2, w) /\
        SAMPLERS !! Z.to_nat (sampler_index a) = Some name /\
        dict_get (KStr "sampler_index") d1 = Some (PStr name) /\
        dict_get (KStr "sampler_index") d2 = Some (PStr name)).
Proof.
  split.
  - intros name Hin. destruct (py_index_found _ _ Hin) as [i Hi].
    exists i. split; [exact Hi|].
    apply py_index_lookup in Hi as [Hr Hl].
    apply py_getitem_lookup; [lia|exact Hl].
  - intros a init_image w Hp Hb Hs.
    destruct (data_built a init_image w Hp) as [[d1 H1] [d2 H2]].
    { lia. }
    { apply clamp_batch_size_number, Hb. }
    apply image_to_image_data_inv in H1 as H1'.
    destruct H1' as [_ (? & ? & s1 & ? & _ & _ & Hs1 & _ & _ & _ & Hd1 & _)].
    apply text_to_image_data_inv in H2 as H2'.
    destruct H2' as [_ (? & ? & s2 & ? & _ & _ & Hs2 & _ & _ & _ & Hd2 & _)].
    exists d1, d2, s1. split; [exact H1|]. split; [exact H2|].
    rewrite Hs1 in Hs2. injection Hs2 as <-.
    split; [|split; assumption].
    apply py_getitem_nonneg; [lia|exact Hs1].
Qed.

Lemma sampler_index_round_trip_witness :
  (exists i : Z, py_index SAMPLERS "DPM++ 2M" = Ok i
                 /\ py_getitem SAMPLERS i = Ok "DPM++ 2M") /\
  (exists (d1 d2 : list (pykey * pyval)) (name : string),
      image_to_image_data sample_args "iVBORw0KGgo=" sample_world = (Ok d1, sample_world) /\
      text_to_image_data sample_args sample_world = (Ok d2, sample_world) /\
      SAMPLERS !! Z.to_nat (sampler_index sample_args) = Some name /\
      dict_get (KStr "sampler_index") d1 = Some (PStr name) /\
      dict_get (KStr "sampler_index") d2 = Some (PStr name)).
Proof.
  split.
  - apply (proj1 sampler_index_round_trip "DPM++ 2M").
    cbn. tauto.
  - apply (proj2 sampler_index_round_trip sample_args "iVBORw0KGgo=" sample_world).
    + exists "a cat", EmptyString. split; reflexivity.
    + cbn. eexists. reflexivity.
    + cbn. lia.
Defined.

(** ** Rounding to a multiple *)

Lemma py_round_near (x : Q) :
  (- (1 # 2) <= inject_Z (py_round x) - x <= 1 # 2)%Q.
Proof.
  unfold py_round.
  pose proof (Qfloor_le x) as Hlo. pose proof (Qlt_floor x) as Hhi.
  rewrite inject_Z_plus in Hhi. change (inject_Z 1) with 1%Q in Hhi.
  destruct (Qcompare (x - inject_Z (Qfloor x)) (1 # 2)) eqn:E.
  - apply Qeq_alt in E.
    destruct (Z.even (Qfloor x));
      [|rewrite inject_Z_plus; change (inject_Z 1) with 1%Q]; lra.
  - apply Qlt_alt in E. lra.
  - apply Qgt_alt in E. rewrite inject_Z_plus. change (inject_Z 1) with 1%Q. lra.
Qed.

(** For a positive multiple the result is a multiple, at most half a
    multiple away from the value. *)
Lemma round_to_multiple_near (value : Q) (multiple : Z) :
  (0 < multiple)%Z ->
  exists v : Z,
    round_to_multiple value multiple = Ok v /\
    (v mod multiple = 0)%Z /\
    (Qabs (inject_Z v - value) <= inject_Z multiple / 2)%Q.
Proof.
  intros Hm. exists (multiple * py_round (value / inject_Z multiple))%Z.
  split; [apply round_to_multiple_ok; lia|]. split.
  - rewrite Z.mul_comm. apply Z.mod_mul. lia.
  - apply Qabs_Qle_condition.
    pose proof (py_round_near (value / inject_Z multiple)) as H.
    rewrite inject_Z_mult.
    assert (Hpos : (0 < inject_Z multiple)%Q).
    { change 0%Q with (inject_Z 0). rewrite <- Zlt_Qlt. exact Hm. }
    assert (Hv : (value == inject_Z multiple * (value / inject_Z multiple))%Q).
    { field. lra. }
    revert H Hv. generalize (value / inject_Z multiple)%Q. intros y H Hv.
    revert H. generalize (inject_Z (py_round y)). intros r H.
    revert Hpos Hv. generalize (inject_Z multiple). intros m Hpos Hv.
    assert (H1 : (0 <= m * (r - y + (1 # 2)))%Q)
      by (apply Qmult_le_0_compat; lra).
    assert (H2 : (0 <= m * ((1 # 2) - (r - y)))%Q)
      by (apply Qmult_le_0_compat; lra).
    unfold Qdiv. change (/ 2)%Q with (1 # 2)%Q.
    split; lra.
Qed.

Lemma Zabs_of_Qabs (a b c : Z) :
  (Qabs (inject_Z a - inject_Z b) <= inject_Z c)%Q -> (Z.abs (a - b) <= c)%Z.
Proof.
  intros H. apply Qabs_Qle_condition in H. destruct H as [H1 H2].
  unfold Qle, Qminus, Qplus, Qopp, inject_Z in H1, H2. cbn in H1, H2. lia.
Qed.

Lemma Qle_half (x : Q) (multiple half : Z) :
  multiple = (2 * half)%Z ->
  (x <= inject_Z multiple / 2)%Q -> (x <= inject_Z half)%Q.
Proof.
  intros -> Hx. eapply Qle_trans; [exact Hx|].
  rewrite inject_Z_mult. change (inject_Z 2) with 2%Q.
  apply Qle_lteq. right. field.
Qed.

(** ** Layer operations, run *)

Lemma the_layer_run (h : nat) (l : layer) (w : world) :
  w_layers w !! h = Some l -> the_layer h w = (Ok l, w).
Proof. intros Hl. unfold the_layer. run_monad. rewrite Hl. reflexivity. Qed.

Lemma update_layer_run (h : nat) (f : layer -> layer) (l : layer) (w : world) :
  w_layers w !! h = Some l ->
  update_layer h f w = (Ok tt, set_layers (alter f h) w).
Proof.
  intros Hl. unfold update_layer, bind. rewrite (the_layer_run h l w Hl).
  reflexivity.
Qed.

Lemma resize_to_multiple_of_run (self : LayerLocal) (multiple : Z) (l : layer)
    (w : world) :
  (0 < multiple)%Z ->
  w_layers w !! ll_layer self = Some l ->
  exists width height : Z,
    round_to_multiple (py_float (l_width l)) multiple = Ok width /\
    round_to_multiple (py_float (l_height l)) multiple = Ok height /\
    LayerLocal_resize_to_multiple_of self multiple w
    = (Ok self, set_layers (alter (layer_scale width height) (ll_layer self)) w).
Proof.
  intros Hm Hl.
  destruct (round_to_multiple_near (py_float (l_width l)) multiple Hm)
    as (width & Hw & _).
  destruct (round_to_multiple_near (py_float (l_height l)) multiple Hm)
    as (height & Hh & _).
  exists width, height. split; [exact Hw|]. split; [exact Hh|].
  unfold LayerLocal_resize_to_multiple_of, bind. rewrite (the_layer_run _ l w Hl).
  unfold lift. rewrite Hw, Hh. rewrite (update_layer_run _ _ l w Hl).
  reflexivity.
Qed.

(** C3. The width and the height sent by the translator are multiples
    of 8 at most 4 away from the values given; the size a control-unit
    input image is resized to is made of multiples of 64 at most 32 away
    from the layer's size. *)
Theorem rounding_before_transmission :
  (forall (a : generation_args) (init_image : string) (w : world),
      prompts_stored w ->
      (- 18 <= sampler_index a < 18)%Z ->
      is_Some (py_number (batch_size a)) ->
      exists (d1 d2 : list (pykey * pyval)) (wv hv : Z),
        image_to_image_data a init_image w = (Ok d1, w) /\
        text_to_image_data a w = (Ok d2, w) /\
        dict_get (KStr "width") d1 = Some (PInt wv) /\
        dict_get (KStr "height") d1 = Some (PInt hv) /\
        dict_get (KStr "width") d2 = Some (PInt wv) /\
        dict_get (KStr "height") d2 = Some (PInt hv) /\
        (wv mod 8 = 0)%Z /\ (hv mod 8 = 0)%Z /\
        (Qabs (inject_Z wv - width a) <= 4)%Q /\
        (Qabs (inject_Z hv - height a) <= 4)%Q) /\
  (forall (self : LayerLocal) (l : layer) (w : world),
      w_layers w !! ll_layer self = Some l ->
      exists (w' : world) (l' : layer),
        LayerLocal_resize_to_multiple_of self 64 w = (Ok self, w') /\
        w_layers w' !! ll_layer self = Some l' /\
        (l_width l' mod 64 = 0)%Z /\ (l_height l' mod 64 = 0)%Z /\
        (Z.abs (l_width l' - l_width l) <= 32)%Z /\
        (Z.abs (l_height l' - l_height l) <= 32)%Z).
Proof.
  split.
  - intros a init_image w Hp Hs Hb.
    destruct (data_built a init_image w Hp Hs) as [[d1 H1] [d2 H2]].
    { apply clamp_batch_size_number, Hb. }
    apply image_to_image_data_inv in H1 as H1'.
    destruct H1' as [_ (wv & hv & ? & ? & Hw & Hh & _ & _ & Hdw & Hdh & _)].
    apply text_to_image_data_inv in H2 as H2'.
    destruct H2' as [_ (wv' & hv' & ? & ? & Hw' & Hh' & _ & _ & Hdw' & Hdh' & _)].
    rewrite Hw in Hw'. injection Hw' as <-.
    rewrite Hh in Hh'. injection Hh' as <-.
    destruct (round_to_multiple_near (width a) 8) as (rw & Hx & Hxm & Hxa); [lia|].
    destruct (round_to_multiple_near (height a) 8) as (rh & Hy & Hym & Hya); [lia|].
    rewrite Hw in Hx. injection Hx as <-.
    rewrite Hh in Hy. injection Hy as <-.
    apply (Qle_half _ 8 4 eq_refl) in Hxa, Hya.
    exists d1, d2, wv, hv. repeat split; assumption.
  - intros self l w Hl.
    destruct (resize_to_multiple_of_run self 64 l w) as (wv & hv & Hw & Hh & Hrun);
      [lia|exact Hl|].
    destruct (round_to_multiple_near (py_float (l_width l)) 64)
      as (rw & Hx & Hxm & Hxa); [lia|].
    destruct (round_to_multiple_near (py_float (l_height l)) 64)
      as (rh & Hy & Hym & Hya); [lia|].
    rewrite Hw in Hx. injection Hx as <-.
    rewrite Hh in Hy. injection Hy as <-.
    apply (Qle_half _ 64 32 eq_refl) in Hxa, Hya.
    eexists _, (layer_scale wv hv l). split; [exact Hrun|].
    split; [cbn; rewrite lookup_alter_eq, Hl; reflexivity|].
    cbn [layer_scale l_width l_height].
    repeat split; try assumption; apply Zabs_of_Qabs; assumption.
Qed.

Lemma rounding_before_transmission_witness :
  (exists (d1 d2 : list (pykey * pyval)) (wv hv : Z),
      image_to_image_data sample_args "iVBORw0KGgo=" sample_world = (Ok d1, sample_world) /\
      text_to_image_data sample_args sample_world = (Ok d2, sample_world) /\
      dict_get (KStr "width") d1 = Some (PInt wv) /\
      dict_get (KStr "height") d1 = Some (PInt hv) /\
      dict_get (KStr "width") d2 = Some (PInt wv) /\
      dict_get (KStr "height") d2 = Some (PInt hv) /\
      (wv mod 8 = 0)%Z /\ (hv mod 8 = 0)%Z /\
      (Qabs (inject_Z wv - width sample_args) <= 4)%Q /\
      (Qabs (inject_Z hv - height sample_args) <= 4)%Q) /\
  (exists (w' : world) (l' : layer),
      LayerLocal_resize_to_multiple_of sample_layer_local 64
        (set_layers (insert 0%nat sample_layer) sample_world)
      = (Ok sample_layer_local, w') /\
      w_layers w' !! 0%nat = Some l' /\
      (l_width l' mod 64 = 0)%Z /\ (l_height l' mod 64 = 0)%Z /\
      (Z.abs (l_width l' - l_width sample_layer) <= 32)%Z /\
      (Z.abs (l_height l' - l_height sample_layer) <= 32)%Z).
Proof.
  split.
  - apply (proj1 rounding_before_transmission sample_args "iVBORw0KGgo=" sample_world).
    + exists "a cat", EmptyString. split; reflexivity.
    + cbn. lia.
    + cbn. eexists. reflexivity.
  - apply (proj2 rounding_before_transmission sample_layer_local
             sample_layer (set_layers (insert 0%nat sample_layer) sample_world)).
    reflexivity.
Defined.

(** ** as_strings_deeply *)

Lemma pykey_eqb_KStr (s : string) (k : pykey) :
  is_KStr k -> pykey_eqb (KStr s) k = true <-> KStr s = k.
Proof.
  intros [t ->]. cbn. split.
  - intros E. apply String.eqb_eq in E. congruence.
  - intros [= ->]. apply String.eqb_refl.
Qed.

Lemma dict_setitem_absent (s : string) (v : pyval) (d : list (pykey * pyval)) :
  Forall is_KStr (map fst d) ->
  ~ In (KStr s) (map fst d) ->
  dict_setitem (KStr s) v d = d ++ [(KStr s, v)].
Proof.
  induction d as [|[k' v'] d IH]; intros Hk Hn; [reflexivity|].
  cbn [map fst] in Hk, Hn. inversion Hk as [|? ? Hk' Hd]; subst.
  cbn [dict_setitem]. destruct (pykey_eqb (KStr s) k') eqn:E.
  - apply (pykey_eqb_KStr s k' Hk') in E. exfalso. apply Hn. left. congruence.
  - cbn [app]. f_equal. apply IH; [exact Hd|]. intros Hin. apply Hn. right. exact Hin.
Qed.

Lemma dict_setitem_keys (s : string) (v : pyval) (d : list (pykey * pyval)) :
  Forall is_KStr (map fst d) ->
  (In (KStr s) (map fst d) /\ map fst (dict_setitem (KStr s) v d) = map fst d) \/
  (~ In (KStr s) (map fst d) /\
   map fst (dict_setitem (KStr s) v d) = map fst d ++ [KStr s]).
Proof.
  induction d as [|[k' v'] d IH]; intros Hk.
  - right. split; [intros []|reflexivity].
  - cbn [map fst] in Hk. inversion Hk as [|? ? Hk' Hd]; subst.
    cbn [dict_setitem]. destruct (pykey_eqb (KStr s) k') eqn:E.
    + apply (pykey_eqb_KStr s k' Hk') in E. subst k'.
      left. split; [left; reflexivity|reflexivity].
    + assert (Hne : KStr s <> k').
      { intros <-. rewrite (proj2 (pykey_eqb_KStr s (KStr s) Hk') eq_refl) in E.
        discriminate. }
      destruct (IH Hd) as [[Hin Hm] | [Hn Hm]].
      * left. split; [right; exact Hin|]. cbn [map fst]. f_equal. exact Hm.
      * right. split.
        -- cbn [map fst In]. intros [Heq | Hin]; [congruence | contradiction].
        -- cbn [map fst app]. f_equal. exact Hm.
Qed.

Lemma dict_setitem_str_dict (s : string) (v : pyval) (d : list (pykey * pyval)) :
  str_dict d -> str_dict (dict_setitem (KStr s) v d).
Proof.
  intros [Hk Hnd]. unfold str_dict.
  destruct (dict_setitem_keys s v d Hk) as [[_ ->] | [Hn ->]]; [split; assumption|].
  split.
  - apply Forall_app. split; [exact Hk|]. constructor; [|constructor].
    exists s. reflexivity.
  - apply NoDup_app. split; [exact Hnd|]. split.
    + intros k Hin Hin'. apply list_elem_of_In in Hin, Hin'.
      destruct Hin' as [<- | []]. contradiction.
    + constructor; [|constructor]. intros Hin. apply elem_of_nil in Hin. exact Hin.
Qed.

Lemma dict_setitem_values (Q : pyval -> Prop) (k : pykey) (v : pyval)
    (d : list (pykey * pyval)) :
  Q v -> Forall Q (map snd d) -> Forall Q (map snd (dict_setitem k v d)).
Proof.
  intros Hv. induction d as [|[k' v'] d IH]; intros Hd.
  - cbn. constructor; [exact Hv|constructor].
  - cbn [map snd] in Hd. inversion Hd as [|? ? Hv' Hd']; subst.
    cbn [dict_setitem]. destruct (pykey_eqb k k'); cbn [map snd].
    + constructor; assumption.
    + constructor; [exact Hv'|]. apply IH. exact Hd'.
Qed.

Lemma is_KStr_setitem (k : pykey) (v : pyval) (ps : list (pykey * pyval)) :
  Forall is_KStr (map fst ((k, v) :: ps)) ->
  exists s, k = KStr s /\ Forall is_KStr (map fst ps).
Proof.
  cbn [map fst]. intros Hk. inversion Hk as [|? ? [s ->] Hps]; subst. eauto.
Qed.

Lemma dict_update_str_dict (acc ps : list (pykey * pyval)) :
  str_dict acc -> Forall is_KStr (map fst ps) -> str_dict (dict_update acc ps).
Proof.
  revert acc. induction ps as [|[k v] ps IH]; intros acc Hacc Hps; [exact Hacc|].
  destruct (is_KStr_setitem k v ps Hps) as (s & -> & Hps').
  unfold dict_update. cbn [fold_left fst snd].
  apply IH; [apply dict_setitem_str_dict, Hacc|exact Hps'].
Qed.

Lemma dict_update_values (Q : pyval -> Prop) (acc ps : list (pykey * pyval)) :
  Forall Q (map snd acc) -> Forall Q (map snd ps) ->
  Forall Q (map snd (dict_update acc ps)).
Proof.
  revert acc. induction ps as [|[k v] ps IH]; intros acc Hacc Hps; [exact Hacc|].
  cbn [map snd] in Hps. inversion Hps as [|? ? Hv Hps']; subst.
  unfold dict_update. cbn [fold_left fst snd].
  apply IH; [apply dict_setitem_values; assumption|exact Hps'].
Qed.

Lemma dict_update_keys (acc ps : list (pykey * pyval)) (k : pykey) :
  Forall is_KStr (map fst acc) -> Forall is_KStr (map fst ps) ->
  In k (map fst (dict_update acc ps)) <-> In k (map fst acc) \/ In k (map fst ps).
Proof.
  revert acc. induction ps as [|[k' v] ps IH]; intros acc Hacc Hps.
  - cbn. tauto.
  - destruct (is_KStr_setitem k' v ps Hps) as (s & -> & Hps').
    unfold dict_update. cbn [fold_left fst snd].
    fold (dict_update (dict_setitem (KStr s) v acc) ps).
    rewrite IH; [|
      destruct (dict_setitem_keys s v acc Hacc) as [[_ ->] | [_ ->]];
      [exact Hacc|apply Forall_app; split; [exact Hacc|]; constructor;
                  [exists s; reflexivity|constructor]] | exact Hps'].
    cbn [map fst In].
    destruct (dict_setitem_keys s v acc Hacc) as [[Hin ->] | [_ ->]].
    + split; [tauto|]. intros [H|[<-|H]]; tauto.
    + rewrite in_app_iff. cbn [In]. tauto.
Qed.

Lemma dict_update_fresh (acc ps : list (pykey * pyval)) :
  str_dict (acc ++ ps) -> dict_update acc ps = acc ++ ps.
Proof.
  revert acc. induction ps as [|[k v] ps IH]; intros acc [Hk Hnd].
  - cbn. rewrite app_nil_r. reflexivity.
  - rewrite map_app in Hk, Hnd. apply Forall_app in Hk as [Hacc Hps].
    destruct (is_KStr_setitem k v ps Hps) as (s & -> & Hps').
    unfold dict_update. cbn [fold_left fst snd].
    fold (dict_update (dict_setitem (KStr s) v acc) ps).
    rewrite dict_setitem_absent; [|exact Hacc|].
    + rewrite IH; [rewrite <- app_assoc; reflexivity|].
      rewrite <- app_assoc. cbn [app]. split; rewrite map_app.
      * apply Forall_app. split; assumption.
      * exact Hnd.
    + intros Hin. apply NoDup_app in Hnd as (_ & Hdis & _).
      apply (Hdis (KStr s)); [apply list_elem_of_In; exact Hin|].
      cbn [map fst]. left.
Qed.

Lemma dict_of_pairs_fixed (d : list (pykey * pyval)) :
  str_dict d -> dict_of_pairs d = d.
Proof. intros Hd. apply (dict_update_fresh [] d). exact Hd. Qed.

Lemma str_dict_nil : str_dict [].
Proof. split; constructor. Qed.

Lemma stringified_keys (items : list (pykey * pyval)) :
  Forall is_KStr (map fst (stringified items)).
Proof.
  induction items as [|kv items IH]; cbn; constructor; [|exact IH].
  eexists. reflexivity.
Qed.

Lemma stringified_values (Q : pyval -> Prop) (items : list (pykey * pyval)) :
  Forall (fun kv => Q (as_strings_deeply (snd kv))) items ->
  Forall Q (map snd (stringified items)).
Proof.
  induction 1 as [|kv items Hkv _ IH]; cbn; constructor; assumption.
Qed.

Lemma as_strings_deeply_dict (items : list (pykey * pyval)) :
  as_strings_deeply (PDict items) = PDict (dict_of_pairs (stringified items)).
Proof. reflexivity. Qed.

Lemma stringified_fixed (d : list (pykey * pyval)) :
  Forall is_KStr (map fst d) ->
  Forall (fun v => as_strings_deeply v = v) (map snd d) ->
  stringified d = d.
Proof.
  induction d as [|[k v] d IH]; intros Hk Hv; [reflexivity|].
  cbn [map fst snd] in Hk, Hv.
  inversion Hk as [|? ? [s ->] Hk']; inversion Hv as [|? ? Hv1 Hv']; subst.
  cbn [stringified map fst snd py_str_key]. rewrite Hv1. f_equal.
  apply IH; assumption.
Qed.

Lemma as_strings_deeply_twice (x : pyval) :
  as_strings_deeply (as_strings_deeply x) = as_strings_deeply x.
Proof.
  induction x as [| | | | | |items IH] using pyval_dict_ind; try reflexivity.
  rewrite as_strings_deeply_dict.
  set (d := dict_of_pairs (stringified items)).
  assert (Hd : str_dict d).
  { apply dict_update_str_dict; [apply str_dict_nil|apply stringified_keys]. }
  assert (Hv : Forall (fun v => as_strings_deeply v = v) (map snd d)).
  { apply dict_update_values; [constructor|].
    apply stringified_values. exact IH. }
  rewrite as_strings_deeply_dict.
  rewrite (stringified_fixed d (proj1 Hd) Hv).
  rewrite (dict_of_pairs_fixed d Hd). reflexivity.
Qed.

Lemma string_keyed_dict (d : list (pykey * pyval)) :
  Forall is_KStr (map fst d) ->
  Forall (fun v => string_keyed v = true) (map snd d) ->
  string_keyed (PDict d) = true.
Proof.
  induction d as [|[k v] d IH]; intros Hk Hv; [reflexivity|].
  cbn [map fst snd] in Hk, Hv.
  inversion Hk as [|? ? [s ->] Hk']; inversion Hv as [|? ? Hv1 Hv']; subst.
  cbn [string_keyed forallb fst snd]. rewrite Hv1. apply IH; assumption.
Qed.

Lemma as_strings_deeply_string_keyed (x : pyval) :
  string_keyed (as_strings_deeply x) = true.
Proof.
  induction x as [| | | | | |items IH] using pyval_dict_ind; try reflexivity.
  rewrite as_strings_deeply_dict. apply string_keyed_dict.
  - apply dict_update_str_dict; [apply str_dict_nil|apply stringified_keys].
  - apply dict_update_values; [constructor|].
    apply stringified_values. exact IH.
Qed.

Lemma stringified_key_of (items : list (pykey * pyval)) (k : pykey) :
  In k (map fst (stringified items)) <->
  exists k0, In k0 (map fst items) /\ k = KStr (py_str_key k0).
Proof.
  unfold stringified. rewrite map_map. cbn [fst]. rewrite !in_map_iff. split.
  - intros ([k0 v] & <- & Hin). exists k0. split; [|reflexivity].
    apply in_map_iff. exists (k0, v). split; [reflexivity|exact Hin].
  - intros (k0 & Hin & ->). apply in_map_iff in Hin as ([k1 v] & <- & Hin).
    exists (k1, v). split; [reflexivity|exact Hin].
Qed.

Lemma pykey_eqb_refl (k : pykey) : pykey_eqb k k = true.
Proof.
  destruct k as [|[]| |]; cbn; try reflexivity.
  - apply Z.eqb_refl.
  - apply String.eqb_refl.
Qed.

Lemma dict_get_setitem (k : pykey) (v : pyval) (d : list (pykey * pyval)) :
  dict_get k (dict_setitem k v d) = Some v.
Proof.
  induction d as [|[k' v'] d IH]; cbn [dict_setitem dict_get].
  - rewrite pykey_eqb_refl. reflexivity.
  - destruct (pykey_eqb k k') eqn:E; cbn [dict_get]; rewrite E; [reflexivity|exact IH].
Qed.

Lemma pykey_eqb_KStr_true (s : string) (k : pykey) :
  pykey_eqb (KStr s) k = true -> k = KStr s.
Proof.
  destruct k as [| | |t]; cbn; try discriminate.
  intros E. apply String.eqb_eq in E. congruence.
Qed.

Lemma dict_get_setitem_str_ne (a b : string) (v : pyval) (d : list (pykey * pyval)) :
  a <> b ->
  dict_get (KStr a) (dict_setitem (KStr b) v d) = dict_get (KStr a) d.
Proof.
  intros Hne. assert (Hab : pykey_eqb (KStr a) (KStr b) = false).
  { cbn. apply String.eqb_neq. exact Hne. }
  induction d as [|[k' v'] d IH]; cbn [dict_setitem dict_get].
  - rewrite Hab. reflexivity.
  - destruct (pykey_eqb (KStr b) k') eqn:E; cbn [dict_get].
    + apply pykey_eqb_KStr_true in E. subst k'. rewrite Hab. reflexivity.
    + rewrite IH. reflexivity.
Qed.

Lemma dict_get_stringified (s : string) (items acc : list (pykey * pyval)) :
  dict_get (KStr s) (dict_update acc (stringified items))
  = match last_str_value s items with
    | Some v => Some (as_strings_deeply v)
    | None => dict_get (KStr s) acc
    end.
Proof.
  revert acc. induction items as [|[k v] items IH]; intros acc; [reflexivity|].
  unfold dict_update. cbn [stringified map fold_left fst snd].
  fold (stringified items).
  fold (dict_update (dict_setitem (KStr (py_str_key k)) (as_strings_deeply v) acc)
          (stringified items)).
  rewrite IH. cbn [last_str_value fst snd].
  destruct (last_str_value s items); [reflexivity|].
  destruct (String.eqb (py_str_key k) s) eqn:E.
  - apply String.eqb_eq in E. subst s. apply dict_get_setitem.
  - apply String.eqb_neq in E. apply dict_get_setitem_str_ne. congruence.
Qed.

Lemma key_in_In (keys : list string) (s : string) :
  key_in keys s = true <-> In (KStr s) (map KStr keys).
Proof.
  unfold key_in. rewrite existsb_exists, in_map_iff. split.
  - intros (t & Hin & E). apply String.eqb_eq in E. subst t. eauto.
  - intros (t & [= ->] & Hin). exists s. split; [exact Hin|apply String.eqb_refl].
Qed.

Lemma filter_known (keys : list string) (s : string) (l : list string) :
  key_in keys s = true ->
  List.filter (fun t => negb (key_in keys t))
    (List.filter (fun t => negb (String.eqb s t)) l)
  = List.filter (fun t => negb (key_in keys t)) l.
Proof.
  intros Hs. induction l as [|t l IH]; [reflexivity|].
  cbn [List.filter]. destruct (String.eqb s t) eqn:E; cbn [negb List.filter].
  - apply String.eqb_eq in E. subst t. rewrite Hs. cbn [negb]. exact IH.
  - rewrite IH. reflexivity.
Qed.

Lemma filter_new (keys : list string) (s : string) (l : list string) :
  List.filter (fun t => negb (key_in (keys ++ [s]) t)) l
  = List.filter (fun t => negb (key_in keys t))
      (List.filter (fun t => negb (String.eqb s t)) l).
Proof.
  induction l as [|t l IH]; [reflexivity|].
  cbn [List.filter]. unfold key_in at 1. rewrite existsb_app. cbn [existsb].
  rewrite orb_false_r. fold (key_in keys t). rewrite (String.eqb_sym t s).
  destruct (String.eqb s t); cbn [negb List.filter].
  - rewrite orb_true_r. cbn [negb]. exact IH.
  - rewrite orb_false_r. rewrite IH. reflexivity.
Qed.

Lemma dict_update_key_order (items acc : list (pykey * pyval)) (keys : list string) :
  map fst acc = map KStr keys ->
  map fst (dict_update acc (stringified items))
  = map KStr (keys ++ List.filter (fun t => negb (key_in keys t))
                        (first_occurrences (map (fun kv => py_str_key (fst kv)) items))).
Proof.
  revert acc keys. induction items as [|[k v] items IH]; intros acc keys Hacc.
  - cbn. rewrite app_nil_r. exact Hacc.
  - unfold dict_update. cbn [stringified map fold_left fst snd].
    fold (stringified items).
    fold (dict_update (dict_setitem (KStr (py_str_key k)) (as_strings_deeply v) acc)
            (stringified items)).
    assert (Hk : Forall is_KStr (map fst acc)).
    { rewrite Hacc. apply Forall_forall. intros x Hin.
      apply list_elem_of_In, in_map_iff in Hin as (t & <- & _). exists t. reflexivity. }
    cbn [first_occurrences List.filter].
    destruct (dict_setitem_keys (py_str_key k) (as_strings_deeply v) acc Hk)
      as [[Hin Hm] | [Hn Hm]].
    + rewrite (IH _ keys) by (rewrite Hm; exact Hacc).
      rewrite Hacc in Hin. apply key_in_In in Hin. rewrite Hin. cbn [negb].
      rewrite filter_known by exact Hin. reflexivity.
    + rewrite (IH _ (keys ++ [py_str_key k])%list)
        by (rewrite Hm, Hacc, map_app; reflexivity).
      destruct (key_in keys (py_str_key k)) eqn:E.
      { exfalso. apply Hn. rewrite Hacc. apply key_in_In. exact E. }
      cbn [negb]. rewrite filter_new, <- app_assoc. reflexivity.
Qed.

Lemma filter_all (l : list string) :
  List.filter (fun t => negb (key_in [] t)) l = l.
Proof. induction l as [|t l IH]; [reflexivity|]. cbn. f_equal. exact IH. Qed.

Lemma as_strings_deeply_key_order (items : list (pykey * pyval)) :
  map fst (dict_of_pairs (stringified items))
  = map KStr (first_occurrences (map (fun kv => py_str_key (fst kv)) items)).
Proof.
  unfold dict_of_pairs. fold (dict_update [] (stringified items)).
  rewrite (dict_update_key_order items [] []) by reflexivity.
  cbn [app]. rewrite filter_all. reflexivity.
Qed.

Lemma as_strings_deeply_path (path : list string) (x : pyval) :
  dict_path path (as_strings_deeply x) = as_strings_deeply <$> str_path path x.
Proof.
  revert x. induction path as [|s path IH]; intros x.
  - destruct x; reflexivity.
  - destruct x as [| | | | | |items]; try reflexivity.
    rewrite as_strings_deeply_dict. cbn [dict_path str_path].
    unfold dict_of_pairs. fold (dict_update [] (stringified items)).
    rewrite dict_get_stringified. cbn [dict_get].
    destruct (last_str_value s items) as [v|]; [apply IH|reflexivity].
Qed.

(** C10. [as_strings_deeply] applied twice is [as_strings_deeply]
    applied once. Its result has string keys only, in the dictionary and
    in the dictionaries nested in it as values: the keys of a dictionary
    are the [str] of the keys it had. A value that is not a dictionary,
    a list with all it holds included, comes back unchanged.

    For a dictionary the result is fixed entry by entry: its keys are the
    [str] of the keys it had, each once and where it first occurs, and
    the value under a key is [as_strings_deeply] of the value of the last
    entry whose key prints so. The same holds at any depth: what the
    result holds along a path of keys is [as_strings_deeply] of what the
    value held along the path, and it is that very value when it is no
    dictionary; where the value holds nothing, the result holds nothing. *)
Theorem as_strings_deeply_idempotent (x : pyval) :
  as_strings_deeply (as_strings_deeply x) = as_strings_deeply x /\
  string_keyed (as_strings_deeply x) = true /\
  match x with
  | PDict items =>
      exists items',
        as_strings_deeply x = PDict items' /\
        forall k, In k (map fst items') <->
                  exists k0, In k0 (map fst items) /\ k = KStr (py_str_key k0)
  | _ => as_strings_deeply x = x
  end /\
  (forall items,
     x = PDict items ->
     exists items',
       as_strings_deeply x = PDict items' /\
       map fst items'
       = map KStr (first_occurrences (map (fun kv => py_str_key (fst kv)) items)) /\
       NoDup (map fst items') /\
       forall s, dict_get (KStr s) items'
                 = as_strings_deeply <$> last_str_value s items) /\
  (forall path,
     dict_path path (as_strings_deeply x) = as_strings_deeply <$> str_path path x) /\
  (forall path v,
     str_path path x = Some v ->
     (forall items, v <> PDict items) ->
     dict_path path (as_strings_deeply x) = Some v).
Proof.
  split; [apply as_strings_deeply_twice|].
  split; [apply as_strings_deeply_string_keyed|].
  split.
  { destruct x as [| | | | | |items]; try reflexivity.
    exists (dict_of_pairs (stringified items)). split; [reflexivity|].
    intros k. unfold dict_of_pairs. fold (dict_update [] (stringified items)).
    rewrite dict_update_keys; [|constructor|apply stringified_keys].
    rewrite <- stringified_key_of. cbn [map In]. tauto. }
  split.
  { intros items ->. exists (dict_of_pairs (stringified items)).
    split; [reflexivity|]. split; [apply as_strings_deeply_key_order|].
    split.
    - apply (dict_update_str_dict [] (stringified items));
        [apply str_dict_nil|apply stringified_keys].
    - intros s. unfold dict_of_pairs. fold (dict_update [] (stringified items)).
      rewrite dict_get_stringified. cbn [dict_get].
      destruct (last_str_value s items); reflexivity. }
  split; [intros path; apply as_strings_deeply_path|].
  intros path v Hv Hleaf. rewrite as_strings_deeply_path, Hv. cbn.
  destruct v; try reflexivity. exfalso. exact (Hleaf _ eq_refl).
Qed.

Lemma as_strings_deeply_idempotent_witness :
  str_path ["1"; "None"] sample_nested = Some (PList [PDict [(KInt 2, PNone)]]) /\
  dict_path ["1"; "None"] (as_strings_deeply sample_nested)
  = Some (PList [PDict [(KInt 2, PNone)]]) /\
  exists items',
    as_strings_deeply sample_nested = PDict items' /\
    map fst items' = [KStr "1"; KStr "seed"] /\
    dict_get (KStr "1") items'
    = Some (PDict [(KStr "None", PList [PDict [(KInt 2, PNone)]]);
                   (KStr "True", PInt 3)]).
Proof.
  destruct (as_strings_deeply_idempotent sample_nested)
    as (_ & _ & _ & Hdict & _ & Hleaf).
  split; [reflexivity|]. split.
  - apply Hleaf; [reflexivity|]. intros items. discriminate.
  - destruct (Hdict _ eq_refl) as (items' & E & Hkeys & _ & Hget).
    exists items'. split; [exact E|]. split; [exact Hkeys|].
    rewrite Hget. reflexivity.
Defined.

(** ** ApiClient.post *)

(** C4. When the reply to a POST is not a 2xx one, [ApiClient.post]
    logs the status code, the reason and the headers of the reply, has
    sent the one request and no other, and returns [None] to its
    caller: no exception leaves it. *)
Theorem post_non_2xx (endpoint : string) (dict_in : pyval)
    (headers : list (string * string)) (w : world) (base : string)
    (rep : http_reply) :
  w_base_url w = PStr base ->
  w_answer w (post_request base endpoint dict_in headers) = Replied rep ->
  (rep_code rep < 200 \/ 300 <= rep_code rep)%Z ->
  exists w' : world,
    ApiClient_post endpoint dict_in headers w = (Ok PNone, w') /\
    w_sent w' = w_sent w ++ [post_request base endpoint dict_in headers] /\
    w_log w' =
      w_log w ++
      [ (LogWarning, "POST " +:+ base +:+ endpoint +:+ "?");
        (LogException, "ERROR: ApiClient.post()");
        (LogError, "url=" +:+ (base +:+ endpoint +:+ "?") +:+ ", code="
                   +:+ pretty (rep_code rep) +:+ ", reason=" +:+ rep_reason rep);
        (LogError, rep_headers rep) ] /\
    w_data w' = w_data w /\ w_file w' = w_file w /\ w_layers w' = w_layers w.
Proof.
  intros Hbase Hrep Hcode.
  unfold ApiClient_post, try_except, urlopen, LOGGER. run_monad.
  rewrite Hbase. cbn [py_concat]. cbn [w_answer set_sent set_log].
  fold (post_request base endpoint dict_in headers). rewrite Hrep.
  replace ((200 <=? rep_code rep)%Z && (rep_code rep <? 300)%Z) with false.
  2:{ symmetry. apply andb_false_iff.
      destruct Hcode; [left; apply Z.leb_gt|right; apply Z.ltb_ge]; lia. }
  cbn [is_HTTPError]. eexists. split; [reflexivity|].
  cbn [w_sent w_log w_data w_file w_layers set_sent set_log req_url post_request].
  repeat split; rewrite <- ?app_assoc; reflexivity.
Qed.

(** Whatever the reply, the dictionary given to [post] is the body of
    the one request that goes out. *)
Lemma ApiClient_post_sends (endpoint : string) (dict_in : pyval)
    (headers : list (string * string)) (w : world) (base : string) :
  w_base_url w = PStr base ->
  w_sent (snd (ApiClient_post endpoint dict_in headers w))
  = w_sent w ++ [post_request base endpoint dict_in headers].
Proof.
  intros Hbase.
  unfold ApiClient_post, try_except, urlopen, LOGGER. run_monad.
  rewrite Hbase. cbn [py_concat]. cbn [w_answer set_sent set_log].
  fold (post_request base endpoint dict_in headers).
  destruct (w_answer w (post_request base endpoint dict_in headers)) as [rep|e].
  - destruct ((200 <=? rep_code rep)%Z && (rep_code rep <? 300)%Z).
    + destruct (rep_body rep); reflexivity.
    + reflexivity.
  - destruct (is_HTTPError e) eqn:He; [|reflexivity].
    destruct e; try discriminate He. reflexivity.
Qed.

Lemma post_non_2xx_witness :
  exists w' : world,
    ApiClient_post "/sdapi/v1/txt2img" (PDict []) [] sample_error_world = (Ok PNone, w') /\
    w_sent w' =
      w_sent sample_error_world
      ++ [post_request "http://127.0.0.1:7860" "/sdapi/v1/txt2img" (PDict []) []] /\
    w_log w' =
      w_log sample_error_world ++
      [ (LogWarning, "POST " +:+ "http://127.0.0.1:7860" +:+ "/sdapi/v1/txt2img" +:+ "?");
        (LogException, "ERROR: ApiClient.post()");
        (LogError, "url=" +:+ ("http://127.0.0.1:7860" +:+ "/sdapi/v1/txt2img" +:+ "?")
                   +:+ ", code=" +:+ pretty (rep_code sample_error_reply)
                   +:+ ", reason=" +:+ rep_reason sample_error_reply);
        (LogError, rep_headers sample_error_reply) ] /\
    w_data w' = w_data sample_error_world /\
    w_file w' = w_file sample_error_world /\
    w_layers w' = w_layers sample_error_world.
Proof.
  apply (post_non_2xx "/sdapi/v1/txt2img" (PDict []) [] sample_error_world
           "http://127.0.0.1:7860" sample_error_reply).
  - reflexivity.
  - reflexivity.
  - right. cbn. lia.
Defined.

(** ** poll_server *)

Lemma lstrip_all_space (s : string) :
  lstrip s = EmptyString <-> all_space s = true.
Proof.
  induction s as [|c s IH]; cbn [lstrip all_space]; [tauto|].
  destruct (is_py_space c); cbn [andb]; [exact IH|].
  split; discriminate.
Qed.

Lemma rstrip_all_space (s : string) :
  rstrip s = EmptyString <-> all_space s = true.
Proof.
  induction s as [|c s IH]; cbn [rstrip all_space]; [tauto|].
  destruct (rstrip s) eqn:E.
  - rewrite (proj1 IH eq_refl), andb_true_r.
    destruct (is_py_space c); split; (reflexivity || discriminate).
  - split; [discriminate|]. intros H. apply andb_true_iff in H as [_ H].
    apply IH in H. discriminate.
Qed.

Lemma lstrip_not_space (s : string) :
  all_space s = false -> all_space (lstrip s) = false.
Proof.
  induction s as [|c s IH]; cbn [lstrip all_space]; [discriminate|].
  destruct (is_py_space c) eqn:E; cbn [andb]; [exact IH|].
  intros _. cbn [all_space]. rewrite E. reflexivity.
Qed.

Lemma py_strip_blank (s : string) :
  String.eqb (py_strip s) EmptyString = all_space s.
Proof.
  unfold py_strip. destruct (all_space s) eqn:E.
  - apply String.eqb_eq. apply lstrip_all_space in E. rewrite E. reflexivity.
  - apply String.eqb_neq. intros H. apply rstrip_all_space in H.
    rewrite (lstrip_not_space s E) in H. discriminate.
Qed.

Lemma server_online_probes (url : string) (w : world) :
  exists w' : world,
    snd (server_online url w) = w' /\
    w_sent w' = w_sent w ++ [probe url] /\
    (forall running, fst (server_online url w) = Ok running ->
                     running = true <->
                     exists rep, w_answer w (probe url) = Replied rep
                                 /\ (200 <= rep_code rep < 300)%Z).
Proof.
  eexists. split; [reflexivity|].
  unfold server_online, try_except, urlopen, LOGGER. run_monad.
  cbn [w_answer set_sent]. fold (probe url).
  destruct (w_answer w (probe url)) as [rep|e] eqn:E.
  - destruct ((200 <=? rep_code rep)%Z && (rep_code rep <? 300)%Z) eqn:Hc.
    + cbn. split; [reflexivity|]. intros running [= <-].
      split; [|reflexivity]. intros _. exists rep. split; [reflexivity|].
      apply andb_true_iff in Hc as [H1 H2].
      apply Z.leb_le in H1. apply Z.ltb_lt in H2. lia.
    + cbn. split; [reflexivity|]. intros running [= <-].
      split; [discriminate|]. intros (rep' & [= <-] & Hr). exfalso.
      apply andb_false_iff in Hc as [Hc|Hc];
        [apply Z.leb_gt in Hc|apply Z.ltb_ge in Hc]; lia.
  - destruct (is_URLError e) eqn:He; cbn; (split; [reflexivity|]).
    + intros running [= <-]. split; [discriminate|]. intros (? & [=] & _).
    + intros running [=].
Qed.

(** C5. A stored [api_base] that is missing, blank or malformed makes
    [poll_server] raise with the world as it was: [urlopen] has not been
    called. With any other [api_base], [poll_server] sends the probe to
    that URL. *)
Theorem poll_server_guards (w : world) :
  (api_base_missing w \/ api_base_blank w \/ api_base_malformed w ->
   exists e : exn, poll_server w = (Raise e, w)) /\
  (~ (api_base_missing w \/ api_base_blank w \/ api_base_malformed w) ->
   exists url : string,
     w_data w !! "api_base" = Some (PStr url) /\
     w_sent (snd (poll_server w)) = w_sent w ++ [probe url] /\
     forall running : bool,
       fst (poll_server w) = Ok running ->
       w_is_server_running (snd (poll_server w)) = running).
Proof.
  unfold api_base_missing, api_base_blank, api_base_malformed, poll_server.
  run_monad.
  destruct (w_data w !! "api_base") as [v|] eqn:Ev.
  2:{ split; [intros _; eexists; reflexivity|].
      intros Hn. exfalso. apply Hn. left. left. reflexivity. }
  destruct v as [| | | |url| |];
    try (split; [intros _; eexists; reflexivity
                |intros Hn; exfalso; apply Hn; tauto]).
  rewrite py_strip_blank.
  destruct (all_space url) eqn:Hb.
  { split; [intros _; eexists; reflexivity|].
    intros Hn. exfalso. apply Hn. right. left. exists url. split; congruence. }
  destruct (py_startswith (py_lower url) "http://") eqn:Hs; cbn [negb].
  2:{ split; [intros _; eexists; reflexivity|].
      intros Hn. exfalso. apply Hn. right. right. reflexivity. }
  split.
  - intros [[H|H] | [(s & [= <-] & H) | H]]; congruence.
  - intros _. exists url. split; [reflexivity|].
    destruct (server_online_probes url w) as (w' & Hw' & Hsent & _).
    destruct (server_online url w) as [[running|e] w1]; cbn [snd] in Hw'; subst w1.
    + cbn [fst snd w_sent set_is_server_running w_is_server_running].
      split; [exact Hsent|]. intros ? [= <-]. reflexivity.
    + cbn [fst snd]. split; [exact Hsent|]. intros ? [=].
Qed.

Lemma poll_server_guards_witness :
  (exists e : exn, poll_server sample_blank_world = (Raise e, sample_blank_world)) /\
  (exists url : string,
      w_data sample_world !! "api_base" = Some (PStr url) /\
      w_sent (snd (poll_server sample_world)) = w_sent sample_world ++ [probe url] /\
      forall running : bool,
        fst (poll_server sample_world) = Ok running ->
        w_is_server_running (snd (poll_server sample_world)) = running).
Proof.
  split.
  - apply (proj1 (poll_server_guards sample_blank_world)).
    right. left. exists "   ". split; reflexivity.
  - apply (proj2 (poll_server_guards sample_world)).
    unfold api_base_missing, api_base_blank, api_base_malformed.
    replace (w_data sample_world !! "api_base")
      with (Some (PStr "http://127.0.0.1:7860")) by reflexivity.
    intros [[H|H] | [(s & H & Hs) | H]]; try discriminate.
    injection H as <-. discriminate.
Defined.

(** ** The settings shelf *)

Lemma json_object_kept (d : gmap string pyval) :
  json_kept d -> json_object d = Ok d.
Proof.
  intros Hd. unfold json_object.
  destruct (decide (map_Forall (fun _ v => is_ok (json_value v) = true) d)) as [_|Hn].
  - f_equal. apply map_eq. intros k. rewrite lookup_omap.
    destruct (d !! k) as [v|] eqn:E; [|reflexivity].
    cbn. rewrite (Hd k v E). reflexivity.
  - exfalso. apply Hn. intros k v E. rewrite (Hd k v E). reflexivity.
Qed.

Lemma MyShelf_load_run (default_shelf : nat) (w : world) :
  exists w' : world,
    MyShelf_load default_shelf w = (Ok tt, w') /\
    w_file w' = w_file w /\ w_writable w' = w_writable w /\
    w_objects w' = w_objects w /\
    w_data w' = match w_file w with
                | JsonObject m => m
                | NoFile | Corrupt => dict_at default_shelf w
                end /\
    w_data_at w' = match w_file w with
                   | JsonObject _ => None
                   | NoFile | Corrupt => Some default_shelf
                   end.
Proof.
  unfold MyShelf_load, try_except, LOGGER. run_monad.
  cbn [w_file bind_data]. destruct (w_file w) eqn:E; cbn;
    eexists; (split; [reflexivity|]); cbn; rewrite ?E; repeat split; reflexivity.
Qed.

Lemma MyShelf_save_run (data : gmap string pyval) (w : world) :
  exists w' : world,
    MyShelf_save data w = (Ok tt, w') /\
    w_data w' = data ∪ w_data w /\
    w_writable w' = w_writable w /\
    w_data_at w' = w_data_at w /\
    w_objects w' = w_objects (set_data (data ∪ w_data w) w) /\
    w_file w' = saved_file data w.
Proof.
  unfold MyShelf_save, saved_file, try_except, LOGGER. run_monad.
  cbn [w_writable w_data set_data set_log]. destruct (w_writable w) eqn:E; cbn.
  - destruct (json_object (data ∪ w_data w)) as [document|e]; cbn;
      eexists; (split; [reflexivity|]); cbn; rewrite ?E; repeat split; reflexivity.
  - eexists. split; [reflexivity|]. cbn. rewrite ?E. repeat split; reflexivity.
Qed.

(** The dictionary of the caller after a change of [self.data] in
    place: changed with it when it is [self.data]. *)
Lemma dict_at_set_data (a : nat) (d : gmap string pyval) (w : world) :
  dict_at a (set_data d w)
  = if decide (w_data_at w = Some a) then d else dict_at a w.
Proof.
  unfold dict_at, set_data. cbn [w_objects].
  destruct (w_data_at w) as [b|] eqn:E.
  - destruct (decide (Some b = Some a)) as [[= ->]|Hne].
    + rewrite lookup_insert_eq. reflexivity.
    + rewrite lookup_insert_ne; [reflexivity|congruence].
  - destruct (decide (None = Some a)); [discriminate|reflexivity].
Qed.

(** C2, as stated, fails: on a settings file that holds a prompt and
    nothing else, [save(x)] followed by [load()] yields the prompt of
    the file and [x]. That is not the default mapping merged with [x],
    and no default entry has come back: [load] has not merged the file
    over the defaults it was given, which hold [api_base]. *)
Lemma settings_round_trip_counterexample :
  dict_at 0 sample_short_file = STABLE_DIFF_AUTO1111_DEFAULT_SETTINGS /\
  exists w' : world,
    (MyShelf_init 0 ;; MyShelf_save sample_saved ;; MyShelf_load 0) sample_short_file
    = (Ok tt, w') /\
    w_data w' = {[ "prompt" := PStr "a cat"; "negative_prompt" := PStr "blurry" ]} /\
    w_data w' <> sample_saved ∪ STABLE_DIFF_AUTO1111_DEFAULT_SETTINGS /\
    w_data w' !! "api_base" = None /\
    STABLE_DIFF_AUTO1111_DEFAULT_SETTINGS !! "api_base"
    = Some (PStr "http://127.0.0.1:7860").
Proof.
  split; [reflexivity|]. eexists. split; [vm_compute; reflexivity|].
  split; [vm_compute; reflexivity|]. split; [|split; vm_compute; reflexivity].
  intros H. apply (f_equal (fun m : gmap string pyval => m !! "api_base")) in H.
  vm_compute in H. discriminate H.
Qed.

(** C2, amended. After [save(x)] on a writable file, [load()] yields
    the document [json.dump] wrote for the mapping the shelf held before
    the save merged with [x], the entries of [x] winning; that is the
    merged mapping itself when its values come back from JSON as they
    are, and the default mapping merged with [x] for a shelf started
    from the defaults with no settings file. [load] takes the mapping of
    the file in place of the defaults, without merging the two, and
    falls back to the dictionary it is given, without raising, when the
    file is missing or corrupt. The dictionary it is given is not
    copied: a shelf started from it with no file writes [x] into it, so
    that the later [load] finds [x] there even when the file cannot be
    written; and a save that [json.dump] rejects leaves a file that
    cannot be read, after which [load] falls back in the same way. *)
Theorem settings_round_trip (x : gmap string pyval) (defaults : nat) (w : world) :
  (w_writable w = true ->
   forall document : gmap string pyval,
     json_object (x ∪ w_data w) = Ok document ->
     exists w' : world,
       (MyShelf_save x ;; MyShelf_load defaults) w = (Ok tt, w') /\
       w_data w' = document) /\
  (w_writable w = true -> json_kept (x ∪ w_data w) ->
   exists w' : world,
     (MyShelf_save x ;; MyShelf_load defaults) w = (Ok tt, w') /\
     w_data w' = x ∪ w_data w) /\
  (w_file w = NoFile ->
   w_writable w = false \/ json_kept (x ∪ dict_at defaults w) ->
   exists w' : world,
     (MyShelf_init defaults ;; MyShelf_save x ;; MyShelf_load defaults) w = (Ok tt, w') /\
     w_data w' = x ∪ dict_at defaults w) /\
  (forall m : gmap string pyval,
      w_file w = JsonObject m ->
      exists w' : world, MyShelf_load defaults w = (Ok tt, w') /\ w_data w' = m) /\
  (w_file w = NoFile \/ w_file w = Corrupt ->
   exists w' : world,
     MyShelf_load defaults w = (Ok tt, w') /\ w_data w' = dict_at defaults w) /\
  (w_writable w = true ->
   forall e : exn,
     json_object (x ∪ w_data w) = Raise e ->
     exists w' : world,
       (MyShelf_save x ;; MyShelf_load defaults) w = (Ok tt, w') /\
       w_file w' = Corrupt /\
       w_data w' = if decide (w_data_at w = Some defaults)
                   then x ∪ w_data w else dict_at defaults w).
Proof.
  assert (Hround : forall w0 document,
            w_writable w0 = true ->
            json_object (x ∪ w_data w0) = Ok document ->
            exists w' : world,
              (MyShelf_save x ;; MyShelf_load defaults) w0 = (Ok tt, w') /\
              w_data w' = document).
  { intros w0 document Hw Hj. unfold bind.
    destruct (MyShelf_save_run x w0) as (w1 & -> & _ & _ & _ & _ & Hf1).
    destruct (MyShelf_load_run defaults w1) as (w2 & -> & _ & _ & _ & Hd2 & _).
    exists w2. split; [reflexivity|].
    rewrite Hd2, Hf1. unfold saved_file. rewrite Hw, Hj. reflexivity. }
  assert (Hfall : forall w0,
            w_file w0 = NoFile \/ w_file w0 = Corrupt ->
            exists w' : world,
              MyShelf_load defaults w0 = (Ok tt, w') /\
              w_data w' = dict_at defaults w0 /\ w_data_at w' = Some defaults /\
              w_file w' = w_file w0 /\ w_writable w' = w_writable w0).
  { intros w0 Hf.
    destruct (MyShelf_load_run defaults w0) as (w' & -> & Hf' & Hw' & _ & Hd & Ha).
    exists w'. split; [reflexivity|]. rewrite Hd, Ha.
    destruct Hf as [E | E]; rewrite E; repeat split; congruence. }
  split; [intros Hw document Hj; exact (Hround w document Hw Hj)|].
  split; [intros Hw Hk; apply (Hround w _ Hw), json_object_kept, Hk|].
  split; [|split; [|split]].
  - intros Hf Hcase. unfold MyShelf_init. unfold bind at 1.
    destruct (Hfall w (or_introl Hf)) as (w0 & -> & Hd0 & Ha0 & Hf0 & Hw0).
    rewrite <- Hd0.
    destruct (w_writable w0) eqn:Ew.
    + destruct Hcase as [Hro | Hk]; [congruence|].
      apply (Hround w0 _ Ew), json_object_kept. rewrite Hd0. exact Hk.
    + unfold bind.
      destruct (MyShelf_save_run x w0) as (w1 & -> & _ & _ & _ & Ho1 & Hf1).
      destruct (MyShelf_load_run defaults w1) as (w2 & -> & _ & _ & _ & Hd2 & _).
      exists w2. split; [reflexivity|].
      rewrite Hd2, Hf1. unfold saved_file. rewrite Ew, Hf0, Hf.
      unfold dict_at. rewrite Ho1. fold (dict_at defaults (set_data (x ∪ w_data w0) w0)).
      rewrite dict_at_set_data, Ha0.
      destruct (decide (Some defaults = Some defaults)); [reflexivity|congruence].
  - intros m Hf.
    destruct (MyShelf_load_run defaults w) as (w' & -> & _ & _ & _ & Hd & _).
    exists w'. split; [reflexivity|]. rewrite Hd, Hf. reflexivity.
  - intros Hf. destruct (Hfall w Hf) as (w' & Hrun & Hd & _). eauto.
  - intros Hw e Hj. unfold bind.
    destruct (MyShelf_save_run x w) as (w1 & -> & _ & _ & _ & Ho1 & Hf1).
    destruct (MyShelf_load_run defaults w1) as (w2 & -> & Hf2 & _ & _ & Hd2 & _).
    unfold saved_file in Hf1. rewrite Hw, Hj in Hf1.
    exists w2. split; [reflexivity|]. split; [congruence|].
    rewrite Hd2, Hf1. unfold dict_at. rewrite Ho1.
    fold (dict_at defaults (set_data (x ∪ w_data w) w)).
    apply dict_at_set_data.
Qed.

Lemma settings_round_trip_witness :
  (exists w' : world,
      (MyShelf_save sample_saved ;; MyShelf_load 0) sample_world = (Ok tt, w') /\
      w_data w' = sample_saved ∪ w_data sample_world) /\
  (exists w' : world,
      (MyShelf_init 0 ;; MyShelf_save sample_saved ;; MyShelf_load 0) sample_first_session
      = (Ok tt, w') /\
      w_data w' = sample_saved ∪ dict_at 0 sample_first_session) /\
  (exists w' : world,
      MyShelf_load 0 sample_first_session = (Ok tt, w') /\
      w_data w' = dict_at 0 sample_first_session) /\
  (exists w' : world,
      (MyShelf_save sample_mixed_keys ;; MyShelf_load 0) sample_first_session
      = (Ok tt, w') /\
      w_file w' = Corrupt /\
      w_data w' = if decide (w_data_at sample_first_session = Some 0%nat)
                  then sample_mixed_keys ∪ w_data sample_first_session
                  else dict_at 0 sample_first_session).
Proof.
  pose proof (settings_round_trip sample_saved 0 sample_world) as (_ & H2 & _).
  pose proof (settings_round_trip sample_saved 0 sample_first_session)
    as (_ & _ & H3 & _ & H5 & _).
  pose proof (settings_round_trip sample_mixed_keys 0 sample_first_session)
    as (_ & _ & _ & _ & _ & H6).
  split; [apply H2; [reflexivity|]|].
  { apply map_Forall_to_list. vm_compute. repeat constructor. }
  split; [apply H3; [reflexivity|right]|].
  { apply map_Forall_to_list. vm_compute. repeat constructor. }
  split; [apply H5; left; reflexivity|].
  apply (H6 eq_refl TypeError). vm_compute. reflexivity.
Defined.

(** ** The layers of the document *)

Lemma bind_run {A B : Type} (c : M A) (k : A -> M B) (a : A) (w w' : world) :
  c w = (Ok a, w') -> bind c k w = k a w'.
Proof. intros Hc. unfold bind. rewrite Hc. reflexivity. Qed.

Lemma bind_raise {A B : Type} (c : M A) (k : A -> M B) (e : exn) (w w' : world) :
  c w = (Raise e, w') -> bind c k w = (Raise e, w').
Proof. intros Hc. unfold bind. rewrite Hc. reflexivity. Qed.

Lemma LayerLocal_init_run (h : nat) (l : layer) (w : world) :
  w_layers w !! h = Some l ->
  LayerLocal_init h w
  = (Ok {| ll_id := w_layer_count w; ll_layer := h |},
     set_layer_count (w_layer_count w + 1) w).
Proof.
  intros Hl. unfold LayerLocal_init.
  rewrite (bind_run _ _ _ _ _ (the_layer_run h l w Hl)). reflexivity.
Qed.

Lemma LayerData_load_run (h : nat) (l : layer) (w : world) :
  w_layers w !! h = Some l ->
  LayerData_load h PNone w = (Ok (loaded_document PNone l), w).
Proof.
  intros Hl. unfold LayerData_load. cbn zeta.
  rewrite (bind_run _ _ _ _ _ (the_layer_run h l w Hl)).
  unfold loaded_document. destruct (l_parasite l); reflexivity.
Qed.

Lemma LayerLocal_load_data_run (self : LayerLocal) (defaults : pyval) (l : layer)
    (w : world) :
  w_layers w !! ll_layer self = Some l ->
  LayerLocal_load_data self defaults w = (py_copy (loaded_document defaults l), w).
Proof.
  intros Hl. unfold LayerLocal_load_data, LayerData_load, bind, lift, ret. cbn zeta.
  rewrite (the_layer_run _ l w Hl).
  unfold loaded_document. destruct (l_parasite l) as [doc|]; [reflexivity|].
  destruct defaults; reflexivity.
Qed.

Lemma new_layer_run (l : layer) (w : world) :
  new_layer l w
  = (Ok (fresh (dom (w_layers w))),
     set_layers (insert (fresh (dom (w_layers w))) l) w).
Proof. reflexivity. Qed.

Lemma fresh_layer_unused (w : world) : w_layers w !! fresh (dom (w_layers w)) = None.
Proof. apply not_elem_of_dom, is_fresh. Qed.

Lemma LayerLocal_copy_run (self : LayerLocal) (l : layer) (w : world) :
  w_layers w !! ll_layer self = Some l ->
  LayerLocal_copy self w
  = (Ok {| ll_id := w_layer_count w; ll_layer := fresh (dom (w_layers w)) |},
     set_layer_count (w_layer_count w + 1)
       (set_layers (insert (fresh (dom (w_layers w))) (layer_copy l)) w)).
Proof.
  intros Hl. unfold LayerLocal_copy.
  rewrite (bind_run _ _ _ _ _ (the_layer_run _ l w Hl)).
  rewrite (bind_run _ _ _ _ _ (new_layer_run (layer_copy l) w)).
  apply (LayerLocal_init_run (fresh (dom (w_layers w))) (layer_copy l)
           (set_layers (insert (fresh (dom (w_layers w))) (layer_copy l)) w)).
  cbn [w_layers set_layers]. apply lookup_insert_eq.
Qed.

Lemma LayerLocal_attach_run (self : LayerLocal) (b : bool) (l : layer) (w : world) :
  w_layers w !! ll_layer self = Some l ->
  (update_layer (ll_layer self) (with_attached b) ;; ret self) w
  = (Ok self, set_layers (alter (with_attached b) (ll_layer self)) w).
Proof.
  intros Hl. rewrite (bind_run _ _ _ _ _ (update_layer_run _ _ l w Hl)).
  reflexivity.
Qed.

Lemma LayerLocal_rename_run (self : LayerLocal) (name : string) (l : layer)
    (w : world) :
  w_layers w !! ll_layer self = Some l ->
  LayerLocal_rename self name w
  = (Ok self, set_layers (alter (with_name name) (ll_layer self)) w).
Proof.
  intros Hl. unfold LayerLocal_rename.
  rewrite (bind_run _ _ _ _ _ (update_layer_run _ _ l w Hl)). reflexivity.
Qed.

Lemma LayerLocal_save_data_run (self : LayerLocal) (data document : pyval)
    (l : layer) (w : world) :
  w_layers w !! ll_layer self = Some l ->
  json_value data = Ok document ->
  LayerLocal_save_data self data w
  = (Ok self, set_layers (alter (with_parasite (Some document)) (ll_layer self)) w).
Proof.
  intros Hl Hj. unfold LayerLocal_save_data, LayerData_save.
  rewrite (bind_run _ _ _ _ _ (LayerData_load_run _ l w Hl)).
  unfold lift. rewrite Hj. unfold bind at 2.
  rewrite (bind_run _ _ _ _ _ (update_layer_run _ _ l w Hl)). reflexivity.
Qed.

(** A document that [json.dumps] rejects is not attached: the layer is
    as it was. *)
Lemma LayerLocal_save_data_raise (self : LayerLocal) (data : pyval) (e : exn)
    (l : layer) (w : world) :
  w_layers w !! ll_layer self = Some l ->
  json_value data = Raise e ->
  LayerLocal_save_data self data w = (Raise e, w).
Proof.
  intros Hl Hj. unfold LayerLocal_save_data, LayerData_save.
  rewrite (bind_run _ _ _ _ _ (LayerData_load_run _ l w Hl)).
  unfold lift. rewrite Hj. reflexivity.
Qed.

Section GimpRuns.
Context `{GimpHost}.

Lemma LayerLocal_to_base64_run (self : LayerLocal) (l : layer) (w : world) :
  w_layers w !! ll_layer self = Some l ->
  LayerLocal_to_base64 self w = (Ok (file_save_layer l), w).
Proof.
  intros Hl. unfold LayerLocal_to_base64.
  rewrite (bind_run _ _ _ _ _ (the_layer_run _ l w Hl)). reflexivity.
Qed.

Lemma LayerLocal_mask_to_base64_run (self : LayerLocal) (l : layer) (m : pixels)
    (w : world) :
  w_layers w !! ll_layer self = Some l ->
  l_mask l = Some m ->
  LayerLocal_mask_to_base64 self w = (Ok (file_save_mask m), w).
Proof.
  intros Hl Hm. unfold LayerLocal_mask_to_base64.
  rewrite (bind_run _ _ _ _ _ (the_layer_run _ l w Hl)). rewrite Hm. reflexivity.
Qed.

Lemma LayerLocal_from_base64_run (base64_data : string) (w : world) :
  png_load base64_data = Loaded ->
  LayerLocal_from_base64 base64_data w
  = (Ok {| ll_id := w_layer_count w; ll_layer := fresh (dom (w_layers w)) |},
     set_layer_count (w_layer_count w + 1)
       (set_layers
          (insert (fresh (dom (w_layers w)))
             {| l_name := "generated.png";
                l_width := png_width base64_data;
                l_height := png_height base64_data;
                l_pixels := Png base64_data;
                l_mask := None; l_parasite := None; l_attached := false |})
          w)).
Proof.
  intros Hload. unfold LayerLocal_from_base64. rewrite Hload.
  rewrite (bind_run _ _ _ _ _ (new_layer_run _ w)).
  eapply (LayerLocal_init_run (fresh (dom (w_layers w))) _
            (set_layers (insert (fresh (dom (w_layers w))) _) w)).
  cbn [w_layers set_layers]. apply lookup_insert_eq.
Qed.

End GimpRuns.

(** ** get_control_net_params *)

Section ControlUnit.
Context `{GimpHost}.

(** The extractor up to the point where the duplicate has been encoded:
    the duplicate is in the document, scaled; what is left to run is
    the two updates of [data] and the removal. *)
Lemma get_control_net_params_steps (cn : nat) (l : layer) (w : world) (data : pyval) :
  w_layers w !! cn = Some l ->
  loaded_document (PDict CONTROLNET_DEFAULT_SETTINGS) l = data ->
  is_ok (py_copy data) = true ->
  exists (width height : Z) (duplicate : LayerLocal) (w4 : world),
    round_to_multiple (py_float (l_width l)) 64 = Ok width /\
    round_to_multiple (py_float (l_height l)) 64 = Ok height /\
    ll_layer duplicate = fresh (dom (w_layers w)) /\
    w_layers w4 = <[ll_layer duplicate := layer64_of l width height]> (w_layers w) /\
    get_control_net_params (Some cn) w
    = (data <- lift (py_update data "input_image"
                       (PStr (file_save_layer (layer64_of l width height)))) ;;
       data <- match l_mask l with
               | Some _ =>
                   mask <- LayerLocal_mask_to_base64 duplicate ;;
                   lift (py_update data "mask" (PStr mask))
               | None => ret data
               end ;;
       LayerLocal_remove duplicate ;;
       ret data) w4.
Proof.
  intros Hl Hd Hcopy. unfold get_control_net_params.
  rewrite (bind_run _ _ _ _ _ (LayerLocal_init_run cn l w Hl)).
  set (source := {| ll_id := w_layer_count w; ll_layer := cn |}).
  set (w1 := set_layer_count _ w).
  assert (Hl1 : w_layers w1 !! ll_layer source = Some l) by exact Hl.
  erewrite bind_run.
  2:{ rewrite (LayerLocal_load_data_run source _ l w1 Hl1), Hd.
      destruct data; try discriminate Hcopy; reflexivity. }
  rewrite (bind_run _ _ _ _ _ (LayerLocal_copy_run source l w1 Hl1)).
  change (w_layers w1) with (w_layers w).
  set (h := fresh (dom (w_layers w))).
  set (dup := {| ll_id := w_layer_count w1; ll_layer := h |}).
  set (w2 := set_layer_count _ (set_layers _ w1)).
  assert (Hh2 : w_layers w2 !! ll_layer dup = Some (layer_copy l))
    by apply lookup_insert_eq.
  unfold LayerLocal_insert.
  rewrite (bind_run _ _ _ _ _ (LayerLocal_attach_run dup true _ w2 Hh2)).
  set (w3 := set_layers _ w2).
  assert (Hh3 : w_layers w3 !! ll_layer dup = Some (with_attached true (layer_copy l))).
  { subst w3. cbn [w_layers set_layers]. rewrite lookup_alter_eq, Hh2. reflexivity. }
  destruct (resize_to_multiple_of_run dup 64 _ w3 ltac:(lia) Hh3)
    as (width & height & Hwidth & Hheight & Hrun).
  rewrite (bind_run _ _ _ _ _ Hrun).
  set (w4 := set_layers _ w3).
  assert (Hw4 : w_layers w4 = <[h := layer64_of l width height]> (w_layers w)).
  { subst w4 w3 w2. cbn [w_layers set_layers set_layer_count ll_layer dup].
    rewrite !alter_insert_eq. reflexivity. }
  assert (Hh4 : w_layers w4 !! ll_layer dup = Some (layer64_of l width height)).
  { rewrite Hw4. apply lookup_insert_eq. }
  rewrite (bind_run _ _ _ _ _ (LayerLocal_to_base64_run dup _ w4 Hh4)).
  assert (Hne : h <> cn).
  { intros E. pose proof (fresh_layer_unused w) as Hf. fold h in Hf.
    rewrite E in Hf. congruence. }
  assert (Hl4 : w_layers w4 !! cn = Some l).
  { rewrite Hw4, lookup_insert_ne by exact Hne. exact Hl. }
  exists width, height, dup, w4.
  cbn [l_width l_height with_attached layer_copy with_name] in Hwidth, Hheight.
  split; [exact Hwidth|]. split; [exact Hheight|]. split; [reflexivity|].
  split; [exact Hw4|].
  destruct (py_update data "input_image"
              (PStr (file_save_layer (layer64_of l width height))))
    as [data0|e].
  - do 2 rewrite (bind_run _ _ _ _ _ (eq_refl : lift (Ok data0) w4 = (Ok data0, w4))).
    rewrite (bind_run _ _ _ _ _ (the_layer_run cn l w4 Hl4)). reflexivity.
  - do 2 rewrite (bind_raise _ _ _ _ _ (eq_refl : lift (Raise e) w4 = (Raise e, w4))).
    reflexivity.
Qed.

Lemma get_control_net_params_run (cn : nat) (l : layer) (w : world)
    (items : list (pykey * pyval)) :
  w_layers w !! cn = Some l ->
  loaded_document (PDict CONTROLNET_DEFAULT_SETTINGS) l = PDict items ->
  exists (width height : Z) (data : list (pykey * pyval)) (w' : world),
    round_to_multiple (py_float (l_width l)) 64 = Ok width /\
    round_to_multiple (py_float (l_height l)) 64 = Ok height /\
    get_control_net_params (Some cn) w = (Ok (PDict data), w') /\
    w_layers w'
    = <[fresh (dom (w_layers w)) := with_attached false (layer64_of l width height)]>
        (w_layers w) /\
    dict_get (KStr "input_image") data
    = Some (PStr (file_save_layer (layer64_of l width height))) /\
    (forall m, l_mask l = Some m ->
               dict_get (KStr "mask") data
               = Some (PStr (file_save_mask (Scaled m width height)))).
Proof.
  intros Hl Hd.
  destruct (get_control_net_params_steps cn l w (PDict items) Hl Hd eq_refl)
    as (width & height & dup & w4 & Hwidth & Hheight & Hdup & Hw4 & ->).
  assert (Hh4 : w_layers w4 !! ll_layer dup = Some (layer64_of l width height)).
  { rewrite Hw4. apply lookup_insert_eq. }
  assert (Hlayers :
            w_layers (set_layers (alter (with_attached false) (ll_layer dup)) w4)
            = <[fresh (dom (w_layers w))
                := with_attached false (layer64_of l width height)]> (w_layers w)).
  { cbn [w_layers set_layers]. rewrite Hw4, alter_insert_eq, Hdup. reflexivity. }
  exists width, height. cbn [py_update]. unfold lift at 1. unfold bind at 1.
  destruct (l_mask l) as [m|] eqn:Hm.
  - assert (Hm4 : l_mask (layer64_of l width height) = Some (Scaled m width height)).
    { cbn. rewrite Hm. reflexivity. }
    rewrite (bind_run _ _ _ _ _
               (bind_run _ _ _ _ _
                  (LayerLocal_mask_to_base64_run dup _ _ w4 Hh4 Hm4))).
    unfold LayerLocal_remove.
    rewrite (bind_run _ _ _ _ _ (LayerLocal_attach_run dup false _ w4 Hh4)).
    eexists _, _. split; [exact Hwidth|]. split; [exact Hheight|].
    split; [reflexivity|]. split; [exact Hlayers|].
    unfold dict_update. cbn [fold_left fst snd]. split.
    + rewrite dict_get_setitem_str_ne by discriminate. apply dict_get_setitem.
    + intros m' [= <-]. apply dict_get_setitem.
  - unfold ret at 1. unfold bind at 1. unfold LayerLocal_remove.
    rewrite (bind_run _ _ _ _ _ (LayerLocal_attach_run dup false _ w4 Hh4)).
    eexists _, _. split; [exact Hwidth|]. split; [exact Hheight|].
    split; [reflexivity|]. split; [exact Hlayers|].
    unfold dict_update. cbn [fold_left fst snd]. split.
    + apply dict_get_setitem.
    + discriminate.
Qed.


End ControlUnit.

Section ControlUnitFrame.
Context `{GimpHost}.




End ControlUnitFrame.



(** ** ResponseLayers *)

Lemma allocated_nil (w w' : world) :
  w_layers w' = w_layers w -> allocated w w' [] [].
Proof.
  intros E. split; [constructor|]. split; [constructor|]. split; [constructor|].
  intros h _. rewrite E. reflexivity.
Qed.

Lemma allocated_one (w w' : world) (l : layer) :
  w_layers w' = <[fresh (dom (w_layers w)) := l]> (w_layers w) ->
  allocated w w' [fresh (dom (w_layers w))] [l].
Proof.
  intros E. split; [|split; [|split]].
  - constructor; [|constructor]. rewrite E. apply lookup_insert_eq.
  - constructor; [|constructor]. apply fresh_layer_unused.
  - apply NoDup_singleton.
  - intros h Hh. rewrite E. apply lookup_insert_ne. set_solver.
Qed.

Lemma allocated_held (w w' : world) (hs : list nat) (ls : list layer) (h : nat) :
  allocated w w' hs ls -> h ∈ hs -> is_Some (w_layers w' !! h).
Proof.
  intros [Hf _] Hh. induction Hf as [|h' l hs ls Hl _ IH]; [set_solver|].
  apply elem_of_cons in Hh as [-> | Hh]; [eauto|apply IH, Hh].
Qed.

Lemma allocated_app (w w1 w2 : world) (hs1 hs2 : list nat) (ls1 ls2 : list layer) :
  allocated w w1 hs1 ls1 -> allocated w1 w2 hs2 ls2 ->
  allocated w w2 (hs1 ++ hs2) (ls1 ++ ls2).
Proof.
  intros A1 A2.
  assert (Hdis : forall h, h ∈ hs1 -> h ∈ hs2 -> False).
  { intros h H1 H2. destruct (allocated_held _ _ _ _ h A1 H1) as [l Hl].
    destruct A2 as (_ & Hfresh & _). rewrite Forall_forall in Hfresh.
    rewrite (Hfresh h H2) in Hl. discriminate Hl. }
  destruct A1 as (F1 & N1 & D1 & K1). destruct A2 as (F2 & N2 & D2 & K2).
  split; [|split; [|split]].
  - apply Forall2_app; [|exact F2].
    assert (Hout : Forall (fun h => h ∉ hs2) hs1).
    { apply Forall_forall. intros h H1 H2. exact (Hdis h H1 H2). }
    clear - F1 K2 Hout.
    induction F1 as [|h l hs ls Hl _ IH]; [constructor|].
    inversion Hout as [|? ? Hh Hout']; subst.
    constructor; [rewrite K2; assumption|apply IH, Hout'].
  - apply Forall_app. split; [exact N1|].
    rewrite Forall_forall in N2 |- *. intros h Hh.
    rewrite <- K1; [apply N2, Hh|]. intros H1. apply (Hdis h H1 Hh).
  - apply NoDup_app. split; [exact D1|]. split; [|exact D2].
    intros h H1 H2. apply (Hdis h H1 H2).
  - intros h Hh. rewrite not_elem_of_app in Hh. destruct Hh as [H1 H2].
    rewrite K2, K1 by assumption. reflexivity.
Qed.

(** The document of a generated layer is written and read back as it
    is: its two keys are strings, in order. *)
Lemma tagged_document (info : string) (seed : Z) :
  json_value (PDict (dict_of_pairs [(KStr "info", PStr info); (KStr "seed", PInt seed)]))
  = Ok (PDict (dict_of_pairs [(KStr "info", PStr info); (KStr "seed", PInt seed)])).
Proof. reflexivity. Qed.

Section ResponseLayersRuns.
Context `{GimpHost}.

Lemma response_layer_generated (r : generation_response)
    (options : gmap string pyval) (index : nat) (image : string) (seed : Z)
    (info : string) (w : world) :
  all_seeds r !! index = Some seed ->
  infotexts r !! index = Some info ->
  loads image ->
  exists w' : world,
    response_layer r options index image w = (Ok (fresh (dom (w_layers w))), w') /\
    w_layers w'
    = <[fresh (dom (w_layers w)) := generated_layer image seed info]> (w_layers w).
Proof.
  intros Hseed Hinfo Hload. unfold response_layer.
  replace (index <? length (all_seeds r))%nat with true
    by (symmetry; apply Nat.ltb_lt; eapply lookup_lt_Some; exact Hseed).
  rewrite (py_getitem_lookup _ (Z.of_nat index) info),
    (py_getitem_lookup _ (Z.of_nat index) seed)
    by (try lia; rewrite Nat2Z.id; assumption).
  unfold lift at 1 2. unfold bind at 2 3. unfold bind at 1.
  rewrite (bind_run _ _ _ _ _ (LayerLocal_from_base64_run image w Hload)).
  set (h := fresh (dom (w_layers w))).
  set (fresh_layer := {| ll_id := w_layer_count w; ll_layer := h |}).
  set (w1 := set_layer_count _ _).
  eassert (H1 : w_layers w1 !! ll_layer fresh_layer = Some _)
    by apply lookup_insert_eq.
  rewrite (bind_run _ _ _ _ _ (LayerLocal_rename_run fresh_layer _ _ w1 H1)).
  set (w2 := set_layers _ w1).
  eassert (H2 : w_layers w2 !! ll_layer fresh_layer = Some _).
  { subst w2. cbn [w_layers set_layers]. rewrite lookup_alter_eq, H1. reflexivity. }
  rewrite (bind_run _ _ _ _ _
             (LayerLocal_save_data_run fresh_layer _ _ _ w2 H2 (tagged_document info seed))).
  set (w3 := set_layers _ w2).
  eassert (H3 : w_layers w3 !! ll_layer fresh_layer = Some _).
  { subst w3. cbn [w_layers set_layers]. rewrite lookup_alter_eq, H2. reflexivity. }
  unfold LayerLocal_insert_to.
  rewrite (bind_run _ _ _ _ _ (LayerLocal_attach_run fresh_layer true _ w3 H3)).
  eexists. split; [reflexivity|].
  subst w3 w2 w1. cbn [w_layers set_layers set_layer_count ll_layer fresh_layer].
  rewrite !alter_insert_eq. reflexivity.
Qed.

Lemma response_layer_annotator (r : generation_response)
    (options : gmap string pyval) (index : nat) (image : string) (w : world) :
  (length (all_seeds r) <= index)%nat ->
  annotator_layers_wanted options = true ->
  loads image ->
  exists w' : world,
    response_layer r options index image w = (Ok (fresh (dom (w_layers w))), w') /\
    w_layers w' = <[fresh (dom (w_layers w)) := annotator_layer image]> (w_layers w).
Proof.
  intros Hindex Hwanted Hload. unfold response_layer.
  replace (index <? length (all_seeds r))%nat with false
    by (symmetry; apply Nat.ltb_ge; exact Hindex).
  rewrite Hwanted. unfold bind at 1.
  rewrite (bind_run _ _ _ _ _ (LayerLocal_from_base64_run image w Hload)).
  set (h := fresh (dom (w_layers w))).
  set (fresh_layer := {| ll_id := w_layer_count w; ll_layer := h |}).
  set (w1 := set_layer_count _ _).
  eassert (H1 : w_layers w1 !! ll_layer fresh_layer = Some _)
    by apply lookup_insert_eq.
  rewrite (bind_run _ _ _ _ _ (LayerLocal_rename_run fresh_layer _ _ w1 H1)).
  set (w2 := set_layers _ w1).
  eassert (H2 : w_layers w2 !! ll_layer fresh_layer = Some _).
  { subst w2. cbn [w_layers set_layers]. rewrite lookup_alter_eq, H1. reflexivity. }
  unfold LayerLocal_insert_to.
  rewrite (bind_run _ _ _ _ _ (LayerLocal_attach_run fresh_layer true _ w2 H2)).
  eexists. split; [reflexivity|].
  subst w2 w1. cbn [w_layers set_layers set_layer_count ll_layer fresh_layer].
  rewrite !alter_insert_eq. reflexivity.
Qed.

Lemma response_layer_skipped (r : generation_response)
    (options : gmap string pyval) (index : nat) (image : string) (w : world) :
  (length (all_seeds r) <= index)%nat ->
  annotator_layers_wanted options = false ->
  response_layer r options index image w = (Raise AttributeError, w).
Proof.
  intros Hindex Hwanted. unfold response_layer.
  replace (index <? length (all_seeds r))%nat with false
    by (symmetry; apply Nat.ltb_ge; exact Hindex).
  rewrite Hwanted. reflexivity.
Qed.

(** An image that does not load stops the body of the loop with an
    exception, and no layer object is made. *)
Lemma LayerLocal_from_base64_raise (base64_data : string) (w : world) :
  ~ loads base64_data ->
  exists (e : exn) (w' : world),
    LayerLocal_from_base64 base64_data w = (Raise e, w') /\
    w_layers w' = w_layers w.
Proof.
  unfold loads, LayerLocal_from_base64. intros Hload.
  destruct (png_load base64_data) as [| |e]; [contradiction| |];
    eexists _, _; (split; [reflexivity|reflexivity]).
Qed.

Lemma response_layer_not_loaded (r : generation_response)
    (options : gmap string pyval) (index : nat) (image : string) (w : world) :
  (index < length (all_seeds r))%nat \/ annotator_layers_wanted options = true ->
  ~ loads image ->
  exists (e : exn) (w' : world),
    response_layer r options index image w = (Raise e, w') /\
    w_layers w' = w_layers w.
Proof.
  intros Hcase Hload. unfold response_layer.
  destruct (LayerLocal_from_base64_raise image w Hload) as (e & w' & Hrun & Hw').
  destruct (Nat.ltb_spec index (length (all_seeds r))) as [Hlt|Hge].
  - destruct (py_getitem (infotexts r) (Z.of_nat index)) as [info|e1];
      [|exists e1, w; split; reflexivity].
    destruct (py_getitem (all_seeds r) (Z.of_nat index)) as [seed|e2];
      [|exists e2, w; split; reflexivity].
    unfold lift at 1 2. unfold bind at 2 3. unfold bind at 1.
    exists e, w'. rewrite (bind_raise _ _ _ _ _ Hrun). split; [reflexivity|exact Hw'].
  - destruct Hcase as [Hlt|Hwanted]; [lia|]. rewrite Hwanted. unfold bind at 1.
    exists e, w'. rewrite (bind_raise _ _ _ _ _ Hrun). split; [reflexivity|exact Hw'].
Qed.

End ResponseLayersRuns.

Lemma for_each_app {A B : Type} (body : nat -> A -> M B) (xs ys : list A)
    (index : nat) (acc : list B) (w : world) :
  for_each body index (xs ++ ys) acc w
  = match for_each body index xs acc w with
    | ((acc', None), w') => for_each body (index + length xs) ys acc' w'
    | stopped => stopped
    end.
Proof.
  revert index acc w. induction xs as [|x xs IH]; intros index acc w.
  - cbn. rewrite Nat.add_0_r. reflexivity.
  - cbn [app for_each length]. destruct (body index x w) as [[b|e] w1]; [|reflexivity].
    rewrite IH. replace (index + S (length xs))%nat with (S index + length xs)%nat by lia.
    reflexivity.
Qed.

Lemma drop_cons_inv {A : Type} (l rest : list A) (n : nat) (x : A) :
  drop n l = x :: rest -> l !! n = Some x /\ drop (S n) l = rest.
Proof.
  intros E. assert (Hx : l !! n = Some x).
  { rewrite <- (Nat.add_0_r n), <- lookup_drop, E. reflexivity. }
  split; [exact Hx|]. rewrite (drop_S l x n Hx) in E. congruence.
Qed.

Section ResponseLayersLoop.
Context `{GimpHost}.
Variable r : generation_response.
Variable options : gmap string pyval.

Lemma for_each_generated (xs : list string) (seeds : list Z) (infos : list string)
    (index : nat) (acc : list nat) (w : world) :
  drop index (all_seeds r) = seeds ->
  drop index (infotexts r) = infos ->
  (length xs <= length seeds)%nat ->
  length seeds = length infos ->
  Forall loads xs ->
  exists (hs : list nat) (w' : world),
    for_each (response_layer r options) index xs acc w = ((acc ++ hs, None), w') /\
    allocated w w' hs
      (zip_with (fun image si => generated_layer image (fst si) (snd si))
         xs (zip seeds infos)).
Proof.
  revert seeds infos index acc w.
  induction xs as [|image xs IH]; intros seeds infos index acc w Hs Hi Hlen Heq Hload.
  - exists [], w. split; [cbn; rewrite app_nil_r; reflexivity|].
    apply allocated_nil. reflexivity.
  - destruct seeds as [|seed seeds]; [cbn in Hlen; lia|].
    destruct infos as [|info infos]; [discriminate Heq|].
    apply drop_cons_inv in Hs as [Hseed Hs]. apply drop_cons_inv in Hi as [Hinfo Hi].
    apply Forall_cons in Hload as [Hload1 Hload].
    destruct (response_layer_generated r options index image seed info w Hseed Hinfo
                Hload1) as (w1 & Hrun & Hw1).
    destruct (IH seeds infos (S index) (acc ++ [fresh (dom (w_layers w))]) w1 Hs Hi)
      as (hs & w' & Hloop & Halloc); [cbn in Hlen; lia|cbn in Heq; lia|exact Hload|].
    exists (fresh (dom (w_layers w)) :: hs), w'. split.
    + cbn [for_each]. rewrite Hrun, Hloop, <- app_assoc. reflexivity.
    + cbn [zip zip_with fst snd].
      apply (allocated_app w w1 w' [_] hs [_]); [|exact Halloc].
      apply allocated_one. exact Hw1.
Qed.

Lemma for_each_annotators (xs : list string) (index : nat) (acc : list nat)
    (w : world) :
  (length (all_seeds r) <= index)%nat ->
  annotator_layers_wanted options = true ->
  Forall loads xs ->
  exists (hs : list nat) (w' : world),
    for_each (response_layer r options) index xs acc w = ((acc ++ hs, None), w') /\
    allocated w w' hs (map annotator_layer xs).
Proof.
  intros Hindex Hwanted Hload. revert index acc w Hindex.
  induction Hload as [|image xs Hload1 _ IH]; intros index acc w Hindex.
  - exists [], w. split; [cbn; rewrite app_nil_r; reflexivity|].
    apply allocated_nil. reflexivity.
  - destruct (response_layer_annotator r options index image w Hindex Hwanted Hload1)
      as (w1 & Hrun & Hw1).
    destruct (IH (S index) (acc ++ [fresh (dom (w_layers w))]) w1)
      as (hs & w' & Hloop & Halloc); [lia|].
    exists (fresh (dom (w_layers w)) :: hs), w'. split.
    + cbn [for_each]. rewrite Hrun, Hloop, <- app_assoc. reflexivity.
    + cbn [map]. apply (allocated_app w w1 w' [_] hs [_]); [|exact Halloc].
      apply allocated_one. exact Hw1.
Qed.

Lemma for_each_skipped (xs : list string) (index : nat) (acc : list nat)
    (w : world) :
  (length (all_seeds r) <= index)%nat ->
  annotator_layers_wanted options = false ->
  for_each (response_layer r options) index xs acc w
  = ((acc, match xs with [] => None | _ => Some AttributeError end), w).
Proof.
  intros Hindex Hwanted. destruct xs as [|image xs]; [reflexivity|].
  cbn [for_each]. rewrite (response_layer_skipped r options index image w Hindex Hwanted).
  reflexivity.
Qed.

End ResponseLayersLoop.

Section ResponseLayersClaim.
Context `{GimpHost}.

Lemma provenance_layers_length (r : generation_response) :
  length (infotexts r) = length (all_seeds r) ->
  (length (all_seeds r) <= length (images r))%nat ->
  length (provenance_layers r) = length (all_seeds r).
Proof.
  intros Hinfo Hlen. unfold provenance_layers.
  rewrite length_zip_with, length_take, length_zip. lia.
Qed.

Lemma annotator_layers_length (r : generation_response) :
  length (annotator_layers r) = (length (images r) - length (all_seeds r))%nat.
Proof. unfold annotator_layers. rewrite length_map, length_drop. reflexivity. Qed.

Lemma take_zip_with_l {A B C : Type} (f : A -> B -> C) (n : nat) (l : list A)
    (k : list B) :
  take n (zip_with f l k) = zip_with f (take n l) k.
Proof.
  revert l k. induction n as [|n IH]; intros [|x l] [|y k]; cbn; try reflexivity.
  f_equal. apply IH.
Qed.

Lemma allocated_same_layers (w w1 w2 : world) (hs : list nat) (ls : list layer) :
  allocated w w1 hs ls -> w_layers w2 = w_layers w1 -> allocated w w2 hs ls.
Proof. unfold allocated. intros A E. rewrite E. exact A. Qed.

(** The loop ends at the image of a seed that does not load: the layers
    of the seeds before it are the layers made. *)
Lemma ResponseLayers_init_stops (r : generation_response)
    (options : option (gmap string pyval)) (w : world)
    (before : list string) (image : string) (after : list string) :
  length (infotexts r) = length (all_seeds r) ->
  images r = before ++ image :: after ->
  Forall loads before ->
  ~ loads image ->
  (length before < length (all_seeds r))%nat ->
  exists (generated : list nat) (w' : world),
    ResponseLayers_init (Some r) options w = (Ok generated, w') /\
    length generated = length before /\
    allocated w w' generated (take (length before) (provenance_layers r)).
Proof.
  intros Hinfo Himages Hbefore Himage Hlt. unfold ResponseLayers_init.
  set (o := match options with Some o => o | None => ∅ end).
  rewrite Himages, for_each_app.
  destruct (for_each_generated r o before (all_seeds r) (infotexts r) 0 [] w
              eq_refl eq_refl)
    as (generated & w1 & -> & Hgen); [lia|congruence|exact Hbefore|].
  cbn [app Nat.add for_each].
  destruct (response_layer_not_loaded r o (length before) image w1 (or_introl Hlt)
              Himage) as (e & w2 & -> & Hw2).
  eexists generated, _. split; [reflexivity|].
  assert (Hlayers :
            take (length before) (provenance_layers r)
            = zip_with (fun image si => generated_layer image (fst si) (snd si))
                before (zip (all_seeds r) (infotexts r))).
  { unfold provenance_layers. rewrite take_zip_with_l, take_take, Himages.
    rewrite Nat.min_l by lia. rewrite take_app_length. reflexivity. }
  rewrite Hlayers. split.
  - destruct Hgen as [F _]. apply Forall2_length in F. rewrite F.
    rewrite length_zip_with, length_zip. lia.
  - apply (allocated_same_layers w w1); [exact Hgen|]. cbn. exact Hw2.
Qed.

(** The loop ends at an annotator image that does not load: the layers
    of the seeds and of the annotator images before it are the layers
    made. *)
Lemma ResponseLayers_init_stops_at_annotator (r : generation_response)
    (options : option (gmap string pyval)) (w : world)
    (before : list string) (image : string) (after : list string) :
  length (infotexts r) = length (all_seeds r) ->
  images r = before ++ image :: after ->
  Forall loads before ->
  ~ loads image ->
  (length (all_seeds r) <= length before)%nat ->
  insert_requested options = true ->
  exists (generated annotators : list nat) (w' : world),
    ResponseLayers_init (Some r) options w = (Ok (generated ++ annotators), w') /\
    length generated = length (all_seeds r) /\
    length annotators = (length before - length (all_seeds r))%nat /\
    allocated w w' (generated ++ annotators)
      (provenance_layers r
       ++ take (length before - length (all_seeds r)) (annotator_layers r)).
Proof.
  intros Hinfo Himages Hbefore Himage Hge Hinsert. unfold ResponseLayers_init.
  set (o := match options with Some o => o | None => ∅ end).
  assert (Hwanted : annotator_layers_wanted o = true).
  { rewrite <- Hinsert. unfold annotator_layers_wanted, insert_requested, o.
    destruct options as [o'|]; [reflexivity|]. rewrite lookup_empty. reflexivity. }
  set (K := length (all_seeds r)) in *.
  assert (Htake : take K (images r) = take K before).
  { rewrite Himages, take_app_le by exact Hge. reflexivity. }
  assert (Hdrop : take (length before - K) (drop K (images r)) = drop K before).
  { rewrite Himages, drop_app_le by exact Hge.
    rewrite take_app_le by (rewrite length_drop; lia).
    apply take_ge. rewrite length_drop. lia. }
  rewrite Himages.
  replace (before ++ image :: after)
    with (take K before ++ (drop K before ++ image :: after))
    by (rewrite app_assoc, take_drop; reflexivity).
  rewrite for_each_app.
  destruct (for_each_generated r o (take K before) (all_seeds r) (infotexts r) 0 [] w
              eq_refl eq_refl)
    as (generated & w1 & -> & Hgen);
    [rewrite length_take; lia|symmetry; exact Hinfo|apply Forall_take, Hbefore|].
  assert (Hglen : length generated = K).
  { destruct Hgen as [F _]. apply Forall2_length in F. rewrite F.
    rewrite length_zip_with, length_take, length_zip. lia. }
  cbn [app]. rewrite length_take, Nat.min_l by exact Hge. cbn [Nat.add].
  rewrite for_each_app.
  destruct (for_each_annotators r o (drop K before) K generated w1 (le_n _) Hwanted)
    as (annotators & w2 & -> & Hann); [apply Forall_drop, Hbefore|].
  cbn [for_each].
  destruct (response_layer_not_loaded r o (K + length (drop K before)) image w2
              (or_intror Hwanted) Himage) as (e & w3 & -> & Hw3).
  eexists generated, annotators, _. split; [reflexivity|]. split; [exact Hglen|].
  split.
  - destruct Hann as [F _]. apply Forall2_length in F. rewrite F.
    rewrite length_map, length_drop. reflexivity.
  - apply (allocated_same_layers w w2); [|cbn; exact Hw3].
    apply (allocated_app w w1 w2).
    + unfold provenance_layers. fold K. rewrite Htake. exact Hgen.
    + unfold annotator_layers. fold K. rewrite firstn_map, Hdrop. exact Hann.
Qed.

(** C1, amended. A response with [N] images and [K <= N] seeds, with as
    many info texts, makes [K] new layers in the document, each named
    after its seed and tagged with its seed and info text, when the
    images that are to become layers load. The [N - K] images left are
    annotator images: each becomes a new untagged layer of the document
    when the options hold [skip_annotator_layers] with a false value;
    none is inserted when the flag is set, and none when the options do
    not hold the flag. No other layer is touched. An image that does not
    load ends the materialization, which does not raise: the layers made
    are those of the images before it, the layers of the seeds before it
    when it is the image of a seed, and the layers of all the seeds and
    of the annotator images before it when it is an annotator image that
    was to be inserted. *)
Theorem response_layers_materialized (r : generation_response)
    (options : option (gmap string pyval)) (w : world) :
  length (infotexts r) = length (all_seeds r) ->
  (length (all_seeds r) <= length (images r))%nat ->
  (Forall loads (if insert_requested options then images r
                 else take (length (all_seeds r)) (images r)) ->
   exists (generated annotators : list nat) (w' : world),
     ResponseLayers_init (Some r) options w = (Ok (generated ++ annotators), w') /\
     length generated = length (all_seeds r) /\
     length annotators
     = (if insert_requested options
        then length (images r) - length (all_seeds r) else 0)%nat /\
     allocated w w' (generated ++ annotators)
       (provenance_layers r
        ++ if insert_requested options then annotator_layers r else [])) /\
  (forall (before : list string) (image : string) (after : list string),
      images r = before ++ image :: after ->
      Forall loads before ->
      ~ loads image ->
      (length before < length (all_seeds r))%nat ->
      exists (generated : list nat) (w' : world),
        ResponseLayers_init (Some r) options w = (Ok generated, w') /\
        length generated = length before /\
        allocated w w' generated (take (length before) (provenance_layers r))) /\
  (forall (before : list string) (image : string) (after : list string),
      images r = before ++ image :: after ->
      Forall loads before ->
      ~ loads image ->
      (length (all_seeds r) <= length before)%nat ->
      insert_requested options = true ->
      exists (generated annotators : list nat) (w' : world),
        ResponseLayers_init (Some r) options w = (Ok (generated ++ annotators), w') /\
        length generated = length (all_seeds r) /\
        length annotators = (length before - length (all_seeds r))%nat /\
        allocated w w' (generated ++ annotators)
          (provenance_layers r
           ++ take (length before - length (all_seeds r)) (annotator_layers r))).
Proof.
  intros Hinfo Hlen.
  split; [|split;
    [intros before image after Himages Hbefore Himage Hlt;
     exact (ResponseLayers_init_stops r options w before image after Hinfo Himages
              Hbefore Himage Hlt)
    |intros before image after Himages Hbefore Himage Hge Hinsert;
     exact (ResponseLayers_init_stops_at_annotator r options w before image after
              Hinfo Himages Hbefore Himage Hge Hinsert)]].
  unfold ResponseLayers_init.
  set (o := match options with Some o => o | None => ∅ end).
  assert (Hwanted : annotator_layers_wanted o = insert_requested options).
  { unfold annotator_layers_wanted, insert_requested, o.
    destruct options as [o'|]; [reflexivity|]. rewrite lookup_empty. reflexivity. }
  intros Hload.
  - assert (Hload1 : Forall loads (take (length (all_seeds r)) (images r))).
    { destruct (insert_requested options); [apply Forall_take|]; exact Hload. }
    replace (for_each (response_layer r o) 0 (images r) [] w)
      with (for_each (response_layer r o) 0
              (take (length (all_seeds r)) (images r)
               ++ drop (length (all_seeds r)) (images r)) [] w)
      by (rewrite take_drop; reflexivity).
    rewrite for_each_app.
    destruct (for_each_generated r o (take (length (all_seeds r)) (images r))
                (all_seeds r) (infotexts r) 0 [] w eq_refl eq_refl)
      as (generated & w1 & -> & Hgen);
      [rewrite length_take; lia|congruence|exact Hload1|].
    assert (Hglen : length generated = length (all_seeds r)).
    { destruct Hgen as [F _]. apply Forall2_length in F. rewrite F.
      apply provenance_layers_length; assumption. }
    cbn [app]. rewrite length_take, Nat.min_l by exact Hlen. cbn [Nat.add].
    rewrite <- Hwanted in Hload |- *. destruct (annotator_layers_wanted o) eqn:Ew.
    + destruct (for_each_annotators r o (drop (length (all_seeds r)) (images r))
                  (length (all_seeds r)) generated w1 (le_n _) Ew)
        as (annotators & w' & -> & Hann); [apply Forall_drop, Hload|].
      exists generated, annotators, w'. split; [reflexivity|]. split; [exact Hglen|].
      split.
      * destruct Hann as [F _]. apply Forall2_length in F. rewrite F.
        apply annotator_layers_length.
      * apply (allocated_app w w1 w'); assumption.
    + rewrite (for_each_skipped r o _ _ generated w1 (le_n _) Ew).
      exists generated, []. rewrite !app_nil_r.
      destruct (drop (length (all_seeds r)) (images r)); eexists;
        (split; [reflexivity|]); (split; [exact Hglen|]); (split; [reflexivity|]);
        exact Hgen.
Qed.

End ResponseLayersClaim.

(** C1, as stated, fails. An image that is not base64 gives no layer
    for its seed: nothing is made, and nothing is raised. And with
    options that hold no [skip_annotator_layers] the caller has not set
    the flag, and the annotator image is skipped all the same: the
    generated layer is the only one made. *)
Lemma response_layers_counterexample :
  (length (all_seeds sample_response_not_base64) = 1%nat /\
   exists w' : world,
     @ResponseLayers_init sample_host (Some sample_response_not_base64)
       (Some {[ "skip_annotator_layers" := PBool false ]}) sample_world
     = (Ok [], w') /\
     w_layers w' = w_layers sample_world) /\
  @skip_requested None = false /\
  (length (images sample_response) - length (all_seeds sample_response) = 1)%nat /\
  exists w' : world,
    @ResponseLayers_init sample_host (Some sample_response) None sample_world
    = (Ok [0%nat], w') /\
    w_layers w'
    = {[ 0%nat := @generated_layer sample_host "QUFB" 42 "a cat, Steps: 20, Seed: 42" ]}.
Proof.
  split.
  { split; [reflexivity|]. eexists. split; [vm_compute; reflexivity|reflexivity]. }
  split; [reflexivity|]. split; [reflexivity|].
  eexists. split; [vm_compute; reflexivity|]. vm_compute. reflexivity.
Qed.

Lemma response_layers_materialized_witness :
  (exists (generated annotators : list nat) (w' : world),
      @ResponseLayers_init sample_host (Some sample_response)
        (Some {[ "skip_annotator_layers" := PBool false ]}) sample_world
      = (Ok (generated ++ annotators), w') /\
      length generated = length (all_seeds sample_response) /\
      length annotators
      = (if insert_requested (Some {[ "skip_annotator_layers" := PBool false ]})
         then length (images sample_response) - length (all_seeds sample_response)
         else 0)%nat /\
      allocated sample_world w' (generated ++ annotators)
        (@provenance_layers sample_host sample_response
         ++ if insert_requested (Some {[ "skip_annotator_layers" := PBool false ]})
            then @annotator_layers sample_host sample_response else [])) /\
  (exists (generated : list nat) (w' : world),
      @ResponseLayers_init sample_host (Some sample_response_not_base64)
        (Some {[ "skip_annotator_layers" := PBool false ]}) sample_world
      = (Ok generated, w') /\
      length generated = 0%nat /\
      allocated sample_world w' generated
        (take 0 (@provenance_layers sample_host sample_response_not_base64))) /\
  (exists (generated annotators : list nat) (w' : world),
      @ResponseLayers_init sample_host (Some sample_response_annotator_not_base64)
        (Some {[ "skip_annotator_layers" := PBool false ]}) sample_world
      = (Ok (generated ++ annotators), w') /\
      length generated = 1%nat /\
      length annotators = 0%nat /\
      allocated sample_world w' (generated ++ annotators)
        (@provenance_layers sample_host sample_response_annotator_not_base64
         ++ take 0 (@annotator_layers sample_host
                      sample_response_annotator_not_base64))).
Proof.
  split; [|split].
  - apply (@response_layers_materialized sample_host sample_response
             (Some {[ "skip_annotator_layers" := PBool false ]}) sample_world).
    + reflexivity.
    + cbn. lia.
    + repeat constructor.
  - apply (proj1 (proj2 (@response_layers_materialized sample_host
                           sample_response_not_base64
                           (Some {[ "skip_annotator_layers" := PBool false ]})
                           sample_world eq_refl (le_n 1)))
             [] "QUF" []).
    + reflexivity.
    + constructor.
    + discriminate.
    + cbn. lia.
  - apply (proj2 (proj2 (@response_layers_materialized sample_host
                           sample_response_annotator_not_base64
                           (Some {[ "skip_annotator_layers" := PBool false ]})
                           sample_world eq_refl (le_S 1 1 (le_n 1))))
             ["QUFB"] "QUF" []).
    + reflexivity.
    + repeat constructor.
    + discriminate.
    + cbn. lia.
    + reflexivity.
Defined.

(** * Further properties *)

(** ** Rounding, again *)

Lemma py_round_comp (x y : Q) : (x == y)%Q -> py_round x = py_round y.
Proof.
  intros E. unfold py_round.
  rewrite (Qfloor_comp x y E).
  assert (E2 : (x - inject_Z (Qfloor y) == y - inject_Z (Qfloor y))%Q)
    by (rewrite E; reflexivity).
  rewrite (Qcompare_comp _ _ E2 (1 # 2) (1 # 2) (Qeq_refl _)). reflexivity.
Qed.

Lemma Qfloor_between (x : Q) (k : Z) :
  (inject_Z k <= x)%Q -> (x < inject_Z (k + 1))%Q -> Qfloor x = k.
Proof.
  intros Hlo Hhi.
  pose proof (Qfloor_le x) as Flo. pose proof (Qlt_floor x) as Fhi.
  assert (A : (inject_Z (Qfloor x) < inject_Z (k + 1))%Q)
    by (eapply Qle_lt_trans; eassumption).
  assert (B : (inject_Z k < inject_Z (Qfloor x + 1))%Q)
    by (eapply Qle_lt_trans; eassumption).
  rewrite <- Zlt_Qlt in A, B. lia.
Qed.

Lemma py_round_inject_Z (n : Z) : py_round (inject_Z n) = n.
Proof.
  unfold py_round. rewrite Qfloor_Z.
  destruct (Qcompare (inject_Z n - inject_Z n) (1 # 2)) eqn:E.
  - apply Qeq_alt in E. lra.
  - reflexivity.
  - apply Qgt_alt in E. lra.
Qed.

Lemma py_round_tie (k : Z) :
  py_round (inject_Z k + (1 # 2)) = if Z.even k then k else (k + 1)%Z.
Proof.
  unfold py_round.
  assert (F : Qfloor (inject_Z k + (1 # 2)) = k).
  { apply Qfloor_between; [lra|].
    rewrite inject_Z_plus. change (inject_Z 1) with 1%Q. lra. }
  rewrite F.
  destruct (Qcompare (inject_Z k + (1 # 2) - inject_Z k) (1 # 2)) eqn:E.
  - reflexivity.
  - apply Qlt_alt in E. lra.
  - apply Qgt_alt in E. lra.
Qed.

Lemma inject_Z_nonzero (m : Z) : m <> 0%Z -> ~ (inject_Z m == 0)%Q.
Proof. intros Hm E. apply Hm. unfold Qeq, inject_Z in E. cbn in E. lia. Qed.

Lemma Qdiv_mult_inject_Z (m : Z) (x : Q) :
  m <> 0%Z -> (inject_Z m * x / inject_Z m == x)%Q.
Proof. intros Hm. field. apply inject_Z_nonzero, Hm. Qed.

Lemma round_to_multiple_twice (value : Q) (multiple v : Z) :
  round_to_multiple value multiple = Ok v ->
  round_to_multiple (py_float v) multiple = Ok v.
Proof.
  unfold round_to_multiple. destruct (Z.eqb_spec multiple 0) as [|Hm]; [discriminate|].
  intros [= <-]. f_equal. f_equal.
  unfold py_float. rewrite inject_Z_mult.
  rewrite (py_round_comp _ _ (Qdiv_mult_inject_Z multiple _ Hm)).
  apply py_round_inject_Z.
Qed.

(** X1. [round_to_multiple] raises [ZeroDivisionError] for the multiple
    0. For a multiple that is a power of two, from 1 to 2^971, its result
    is a multiple of [multiple], and rounding the result once more gives
    the result: the height that [run_inpainting] rounds to a multiple of
    8 before the call and [inpainting] rounds again is the height rounded
    once. Up to 2^971 the result of the first rounding is a double
    again, whatever double was rounded, so that the second call gets the
    very number; for another multiple the quotient of the doubles need
    not be the exact one and the result can be too large for a float. *)
Theorem round_to_multiple_idempotent (value : Q) (multiple : Z) :
  (multiple = 0%Z -> round_to_multiple value multiple = Raise ZeroDivisionError) /\
  (forall k : Z,
     (0 <= k <= 971)%Z ->
     multiple = (2 ^ k)%Z ->
     exists v : Z,
       round_to_multiple value multiple = Ok v /\
       (multiple | v)%Z /\
       round_to_multiple (py_float v) multiple = Ok v).
Proof.
  split.
  - intros ->. reflexivity.
  - intros k Hk Hpow.
    assert (Hm : multiple <> 0%Z) by (subst multiple; apply Z.pow_nonzero; lia).
    pose proof (round_to_multiple_ok value multiple Hm) as Hv.
    eexists. split; [exact Hv|]. split.
    + exists (py_round (value / inject_Z multiple)). lia.
    + exact (round_to_multiple_twice _ _ _ Hv).
Qed.

Lemma round_to_multiple_idempotent_witness :
  exists v : Z,
    round_to_multiple 500 8 = Ok v /\ (8 | v)%Z /\
    round_to_multiple (py_float v) 8 = Ok v.
Proof.
  apply (proj2 (round_to_multiple_idempotent 500 8) 3%Z); [lia|reflexivity].
Defined.

(** X2. A value halfway between two neighbouring multiples goes to the
    one that is an even number of multiples: Python rounds a tie to the
    even integer, so a width of 500 is sent as 496 and a width of 508 as
    512. *)
Theorem round_to_multiple_tie (multiple k : Z) :
  multiple <> 0%Z ->
  round_to_multiple (inject_Z multiple * (inject_Z k + (1 # 2))) multiple
  = Ok (multiple * (if Z.even k then k else k + 1))%Z.
Proof.
  intros Hm. rewrite (round_to_multiple_ok _ _ Hm). f_equal. f_equal.
  rewrite (py_round_comp _ _ (Qdiv_mult_inject_Z multiple _ Hm)).
  apply py_round_tie.
Qed.

Lemma round_to_multiple_tie_witness :
  round_to_multiple (inject_Z 8 * (inject_Z 62 + (1 # 2))) 8
  = Ok (8 * (if Z.even 62 then 62 else 62 + 1))%Z.
Proof. apply (round_to_multiple_tie 8 62). lia. Defined.

(** ** The batch size, for every object *)

Lemma Qle_bool_false (x y : Q) : Qle_bool x y = false <-> (y < x)%Q.
Proof.
  split.
  - intros E. apply Qnot_le_lt. intros L. apply Qle_bool_iff in L. congruence.
  - intros L. destruct (Qle_bool x y) eqn:E; [|reflexivity].
    apply Qle_bool_iff in E. lra.
Qed.

Lemma clamp_batch_size_number_cases (v : pyval) (x : Q) :
  py_number v = Some x ->
  ((x <= 1)%Q -> clamp_batch_size v = Ok (PInt 1)) /\
  ((1 < x)%Q -> (x < 20)%Q -> clamp_batch_size v = Ok v) /\
  ((20 <= x)%Q -> clamp_batch_size v = Ok (PInt 20)).
Proof.
  intros Hx. unfold clamp_batch_size, py_max, py_min, py_lt, MAX_BATCH_SIZE.
  cbn [py_number]. rewrite Hx. cbn [rbind].
  split; [|split].
  - intros L. apply Qle_bool_iff in L. change (inject_Z 1) with 1%Q. rewrite L.
    cbn. reflexivity.
  - intros L1 L2. apply Qle_bool_false in L1. change (inject_Z 1) with 1%Q.
    rewrite L1. cbn [negb rbind]. rewrite Hx.
    apply Qle_bool_false in L2. change (inject_Z 20) with 20%Q. rewrite L2.
    reflexivity.
  - intros L. assert (L1 : (1 < x)%Q) by lra. apply Qle_bool_false in L1.
    change (inject_Z 1) with 1%Q. rewrite L1. cbn [negb rbind]. rewrite Hx.
    apply Qle_bool_iff in L. change (inject_Z 20) with 20%Q. rewrite L. reflexivity.
Qed.

Lemma clamp_batch_size_not_number (v : pyval) :
  py_number v = None -> clamp_batch_size v = Raise TypeError.
Proof.
  intros Hx. unfold clamp_batch_size, py_max, py_lt. cbn [py_number]. rewrite Hx.
  reflexivity.
Qed.

Lemma clamp_batch_size_twice (v r : pyval) :
  clamp_batch_size v = Ok r -> clamp_batch_size r = Ok r.
Proof.
  intros Hr. destruct (py_number v) as [x|] eqn:Hx.
  - destruct (clamp_batch_size_number_cases v x Hx) as (Hlow & Hmid & Hhigh).
    destruct (Qlt_le_dec 1 x) as [L1|L1].
    + destruct (Qlt_le_dec x 20) as [L2|L2].
      * rewrite (Hmid L1 L2) in Hr. injection Hr as <-. apply Hmid; assumption.
      * rewrite (Hhigh L2) in Hr. injection Hr as <-. reflexivity.
    + rewrite (Hlow L1) in Hr. injection Hr as <-. reflexivity.
  - rewrite (clamp_batch_size_not_number v Hx) in Hr. discriminate.
Qed.

(** X3. The clamp of the batch size on any object: an object that is
    not a number raises [TypeError]; a number strictly between 1 and 20
    is kept as the object it is (a float stays a float); a number up to
    1 gives the integer 1 and a number from 20 on gives the integer 20,
    also the floats 1.0 and 20.0. Clamping what the clamp gave changes
    nothing. *)
Theorem clamp_batch_size_cases (v : pyval) :
  match py_number v with
  | None => clamp_batch_size v = Raise TypeError
  | Some x =>
      ((x <= 1)%Q -> clamp_batch_size v = Ok (PInt 1)) /\
      ((1 < x)%Q -> (x < 20)%Q -> clamp_batch_size v = Ok v) /\
      ((20 <= x)%Q -> clamp_batch_size v = Ok (PInt 20))
  end /\
  (forall r : pyval, clamp_batch_size v = Ok r -> clamp_batch_size r = Ok r).
Proof.
  split.
  - destruct (py_number v) as [x|] eqn:Hx.
    + apply clamp_batch_size_number_cases, Hx.
    + apply clamp_batch_size_not_number, Hx.
  - apply clamp_batch_size_twice.
Qed.

Lemma clamp_batch_size_cases_witness :
  clamp_batch_size (PFloat (25 # 10)) = Ok (PFloat (25 # 10)) /\
  clamp_batch_size (PFloat 1) = Ok (PInt 1) /\
  clamp_batch_size (PStr "3") = Raise TypeError.
Proof.
  split; [|split].
  - apply (proj1 (clamp_batch_size_cases (PFloat (25 # 10)))); reflexivity.
  - apply (proj1 (clamp_batch_size_cases (PFloat 1))). discriminate.
  - exact (proj1 (clamp_batch_size_cases (PStr "3"))).
Defined.

(** ** When no data dictionary is built *)

Lemma py_getitem_out_of_range {A : Type} (l : list A) (i : Z) :
  ~ (- Z.of_nat (length l) <= i < Z.of_nat (length l))%Z ->
  py_getitem l i = Raise IndexError.
Proof.
  intros Hi. unfold py_getitem.
  destruct (Z.ltb_spec i 0);
    match goal with
    | |- context [(?a && ?b)] => replace (a && b) with false; [reflexivity|]
    end; symmetry; apply andb_false_iff;
    [destruct (Z.leb_spec 0 (i + Z.of_nat (length l)));
     [right; apply Z.ltb_ge; lia|left; reflexivity]
    |destruct (Z.ltb_spec i (Z.of_nat (length l))); [lia|right; reflexivity]].
Qed.

Lemma prompts_not_stored (w : world) :
  ~ prompts_stored w ->
  forall p, w_data w !! "prompt" = Some (PStr p) ->
            forall np, w_data w !! "negative_prompt" <> Some (PStr np).
Proof. intros Hn p Hp np Hnp. apply Hn. exists p, np. split; assumption. Qed.

(** X4. The three data dictionaries are built in the same order, and
    what stops one stops the three, before anything is sent and with
    nothing changed ([inpainting] having passed its test of the mask): a prompt or negative prompt that is not stored as a
    string raises [TypeError]; otherwise a sampler index outside
    -18..17 raises [IndexError]; otherwise a batch size that is not a
    number raises [TypeError]. *)
Theorem request_data_errors (a : generation_args)
    (blur inpaint_full_res invert_mask : pyval) (init_image mask : string) (w : world) :
  mask <> EmptyString ->
  (~ prompts_stored w ->
   data_raise TypeError a blur inpaint_full_res invert_mask init_image mask w) /\
  (prompts_stored w -> ~ (- 18 <= sampler_index a < 18)%Z ->
   data_raise IndexError a blur inpaint_full_res invert_mask init_image mask w) /\
  (prompts_stored w -> (- 18 <= sampler_index a < 18)%Z ->
   py_number (batch_size a) = None ->
   data_raise TypeError a blur inpaint_full_res invert_mask init_image mask w).
Proof.
  intros _. unfold data_raise. split; [|split].
  - intros Hn. pose proof (prompts_not_stored w Hn) as Hn'.
    unfold image_to_image_data, text_to_image_data, inpainting_data. run_monad.
    destruct (w_data w !! "prompt") as [[| | | |p| |]|] eqn:Hp; auto.
    specialize (Hn' p eq_refl).
    destruct (w_data w !! "negative_prompt") as [[| | | |np| |]|]; auto.
    destruct (Hn' np eq_refl).
  - intros (p & np & Hp & Hnp) Hs.
    unfold image_to_image_data, text_to_image_data, inpainting_data. run_monad.
    rewrite Hp, Hnp, !round_to_multiple_ok by discriminate.
    rewrite (py_getitem_out_of_range SAMPLERS _ Hs). auto.
  - intros (p & np & Hp & Hnp) Hs Hb.
    destruct (py_getitem_in_range SAMPLERS (sampler_index a) Hs) as [s Es].
    unfold image_to_image_data, text_to_image_data, inpainting_data. run_monad.
    rewrite Hp, Hnp, !round_to_multiple_ok, Es by discriminate.
    rewrite (clamp_batch_size_not_number _ Hb). auto.
Qed.

Lemma request_data_errors_witness :
  data_raise IndexError sample_args_no_sampler (PInt 4) (PBool false) (PBool false)
    "iVBORw0KGgo=" "iVBORw0KGgo=" sample_world.
Proof.
  apply (request_data_errors sample_args_no_sampler (PInt 4) (PBool false) (PBool false)
           "iVBORw0KGgo=" "iVBORw0KGgo=" sample_world).
  - discriminate.
  - exists "a cat", EmptyString. split; reflexivity.
  - cbn. lia.
Defined.

(** ** The data of inpainting against the data of image_to_image *)

(** X5. For the same values of the dialog, the dictionary that
    [inpainting] posts when [run_inpainting] calls it holds every entry
    of the dictionary that [image_to_image] posts, with the same value:
    clamping the batch size twice and rounding the height twice give
    what doing it once gives. Five entries come on top: the mask, the
    blur as an integer, the full-resolution flag, a padding of 10 and
    the inversion as 1 or 0. *)
Theorem inpainting_data_extends (a : generation_args)
    (inpaint_full_res invert_mask : pyval) (init_image mask : string) (w : world) :
  mask <> EmptyString ->
  prompts_stored w ->
  (- 18 <= sampler_index a < 18)%Z ->
  is_Some (py_number (batch_size a)) ->
  exists d1 d2 : list (pykey * pyval),
    image_to_image_data a init_image w = (Ok d1, w) /\
    run_inpainting_data a inpaint_full_res invert_mask init_image mask w = (Ok d2, w) /\
    Forall (fun kv => dict_get (fst kv) d2 = Some (snd kv)) d1 /\
    dict_get (KStr "mask") d2 = Some (PStr mask) /\
    dict_get (KStr "mask_blur") d2 = Some (PInt (py_int (mask_blur a))) /\
    dict_get (KStr "inpaint_full_res") d2 = Some inpaint_full_res /\
    dict_get (KStr "inpaint_full_res_padding") d2 = Some (PInt 10) /\
    dict_get (KStr "inpainting_mask_invert") d2
    = Some (PInt (if truthy invert_mask then 1 else 0)) /\
    length d2 = (length d1 + 5)%nat.
Proof.
  intros _ (p & np & Hp & Hnp) Hs Hb.
  destruct (py_getitem_in_range SAMPLERS (sampler_index a) Hs) as [s Es].
  pose proof (clamp_batch_size_number _ Hb) as Hc.
  destruct (clamp_batch_size (batch_size a)) as [b|?] eqn:Eb; [|discriminate].
  pose proof (clamp_batch_size_twice _ _ Eb) as Eb2.
  pose proof (round_to_multiple_ok (height a) 8 ltac:(discriminate)) as Eh.
  pose proof (round_to_multiple_twice _ _ _ Eh) as Eh2.
  unfold run_inpainting_data, inpainting_args_of, image_to_image_data, inpainting_data.
  run_monad. rewrite Eb, Eh. cbn [rbind].
  cbn [p_prompt_prefix n_prompt_prefix width height sampler_index batch_size seed
       resize_mode steps cfg_scale denoising_strength].
  rewrite Hp, Hnp, Eh2, Eb2, Es, !round_to_multiple_ok by discriminate.
  eexists _, _. split; [reflexivity|]. split; [reflexivity|].
  split; [repeat constructor|]. repeat split.
Qed.

Lemma inpainting_data_extends_witness :
  exists d1 d2 : list (pykey * pyval),
    image_to_image_data sample_args "iVBORw0KGgo=" sample_world = (Ok d1, sample_world) /\
    run_inpainting_data sample_args (PBool false) (PBool true) "iVBORw0KGgo=" "bWFzaw=="
      sample_world = (Ok d2, sample_world) /\
    Forall (fun kv => dict_get (fst kv) d2 = Some (snd kv)) d1 /\
    dict_get (KStr "mask") d2 = Some (PStr "bWFzaw==") /\
    dict_get (KStr "mask_blur") d2 = Some (PInt (py_int (mask_blur sample_args))) /\
    dict_get (KStr "inpaint_full_res") d2 = Some (PBool false) /\
    dict_get (KStr "inpaint_full_res_padding") d2 = Some (PInt 10) /\
    dict_get (KStr "inpainting_mask_invert") d2
    = Some (PInt (if truthy (PBool true) then 1 else 0)) /\
    length d2 = (length d1 + 5)%nat.
Proof.
  apply (inpainting_data_extends sample_args (PBool false) (PBool true)
           "iVBORw0KGgo=" "bWFzaw==" sample_world).
  - discriminate.
  - exists "a cat", EmptyString. split; reflexivity.
  - cbn. lia.
  - cbn. eexists. reflexivity.
Defined.

(** ** The prompt that is sent *)

Lemma lstrip_length (s : string) : (String.length (lstrip s) <= String.length s)%nat.
Proof.
  induction s as [|c s IH]; cbn; [lia|].
  destruct (is_py_space c); cbn; lia.
Qed.

Lemma lstrip_fixed_head (c : ascii) (s : string) :
  lstrip (String c s) = String c s -> is_py_space c = false.
Proof.
  cbn. destruct (is_py_space c); [|reflexivity].
  intros E. pose proof (lstrip_length s) as L. rewrite E in L. cbn in L. lia.
Qed.

Lemma lstrip_twice (s : string) : lstrip (lstrip s) = lstrip s.
Proof.
  induction s as [|c s IH]; [reflexivity|].
  cbn. destruct (is_py_space c) eqn:E; [exact IH|]. cbn. rewrite E. reflexivity.
Qed.

Lemma rstrip_twice (s : string) : rstrip (rstrip s) = rstrip s.
Proof.
  induction s as [|c s IH]; [reflexivity|].
  cbn. destruct (rstrip s) as [|d t] eqn:E.
  - destruct (is_py_space c) eqn:Ec; [reflexivity|]. cbn. rewrite Ec. reflexivity.
  - change (rstrip (String c (String d t))) with
      (match rstrip (String d t) with
       | EmptyString => if is_py_space c then EmptyString else String c EmptyString
       | u => String c u
       end).
    rewrite IH. reflexivity.
Qed.

Lemma lstrip_fixed_rstrip (s : string) : lstrip s = s -> lstrip (rstrip s) = rstrip s.
Proof.
  destruct s as [|c s]; [reflexivity|].
  intros E. apply lstrip_fixed_head in E.
  cbn [rstrip]. destruct (rstrip s); [rewrite E|]; cbn; rewrite E; reflexivity.
Qed.

Lemma py_strip_twice (s : string) : py_strip (py_strip s) = py_strip s.
Proof.
  unfold py_strip. rewrite (lstrip_fixed_rstrip _ (lstrip_twice s)). apply rstrip_twice.
Qed.

Lemma rstrip_app_space (s : string) : rstrip (s +:+ " ") = rstrip s.
Proof.
  induction s as [|c s IH]; [reflexivity|].
  change (String c s +:+ " ") with (String c (s +:+ " ")).
  cbn [rstrip]. rewrite IH. reflexivity.
Qed.

Lemma py_strip_app_space (s : string) : py_strip (s +:+ " ") = py_strip s.
Proof.
  unfold py_strip. induction s as [|c s IH]; [reflexivity|].
  change (String c s +:+ " ") with (String c (s +:+ " ")).
  cbn [lstrip]. destruct (is_py_space c); [exact IH|].
  apply (rstrip_app_space (String c s)).
Qed.

Lemma string_app_empty_r (s : string) : s +:+ EmptyString = s.
Proof.
  induction s as [|c s IH]; [reflexivity|].
  change (String c s +:+ EmptyString) with (String c (s +:+ EmptyString)).
  rewrite IH. reflexivity.
Qed.

(** X6. The text sent for a prompt stored as a string has no white
    space at either end (stripping it again changes nothing); with an
    empty prefix it is the stored prompt stripped, the blank that joins
    the two being gone, and with an empty stored prompt it is the prefix
    stripped. The settings are only read. *)
Theorem prompt_text_stripped (prefix key stored : string) (w : world) :
  w_data w !! key = Some (PStr stored) ->
  exists text : string,
    prompt_text prefix key w = (Ok text, w) /\
    py_strip text = text /\
    (prefix = EmptyString -> text = py_strip stored) /\
    (stored = EmptyString -> text = py_strip prefix).
Proof.
  intros Hk. unfold prompt_text. run_monad. rewrite Hk.
  eexists. split; [reflexivity|]. split; [apply py_strip_twice|]. split.
  - intros ->. reflexivity.
  - intros ->. rewrite string_app_empty_r. apply py_strip_app_space.
Qed.

Lemma prompt_text_stripped_witness :
  exists text : string,
    prompt_text " oil painting of" "prompt" sample_world = (Ok text, sample_world) /\
    py_strip text = text /\
    (" oil painting of" = EmptyString -> text = py_strip "a cat") /\
    ("a cat" = EmptyString -> text = py_strip " oil painting of").
Proof.
  apply (prompt_text_stripped " oil painting of" "prompt" "a cat" sample_world).
  reflexivity.
Defined.

(** ** The filter of the seed entry *)

Lemma join_chars_in_made_of (chars text : string) :
  made_of chars (join_chars_in chars text) = true.
Proof.
  unfold made_of. induction text as [|c s IH]; [reflexivity|].
  cbn [join_chars_in]. destruct (py_in_chars c chars) eqn:E; [|exact IH].
  cbn [list_ascii_of_string forallb]. rewrite E. exact IH.
Qed.

Lemma join_chars_in_fixed (chars text : string) :
  made_of chars text = true -> join_chars_in chars text = text.
Proof.
  unfold made_of. induction text as [|c s IH]; [reflexivity|].
  cbn [list_ascii_of_string forallb join_chars_in].
  intros [Hc Hs]%andb_prop. rewrite Hc, (IH Hs). reflexivity.
Qed.

Lemma int_char_not_space (c : ascii) :
  py_in_chars c "0123456789-" = true -> is_py_space c = false.
Proof.
  unfold py_in_chars. cbn [list_ascii_of_string existsb].
  rewrite !orb_true_iff, !Ascii.eqb_eq.
  intros H. repeat destruct H as [H|H]; try discriminate; subst c; reflexivity.
Qed.

Lemma rstrip_no_space (s : string) :
  forallb (fun c => negb (is_py_space c)) (list_ascii_of_string s) = true ->
  rstrip s = s.
Proof.
  induction s as [|c s IH]; [reflexivity|].
  cbn [list_ascii_of_string forallb rstrip].
  intros [Hc Hs]%andb_prop. rewrite (IH Hs).
  destruct s; [|reflexivity]. apply negb_true_iff in Hc. rewrite Hc. reflexivity.
Qed.

Lemma py_strip_no_space (s : string) :
  forallb (fun c => negb (is_py_space c)) (list_ascii_of_string s) = true ->
  py_strip s = s.
Proof.
  intros Hs. unfold py_strip.
  assert (L : lstrip s = s).
  { destruct s as [|c s]; [reflexivity|].
    cbn [list_ascii_of_string forallb] in Hs. apply andb_prop in Hs as [Hc _].
    apply negb_true_iff in Hc. cbn. rewrite Hc. reflexivity. }
  rewrite L. apply rstrip_no_space, Hs.
Qed.

Lemma made_of_ints_no_space (s : string) :
  made_of "0123456789-" s = true ->
  forallb (fun c => negb (is_py_space c)) (list_ascii_of_string s) = true.
Proof.
  unfold made_of. induction s as [|c s IH]; [reflexivity|].
  cbn [list_ascii_of_string forallb]. intros [Hc Hs]%andb_prop.
  rewrite (int_char_not_space c Hc), (IH Hs). reflexivity.
Qed.

Lemma filter_numbers_keeps (text : string) :
  made_of "0123456789-" text = true -> filter_numbers text = text.
Proof.
  intros Ht. unfold filter_numbers.
  rewrite (py_strip_no_space _ (made_of_ints_no_space _ Ht)).
  apply join_chars_in_fixed, Ht.
Qed.

(** X7. The text that the handler of the seed entry puts back is made
    of digits and minus signs only; a text made of those is put back as
    it is, so the handler run on its own output changes nothing. Nothing
    makes the text a number: the minus sign is kept wherever it
    stands. *)
Theorem filter_numbers_fixed_point (text : string) :
  made_of "0123456789-" (filter_numbers text) = true /\
  filter_numbers (filter_numbers text) = filter_numbers text /\
  (made_of "0123456789-" text = true -> filter_numbers text = text).
Proof.
  assert (Hm : made_of "0123456789-" (filter_numbers text) = true)
    by apply join_chars_in_made_of.
  split; [exact Hm|]. split; [exact (filter_numbers_keeps _ Hm)|].
  apply filter_numbers_keeps.
Qed.

Lemma filter_numbers_fixed_point_witness :
  filter_numbers "4-2-" = "4-2-".
Proof.
  apply (filter_numbers_fixed_point "4-2-"). reflexivity.
Defined.

(** ** The settings shelf, one entry at a time *)

Lemma MyShelf_load_frame (default_shelf : nat) (w : world) :
  exists w' : world,
    MyShelf_load default_shelf w = (Ok tt, w') /\
    w_data w' = match w_file w with
                | JsonObject m => m
                | NoFile | Corrupt => dict_at default_shelf w
                end /\
    w_file w' = w_file w /\ shelf_frame w w'.
Proof.
  unfold MyShelf_load, try_except, LOGGER, shelf_frame. run_monad.
  cbn [w_file bind_data set_log].
  destruct (w_file w) eqn:E; eexists; (split; [reflexivity|]); cbn; rewrite ?E;
    repeat split.
Qed.

Lemma MyShelf_save_frame (data : gmap string pyval) (w : world) :
  exists w' : world,
    MyShelf_save data w = (Ok tt, w') /\
    w_data w' = data ∪ w_data w /\
    w_file w' = saved_file data w /\
    shelf_frame w w'.
Proof.
  unfold MyShelf_save, saved_file, try_except, LOGGER, shelf_frame. run_monad.
  cbn [w_writable w_data set_data set_log].
  destruct (w_writable w) eqn:E; cbn.
  - destruct (json_object (data ∪ w_data w)); cbn;
      eexists; (split; [reflexivity|]); cbn; rewrite ?E; repeat split.
  - eexists. split; [reflexivity|]. cbn. rewrite ?E. repeat split.
Qed.

Lemma MyShelf_set_frame (name : string) (v : pyval) (w : world) :
  exists w' : world,
    MyShelf_set name v w = (Ok tt, w') /\
    w_data w' = <[name := v]> (w_data w) /\
    w_file w' = (if w_writable w
                 then match json_object (<[name := v]> (w_data w)) with
                      | Ok document => JsonObject document
                      | Raise _ => Corrupt
                      end
                 else w_file w) /\
    w_data_at w' = w_data_at w /\
    w_objects w' = w_objects (set_data (<[name := v]> (w_data w)) w) /\
    shelf_frame w w'.
Proof.
  unfold MyShelf_set.
  destruct (MyShelf_save_frame ∅ (set_data (<[name := v]> (w_data w)) w))
    as (w' & Hrun & Hd & Hf & Hfr).
  destruct (MyShelf_save_run ∅ (set_data (<[name := v]> (w_data w)) w))
    as (w'' & Hrun' & _ & _ & Ha & Ho & _).
  rewrite Hrun in Hrun'. injection Hrun' as <-.
  exists w'. unfold saved_file in Hf. cbn [w_data w_file w_writable set_data] in *.
  rewrite (left_id_L ∅ (∪)) in Hd, Hf, Ho.
  split; [|split; [exact Hd|split; [exact Hf|split; [exact Ha|split; [|exact Hfr]]]]].
  - unfold bind, modify. exact Hrun.
  - rewrite Ho. cbn [w_objects w_data_at set_data].
    destruct (w_data_at w); [|reflexivity].
    rewrite insert_insert_eq. reflexivity.
Qed.

(** What [json.load] reads under a name of the document written for a
    mapping: the document of the value. *)
Lemma json_object_lookup (d document : gmap string pyval) (name : string) (v : pyval) :
  json_object d = Ok document ->
  d !! name = Some v ->
  exists v' : pyval, json_value v = Ok v' /\ document !! name = Some v'.
Proof.
  unfold json_object.
  destruct (decide (map_Forall (fun _ v => is_ok (json_value v) = true) d)) as [Hall|];
    [|discriminate].
  intros [= <-] Hv. specialize (Hall name v Hv). cbn beta in Hall.
  destruct (json_value v) as [v'|e] eqn:E; [|cbn in Hall; discriminate Hall].
  exists v'. split; [reflexivity|]. rewrite lookup_omap, Hv. cbn. rewrite E. reflexivity.
Qed.

(** X8. [set] never raises. After it, [get] gives the value for the
    name and what it gave before for every other name. When the settings
    file can be written, the file holds the document of the mapping and
    a reload finds the document of the value under the name; a value
    that [json.dump] rejects leaves a file no reload can read. When the
    file cannot be written it is as it was. The entry is then in the
    dictionary [self.data] only, and that dictionary is the caller's
    when the shelf was started from it with no file: a reload from the
    same dictionary finds the value there. A reload that reads a file,
    or falls back to another dictionary, gives for every name what it
    gives without the [set]. *)
Theorem shelf_set_get_reload (name : string) (v : pyval) (defaults : nat) (w : world) :
  (exists w' : world,
      MyShelf_set name v w = (Ok tt, w') /\
      (forall d : pyval, MyShelf_get name d w' = (Ok v, w')) /\
      (forall (other : string) (d : pyval),
          other <> name ->
          fst (MyShelf_get other d w') = fst (MyShelf_get other d w))) /\
  (w_writable w = true ->
   forall document : gmap string pyval,
     json_object (<[name := v]> (w_data w)) = Ok document ->
     w_file (snd (MyShelf_set name v w)) = JsonObject document /\
     exists v' : pyval,
       json_value v = Ok v' /\
       forall d : pyval,
         fst ((MyShelf_set name v ;; MyShelf_load defaults ;; MyShelf_get name d) w)
         = Ok v') /\
  (w_writable w = true ->
   forall e : exn,
     json_object (<[name := v]> (w_data w)) = Raise e ->
     w_file (snd (MyShelf_set name v w)) = Corrupt) /\
  (w_writable w = false ->
   w_file (snd (MyShelf_set name v w)) = w_file w /\
   (w_data_at w = Some defaults ->
    w_file w = NoFile \/ w_file w = Corrupt ->
    forall d : pyval,
      fst ((MyShelf_set name v ;; MyShelf_load defaults ;; MyShelf_get name d) w)
      = Ok v) /\
   (w_data_at w <> Some defaults \/ (exists m, w_file w = JsonObject m) ->
    forall (key : string) (d : pyval),
      fst ((MyShelf_set name v ;; MyShelf_load defaults ;; MyShelf_get key d) w)
      = fst ((MyShelf_load defaults ;; MyShelf_get key d) w))).
Proof.
  destruct (MyShelf_set_frame name v w) as (w1 & Hrun & Hd & Hf & Ha & Ho & _).
  destruct (MyShelf_load_frame defaults w1) as (w2 & Hload & Hd2 & _).
  destruct (MyShelf_load_frame defaults w) as (w3 & Hload3 & Hd3 & _).
  assert (Hat : dict_at defaults w1
                = if decide (w_data_at w = Some defaults)
                  then <[name := v]> (w_data w) else dict_at defaults w).
  { unfold dict_at at 1. rewrite Ho.
    fold (dict_at defaults (set_data (<[name := v]> (w_data w)) w)).
    apply dict_at_set_data. }
  split; [|split; [|split]].
  - exists w1. split; [exact Hrun|]. split.
    + intros d. unfold MyShelf_get. run_monad. rewrite Hd, lookup_insert_eq.
      reflexivity.
    + intros other d Hne. unfold MyShelf_get. run_monad.
      rewrite Hd, lookup_insert_ne by congruence.
      destruct (w_data w !! other); reflexivity.
  - intros Hw document Hj. rewrite Hw, Hj in Hf. rewrite Hrun. split; [exact Hf|].
    destruct (json_object_lookup _ document name v Hj (lookup_insert_eq _ _ _))
      as (v' & Hv' & Hdoc).
    exists v'. split; [exact Hv'|]. intros d. rewrite Hf in Hd2.
    rewrite (bind_run _ _ _ _ _ Hrun), (bind_run _ _ _ _ _ Hload).
    unfold MyShelf_get. run_monad. rewrite Hd2, Hdoc. reflexivity.
  - intros Hw e Hj. rewrite Hw, Hj in Hf. rewrite Hrun. exact Hf.
  - intros Hw. rewrite Hw in Hf. rewrite Hrun. split; [exact Hf|]. split.
    + intros Hsame Hfile d. rewrite Hf in Hd2.
      rewrite (bind_run _ _ _ _ _ Hrun), (bind_run _ _ _ _ _ Hload).
      unfold MyShelf_get. run_monad. rewrite Hd2, Hat.
      destruct (decide (w_data_at w = Some defaults)); [|contradiction].
      destruct Hfile as [-> | ->]; rewrite lookup_insert_eq; reflexivity.
    + intros Hcase key d. rewrite Hf in Hd2.
      rewrite (bind_run _ _ _ _ _ Hrun), (bind_run _ _ _ _ _ Hload).
      rewrite (bind_run (MyShelf_load defaults) _ _ _ _ Hload3).
      unfold MyShelf_get. run_monad. rewrite Hd2, Hd3.
      destruct Hcase as [Hother | [m ->]]; [|destruct (m !! key); reflexivity].
      rewrite Hat. destruct (decide (w_data_at w = Some defaults)); [contradiction|].
      destruct (w_file w) as [| |m]; destruct (_ !! key); reflexivity.
Qed.

Lemma shelf_set_get_reload_witness :
  (w_file (snd (MyShelf_set "sd_model_checkpoint" (PInt 2) sample_world))
   = JsonObject (<["sd_model_checkpoint" := PInt 2]> (w_data sample_world)) /\
   exists v' : pyval,
     json_value (PInt 2) = Ok v' /\
     forall d : pyval,
       fst ((MyShelf_set "sd_model_checkpoint" (PInt 2) ;;
             MyShelf_load 0 ;;
             MyShelf_get "sd_model_checkpoint" d) sample_world) = Ok v') /\
  w_file (snd (MyShelf_set "override" (PDict [(KStr "steps", PInt 20); (KInt 1, PInt 30)])
                 sample_world))
  = Corrupt /\
  (w_file (snd (MyShelf_set "sd_model_checkpoint" (PInt 2) sample_read_only_session))
   = w_file sample_read_only_session /\
   (forall d : pyval,
       fst ((MyShelf_set "sd_model_checkpoint" (PInt 2) ;;
             MyShelf_load 0 ;;
             MyShelf_get "sd_model_checkpoint" d) sample_read_only_session)
       = Ok (PInt 2)) /\
   (forall (key : string) (d : pyval),
       fst ((MyShelf_set "sd_model_checkpoint" (PInt 2) ;;
             MyShelf_load 1 ;;
             MyShelf_get key d) sample_read_only_session)
       = fst ((MyShelf_load 1 ;; MyShelf_get key d) sample_read_only_session))).
Proof.
  pose proof (shelf_set_get_reload "sd_model_checkpoint" (PInt 2) 0 sample_world)
    as (_ & H2 & _).
  pose proof (shelf_set_get_reload "override"
                (PDict [(KStr "steps", PInt 20); (KInt 1, PInt 30)]) 0 sample_world)
    as (_ & _ & H3 & _).
  pose proof (shelf_set_get_reload "sd_model_checkpoint" (PInt 2) 0
                sample_read_only_session) as (_ & _ & _ & H4).
  pose proof (shelf_set_get_reload "sd_model_checkpoint" (PInt 2) 1
                sample_read_only_session) as (_ & _ & _ & H5).
  split; [apply (H2 eq_refl); apply json_object_kept|].
  { apply map_Forall_to_list. vm_compute. repeat constructor. }
  split; [apply (H3 eq_refl TypeError); vm_compute; reflexivity|].
  destruct (H4 eq_refl) as (Hfile & Hsame & _).
  destruct (H5 eq_refl) as (_ & _ & Hother).
  split; [exact Hfile|]. split.
  - apply Hsame; [reflexivity|left; reflexivity].
  - apply Hother. left. discriminate.
Defined.

(** ** The start of the plug-in *)

Lemma server_online_run (url : string) (w : world) :
  server_online url w
  = match w_answer w (probe url) with
    | Replied rep =>
        if ((200 <=? rep_code rep) && (rep_code rep <? 300))%Z
        then (Ok true, set_sent (fun l => l ++ [probe url]) w)
        else (Ok false,
              set_log (fun l => l ++ [(LogException, "Could not connect to " +:+ url)])
                (set_sent (fun l => l ++ [probe url]) w))
    | Fails e =>
        if is_URLError e
        then (Ok false,
              set_log (fun l => l ++ [(LogException, "Could not connect to " +:+ url)])
                (set_sent (fun l => l ++ [probe url]) w))
        else (Raise e, set_sent (fun l => l ++ [probe url]) w)
    end.
Proof.
  unfold server_online, try_except, urlopen, LOGGER, probe. run_monad.
  cbn [w_answer set_sent].
  destruct (w_answer w _) as [rep|e].
  - destruct ((200 <=? rep_code rep)%Z && (rep_code rep <? 300)%Z); reflexivity.
  - destruct (is_URLError e); reflexivity.
Qed.

Lemma poll_server_run (url : string) (w : world) :
  w_data w !! "api_base" = Some (PStr url) ->
  usable_url url ->
  poll_server w
  = (running <- server_online url ;;
     modify (set_is_server_running running) ;;
     gets w_is_server_running) w.
Proof.
  intros Hu [Hs Hh]. unfold poll_server. run_monad. rewrite Hu.
  rewrite py_strip_blank, Hs, Hh. reflexivity.
Qed.

Lemma poll_server_probes (url : string) (w : world) :
  w_data w !! "api_base" = Some (PStr url) ->
  usable_url url ->
  w_sent (snd (poll_server w)) = w_sent w ++ [probe url].
Proof.
  intros Hu Hurl. rewrite (poll_server_run url w Hu Hurl).
  destruct (server_online_probes url w) as (w' & Hw' & Hs & _).
  unfold bind, modify, gets.
  destruct (server_online url w) as [[running|e] w'']; cbn in *; subst w''; exact Hs.
Qed.

(** The first two statements of the start: the shelf is made from the
    dictionary of the defaults and holds the stored settings. *)
Lemma StabDiffAuto1111_init_loads (w : world) :
  exists w0 : world,
    (forall (A : Type) (k : nat -> M A),
        (default_settings <- new_dict STABLE_DIFF_AUTO1111_DEFAULT_SETTINGS ;;
         MyShelf_init default_settings ;; k default_settings) w
        = k (fresh (dom (w_objects w))) w0) /\
    w_data w0 = stored_settings w /\ w_file w0 = w_file w /\ shelf_frame w w0.
Proof.
  set (a := fresh (dom (w_objects w))).
  set (wa := set_objects (insert a STABLE_DIFF_AUTO1111_DEFAULT_SETTINGS) w).
  destruct (MyShelf_load_frame a wa) as (w0 & Hload & Hd & Hf & Hfr).
  assert (Hat : dict_at a wa = STABLE_DIFF_AUTO1111_DEFAULT_SETTINGS).
  { unfold dict_at, wa. cbn [w_objects set_objects]. rewrite lookup_insert_eq.
    reflexivity. }
  rewrite Hat in Hd. exists w0. split; [|split; [exact Hd|split; [exact Hf|exact Hfr]]].
  intros A k.
  rewrite (bind_run _ _ a w wa
             (eq_refl : new_dict STABLE_DIFF_AUTO1111_DEFAULT_SETTINGS w = (Ok a, wa))).
  unfold MyShelf_init. rewrite (bind_run _ _ _ _ _ Hload). reflexivity.
Qed.

(** The start up to the probe: the shelf is loaded, the client has the
    stored URL. *)
Lemma StabDiffAuto1111_init_polls (url : string) (w : world) :
  stored_settings w !! "api_base" = Some (PStr url) ->
  usable_url url ->
  exists w1 : world,
    w_data w1 = stored_settings w /\ w_file w1 = w_file w /\
    w_writable w1 = w_writable w /\
    w_sent w1 = w_sent w /\ w_answer w1 = w_answer w /\ w_layers w1 = w_layers w /\
    w_base_url w1 = PStr url /\ w_layer_count w1 = 1%Z /\
    w_is_server_running w1 = false /\
    StabDiffAuto1111_init w
    = (running <- server_online url ;;
       modify (set_is_server_running running) ;;
       running <- gets w_is_server_running ;;
       if running : bool then ret tt
       else
         api_base <- MyShelf_get "api_base" PNone ;;
         lift (py_concat_to "It seems that StableDiffusion is not running on " api_base) ;;
         ret tt) w1.
Proof.
  intros Hu Hurl.
  destruct (StabDiffAuto1111_init_loads w)
    as (w0 & Hinit & Hd & Hf & Hs & Ha & Hw & Hb & Hr & Hc & Hl).
  exists (set_is_server_running false
            (set_base_url (PStr url) (set_base_url PNone (set_layer_count 1 w0)))).
  cbn [w_data w_file w_writable w_sent w_answer w_layers w_base_url w_layer_count
       w_is_server_running set_is_server_running set_base_url set_layer_count].
  repeat (split; [assumption || reflexivity|]).
  unfold StabDiffAuto1111_init. rewrite Hinit.
  unfold MyShelf_assert_settings_available, ApiClient_init, ApiClient_set_base_url.
  run_monad. rewrite Hd, Hu.
  cbn [w_data set_layer_count]. rewrite Hd, Hu.
  cbn [w_data set_base_url set_layer_count].
  destruct (w_data w0 !! "models");
    (rewrite poll_server_run with (url := url);
     [|cbn [w_data set_is_server_running set_base_url set_layer_count];
       rewrite Hd; exact Hu|exact Hurl]);
    unfold bind, modify, gets;
    destruct (server_online url _) as [[running|e] w']; reflexivity.
Qed.

Lemma StabDiffAuto1111_init_run (url : string) (w : world) :
  stored_settings w !! "api_base" = Some (PStr url) ->
  usable_url url ->
  answers_or_refuses w (probe url) ->
  exists w' : world,
    StabDiffAuto1111_init w = (Ok tt, w') /\
    w_data w' = stored_settings w /\
    w_base_url w' = PStr url /\
    w_layer_count w' = 1%Z /\
    w_sent w' = w_sent w ++ [probe url] /\
    (w_is_server_running w' = true <-> replies_2xx w (probe url)) /\
    w_file w' = w_file w /\ w_layers w' = w_layers w.
Proof.
  intros Hu Hurl Hans.
  destruct (StabDiffAuto1111_init_polls url w Hu Hurl)
    as (w1 & Hd & Hf & _ & Hs & Ha & Hl & Hb & Hc & _ & ->).
  unfold bind at 1. rewrite server_online_run, Ha.
  unfold answers_or_refuses in Hans. unfold replies_2xx.
  destruct (w_answer w (probe url)) as [rep|e] eqn:Ew.
  - destruct ((200 <=? rep_code rep)%Z && (rep_code rep <? 300)%Z) eqn:Ec.
    + eexists. split; [reflexivity|]. cbn. rewrite Hs.
      repeat (split; [assumption || reflexivity|]).
      split; [|split; assumption].
      split; [|reflexivity]. intros _. exists rep. split; [reflexivity|]. lia.
    + unfold bind, modify, gets, MyShelf_get, lift, ret. cbn. rewrite Hd, Hu. cbn.
      eexists. split; [reflexivity|]. cbn. rewrite Hs.
      repeat (split; [assumption || reflexivity|]).
      split; [|split; assumption].
      split; [discriminate|]. intros (rep' & [= <-] & Hc'). lia.
  - rewrite (Hans e eq_refl).
    unfold bind, modify, gets, MyShelf_get, lift, ret. cbn. rewrite Hd, Hu. cbn.
    eexists. split; [reflexivity|]. cbn. rewrite Hs.
    repeat (split; [assumption || reflexivity|]).
    split; [|split; assumption].
    split; [discriminate|]. intros (rep' & [=] & _).
Qed.

(** X9. The start of the plug-in, [__init__]. With a usable URL under
    [api_base] in what the shelf loads (the object of the settings file,
    or the defaults when the file is missing or corrupt) it returns
    whether or not the server is there: one probe goes to that URL, the
    client posts to that URL from then on, the layer counter is 1, and
    the running flag is set exactly when the probe got a 2xx reply. A
    settings file that holds an object without [api_base] makes the
    start raise [ValueError] before anything is sent: the defaults are
    not consulted for the missing entry. With no settings file, or a
    corrupt one, the plug-in starts on the default URL. *)
Theorem plugin_start_up (w : world) :
  (forall url : string,
      stored_settings w !! "api_base" = Some (PStr url) ->
      usable_url url ->
      answers_or_refuses w (probe url) ->
      exists w' : world,
        StabDiffAuto1111_init w = (Ok tt, w') /\
        w_data w' = stored_settings w /\
        w_base_url w' = PStr url /\
        w_layer_count w' = 1%Z /\
        w_sent w' = w_sent w ++ [probe url] /\
        (w_is_server_running w' = true <-> replies_2xx w (probe url)) /\
        w_file w' = w_file w /\ w_layers w' = w_layers w) /\
  (stored_settings w !! "api_base" = None ->
   exists w' : world,
     StabDiffAuto1111_init w = (Raise (ValueError "api_base value unavailable."), w') /\
     w_sent w' = w_sent w) /\
  (w_file w = NoFile \/ w_file w = Corrupt ->
   answers_or_refuses w (probe "http://127.0.0.1:7860") ->
   exists w' : world,
     StabDiffAuto1111_init w = (Ok tt, w') /\
     w_data w' = STABLE_DIFF_AUTO1111_DEFAULT_SETTINGS /\
     w_base_url w' = PStr "http://127.0.0.1:7860" /\
     w_sent w' = w_sent w ++ [probe "http://127.0.0.1:7860"]).
Proof.
  split; [|split].
  - intros url. apply StabDiffAuto1111_init_run.
  - intros Hn.
    destruct (StabDiffAuto1111_init_loads w) as (w0 & Hinit & Hd & Hf & Hs & _).
    exists w0. split; [|exact Hs].
    unfold StabDiffAuto1111_init. rewrite Hinit.
    unfold MyShelf_assert_settings_available. run_monad. rewrite Hd, Hn. reflexivity.
  - intros Hf Hans.
    assert (Hst : stored_settings w = STABLE_DIFF_AUTO1111_DEFAULT_SETTINGS).
    { unfold stored_settings. destruct Hf as [-> | ->]; reflexivity. }
    destruct (StabDiffAuto1111_init_run "http://127.0.0.1:7860" w)
      as (w' & Hrun & Hd & Hb & _ & Hs & _); [rewrite Hst; reflexivity| |exact Hans|].
    { split; reflexivity. }
    exists w'. rewrite Hst in Hd. repeat split; assumption.
Qed.

Lemma plugin_start_up_witness :
  exists w' : world,
    StabDiffAuto1111_init sample_world = (Ok tt, w') /\
    w_data w' = STABLE_DIFF_AUTO1111_DEFAULT_SETTINGS /\
    w_base_url w' = PStr "http://127.0.0.1:7860" /\
    w_sent w' = w_sent sample_world ++ [probe "http://127.0.0.1:7860"].
Proof.
  apply (plugin_start_up sample_world).
  - left. reflexivity.
  - intros e [= <-]. reflexivity.
Defined.

(** ** config and the URL in use *)

(** X10. [config] stores the two prompts and the URL, and the client
    keeps the URL it was built with: after [config], [poll_server]
    probes the new URL while [post] still sends to the old one.
    [set_base_url] is called by the constructor of the client only. *)
Theorem config_keeps_base_url (prompt negative_prompt url : string)
    (endpoint : string) (dict_in : pyval) (headers : list (string * string))
    (base : string) (w : world) :
  w_base_url w = PStr base ->
  exists w' : world,
    config prompt negative_prompt url w = (Ok tt, w') /\
    w_data w' !! "api_base" = Some (PStr url) /\
    w_data w' !! "prompt" = Some (PStr prompt) /\
    w_data w' !! "negative_prompt" = Some (PStr negative_prompt) /\
    w_base_url w' = PStr base /\
    w_sent (snd (ApiClient_post endpoint dict_in headers w'))
    = w_sent w ++ [post_request base endpoint dict_in headers] /\
    (usable_url url -> w_sent (snd (poll_server w')) = w_sent w ++ [probe url]).
Proof.
  intros Hb. unfold config.
  match goal with
  | |- context [MyShelf_save ?d w] =>
      destruct (MyShelf_save_frame d w) as (w' & Hrun & Hd & _ & Hs & _ & _ & Hb' & _)
  end.
  exists w'. split; [exact Hrun|].
  assert (Hu : w_data w' !! "api_base" = Some (PStr url)).
  { rewrite Hd. apply lookup_union_Some_l. reflexivity. }
  split; [exact Hu|].
  split; [rewrite Hd; apply lookup_union_Some_l; reflexivity|].
  split; [rewrite Hd; apply lookup_union_Some_l; reflexivity|].
  rewrite Hb in Hb'. split; [exact Hb'|]. split.
  - rewrite (ApiClient_post_sends _ _ _ _ base Hb'), Hs. reflexivity.
  - intros Hurl. rewrite (poll_server_probes url w' Hu Hurl), Hs. reflexivity.
Qed.

Lemma config_keeps_base_url_witness :
  exists w' : world,
    config "a dog" "blurry" "http://10.0.0.5:7860" sample_world = (Ok tt, w') /\
    w_data w' !! "api_base" = Some (PStr "http://10.0.0.5:7860") /\
    w_data w' !! "prompt" = Some (PStr "a dog") /\
    w_data w' !! "negative_prompt" = Some (PStr "blurry") /\
    w_base_url w' = PStr "http://localhost:7860" /\
    w_sent (snd (ApiClient_post "/sdapi/v1/txt2img" (PDict []) [] w'))
    = w_sent sample_world
      ++ [post_request "http://localhost:7860" "/sdapi/v1/txt2img" (PDict []) []] /\
    (usable_url "http://10.0.0.5:7860" ->
     w_sent (snd (poll_server w')) = w_sent sample_world ++ [probe "http://10.0.0.5:7860"]).
Proof.
  apply (config_keeps_base_url "a dog" "blurry" "http://10.0.0.5:7860"
           "/sdapi/v1/txt2img" (PDict []) [] "http://localhost:7860" sample_world).
  reflexivity.
Defined.

(** ** ApiClient.post, the other ways out *)

Lemma ApiClient_post_run (endpoint : string) (dict_in : pyval)
    (headers : list (string * string)) (base : string) (w : world) :
  w_base_url w = PStr base ->
  exists w' : world,
    ApiClient_post endpoint dict_in headers w
    = (post_outcome (w_answer w (post_request base endpoint dict_in headers)), w') /\
    w_sent w' = w_sent w ++ [post_request base endpoint dict_in headers] /\
    network_frame w w'.
Proof.
  intros Hb. unfold ApiClient_post, try_except, urlopen, LOGGER, post_request,
    post_outcome, network_frame.
  run_monad. rewrite Hb. cbn [py_concat]. cbn [w_answer set_sent set_log].
  destruct (w_answer w _) as [rep|e].
  - destruct ((200 <=? rep_code rep)%Z && (rep_code rep <? 300)%Z).
    + destruct (rep_body rep); eexists; (split; [reflexivity|]); cbn; repeat split;
        exact Hb.
    + eexists; (split; [reflexivity|]); cbn; repeat split; exact Hb.
  - destruct e; eexists; (split; [reflexivity|]); cbn; repeat split; exact Hb.
Qed.

Lemma in_2xx (code : Z) :
  (200 <= code < 300)%Z -> ((200 <=? code) && (code <? 300))%Z = true.
Proof.
  intros Hc. apply andb_true_intro. split; [apply Z.leb_le|apply Z.ltb_lt]; lia.
Qed.

(** X11. What [post] does when the reply is not an HTTP error. A 2xx
    reply with a JSON body is returned to the caller, with one request
    sent and one warning logged. Only [HTTPError] is caught: a 2xx reply
    whose body is not JSON raises [JSONDecodeError] to the caller, an
    unreachable server raises its exception ([URLError]) to the caller,
    the request having gone out, and a base URL that is not a string
    ([None]) raises [TypeError] before anything is logged or sent. *)
Theorem post_outcomes (endpoint : string) (dict_in : pyval)
    (headers : list (string * string)) (w : world) :
  (forall (base : string) (rep : http_reply) (response_dict : pyval),
      w_base_url w = PStr base ->
      w_answer w (post_request base endpoint dict_in headers) = Replied rep ->
      (200 <= rep_code rep < 300)%Z ->
      rep_body rep = Some response_dict ->
      exists w' : world,
        ApiClient_post endpoint dict_in headers w = (Ok response_dict, w') /\
        w_sent w' = w_sent w ++ [post_request base endpoint dict_in headers] /\
        w_log w' = w_log w ++ [(LogWarning, "POST " +:+ base +:+ endpoint +:+ "?")]) /\
  (forall (base : string) (rep : http_reply),
      w_base_url w = PStr base ->
      w_answer w (post_request base endpoint dict_in headers) = Replied rep ->
      (200 <= rep_code rep < 300)%Z ->
      rep_body rep = None ->
      fst (ApiClient_post endpoint dict_in headers w) = Raise JSONDecodeError) /\
  (forall (base : string) (e : exn),
      w_base_url w = PStr base ->
      w_answer w (post_request base endpoint dict_in headers) = Fails e ->
      is_HTTPError e = false ->
      fst (ApiClient_post endpoint dict_in headers w) = Raise e /\
      w_sent (snd (ApiClient_post endpoint dict_in headers w))
      = w_sent w ++ [post_request base endpoint dict_in headers]) /\
  ((forall base : string, w_base_url w <> PStr base) ->
   ApiClient_post endpoint dict_in headers w = (Raise TypeError, w)).
Proof.
  split; [|split; [|split]].
  - intros base rep response_dict Hb Ha Hc Hr.
    unfold ApiClient_post, try_except, urlopen, LOGGER. run_monad.
    rewrite Hb. cbn [py_concat]. cbn [w_answer set_sent set_log].
    fold (post_request base endpoint dict_in headers).
    rewrite Ha, (in_2xx _ Hc), Hr.
    eexists. split; [reflexivity|]. split; reflexivity.
  - intros base rep Hb Ha Hc Hr.
    destruct (ApiClient_post_run endpoint dict_in headers base w Hb) as (w' & -> & _).
    rewrite Ha. unfold post_outcome. rewrite (in_2xx _ Hc), Hr. reflexivity.
  - intros base e Hb Ha He.
    destruct (ApiClient_post_run endpoint dict_in headers base w Hb)
      as (w' & -> & Hs & _).
    rewrite Ha. unfold post_outcome. rewrite He. split; [reflexivity|exact Hs].
  - intros Hb. unfold ApiClient_post, try_except. run_monad.
    destruct (w_base_url w) as [| | | |base| |]; try reflexivity.
    destruct (Hb base eq_refl).
Qed.

Lemma post_outcomes_witness :
  (exists w' : world,
      ApiClient_post "/sdapi/v1/txt2img" (PDict []) [] sample_ok_world
      = (Ok (PDict [(KStr "images", PList [])]), w') /\
      w_sent w' = w_sent sample_ok_world
                  ++ [post_request "http://127.0.0.1:7860" "/sdapi/v1/txt2img" (PDict []) []] /\
      w_log w' = w_log sample_ok_world
                 ++ [(LogWarning, "POST " +:+ "http://127.0.0.1:7860"
                                  +:+ "/sdapi/v1/txt2img" +:+ "?")]) /\
  (fst (ApiClient_post "/sdapi/v1/txt2img" (PDict []) [] sample_world)
   = Raise (URLError "Connection refused") /\
   w_sent (snd (ApiClient_post "/sdapi/v1/txt2img" (PDict []) [] sample_world))
   = w_sent sample_world
     ++ [post_request "http://localhost:7860" "/sdapi/v1/txt2img" (PDict []) []]) /\
  ApiClient_post "/sdapi/v1/txt2img" (PDict []) [] sample_second_session
  = (Raise TypeError, sample_second_session).
Proof.
  split; [|split].
  - apply (proj1 (post_outcomes "/sdapi/v1/txt2img" (PDict []) [] sample_ok_world)
             "http://127.0.0.1:7860" sample_ok_reply); [reflexivity|reflexivity| |reflexivity].
    cbn. lia.
  - apply (proj1 (proj2 (proj2 (post_outcomes "/sdapi/v1/txt2img" (PDict []) []
                                  sample_world)))); reflexivity.
  - apply (proj2 (proj2 (proj2 (post_outcomes "/sdapi/v1/txt2img" (PDict []) []
                                  sample_second_session)))).
    intros base. discriminate.
Defined.

(** ** server_online *)

(** X12. [server_online] sends one probe and does not raise for a
    server that answers or cannot be reached: it returns true exactly
    for a 2xx reply, and logs one exception record when it returns
    false. An exception that is not a [URLError] goes on to the
    caller. *)
Theorem server_online_outcomes (url : string) (w : world) :
  (answers_or_refuses w (probe url) ->
   exists (running : bool) (w' : world),
     server_online url w = (Ok running, w') /\
     (running = true <-> replies_2xx w (probe url)) /\
     w_sent w' = w_sent w ++ [probe url] /\
     w_log w' = w_log w ++ (if running then []
                            else [(LogException, "Could not connect to " +:+ url)])) /\
  (forall e : exn,
      w_answer w (probe url) = Fails e -> is_URLError e = false ->
      fst (server_online url w) = Raise e).
Proof.
  rewrite server_online_run. unfold answers_or_refuses, replies_2xx. split.
  - intros Hans. destruct (w_answer w (probe url)) as [rep|e].
    + destruct ((200 <=? rep_code rep)%Z && (rep_code rep <? 300)%Z) eqn:Ec;
        eexists _, _; (split; [reflexivity|]); cbn; rewrite ?app_nil_r;
        (split; [|split; reflexivity]).
      * split; [|reflexivity]. intros _. exists rep. split; [reflexivity|]. lia.
      * split; [discriminate|]. intros (rep' & [= <-] & Hc). lia.
    + rewrite (Hans e eq_refl). eexists _, _. split; [reflexivity|]. cbn.
      split; [|split; reflexivity]. split; [discriminate|]. intros (rep' & [=] & _).
  - intros e -> He. rewrite He. reflexivity.
Qed.

Lemma server_online_outcomes_witness :
  exists (running : bool) (w' : world),
    server_online "http://127.0.0.1:7860" sample_error_world = (Ok running, w') /\
    (running = true <-> replies_2xx sample_error_world (probe "http://127.0.0.1:7860")) /\
    w_sent w' = w_sent sample_error_world ++ [probe "http://127.0.0.1:7860"] /\
    w_log w' = w_log sample_error_world
               ++ (if running then []
                   else [(LogException, "Could not connect to " +:+ "http://127.0.0.1:7860")]).
Proof.
  apply (server_online_outcomes "http://127.0.0.1:7860" sample_error_world).
  intros e. discriminate.
Defined.

(** ** ApiClient.get and fetch_stablediffusion_options *)

(** X13. In the two states the class attribute [skip_a1111] can be in
    (not there, or [True]) [get] sends no request and changes nothing:
    it raises [AttributeError] or returns [None]. So
    [fetch_stablediffusion_options] never asks the server and never
    raises: without the attribute it records [is_server_running] as
    false; with it, it records an empty model list, the one control
    model [None], no checkpoint, and [is_server_running] as true. *)
Theorem fetch_options_never_asks (skip_a1111 : option pyval) (w : world) :
  skip_a1111 = None \/ skip_a1111 = Some (PBool true) ->
  (forall (endpoint : string) (headers : list (string * string)),
      snd (ApiClient_get skip_a1111 endpoint headers w) = w) /\
  exists w' : world,
    fetch_stablediffusion_options skip_a1111 w = (Ok tt, w') /\
    w_sent w' = w_sent w /\
    w_data w'
    = (match skip_a1111 with
       | None => {[ "is_server_running" := PBool false ]}
       | Some _ =>
           list_to_map [ ("models", PList []);
                         ("cn_models", PList [PStr "None"]);
                         ("sd_model_checkpoint", PNone);
                         ("is_server_running", PBool true) ]
       end) ∪ w_data w.
Proof.
  intros Hskip. split.
  - intros endpoint headers. destruct Hskip as [-> | ->]; reflexivity.
  - unfold fetch_stablediffusion_options, try_except.
    destruct Hskip as [-> | ->].
    + cbn [ApiClient_get]. unfold bind at 1. unfold raise at 1. cbn [any_Exception].
      unfold LOGGER.
      match goal with
      | |- context [MyShelf_save ?d] =>
          destruct (MyShelf_save_frame d
                      (set_log (fun l => l ++ [(LogException,
                                                "ERROR: fetch_stablediffusion_options")]) w))
            as (w' & Hrun & Hd & _ & Hs & _)
      end.
      exists w'. unfold bind, modify. rewrite Hrun. split; [reflexivity|].
      split; [exact Hs|exact Hd].
    + cbn [ApiClient_get truthy]. run_monad. cbn.
      match goal with
      | |- context [MyShelf_save ?d w] =>
          destruct (MyShelf_save_frame d w) as (w' & Hrun & Hd & _ & Hs & _)
      end.
      exists w'. rewrite Hrun. split; [reflexivity|]. split; [exact Hs|exact Hd].
Qed.

Lemma fetch_options_never_asks_witness :
  (forall (endpoint : string) (headers : list (string * string)),
      snd (ApiClient_get None endpoint headers sample_ok_world) = sample_ok_world) /\
  exists w' : world,
    fetch_stablediffusion_options None sample_ok_world = (Ok tt, w') /\
    w_sent w' = w_sent sample_ok_world /\
    w_data w' = {[ "is_server_running" := PBool false ]} ∪ w_data sample_ok_world.
Proof.
  apply (fetch_options_never_asks None sample_ok_world). left. reflexivity.
Defined.

(** ** change_model *)

Lemma change_model_run (models : pyval) (index : Z) (w : world) :
  model_differs w index ->
  change_model models index w
  = try_except
      (title <- lift (py_getitem_int models index) ;;
       ApiClient_post "/sdapi/v1/options"
         (PDict (dict_of_pairs [(KStr "sd_model_checkpoint", title)])) [] ;;
       MyShelf_set "sd_model_checkpoint" (PInt index))
      any_Exception
      (fun _ => LOGGER LogException "Exception in change_model") w.
Proof.
  unfold model_differs, stored_model, change_model. intros Hd. run_monad.
  destruct (w_data w !! "model"); rewrite Hd; reflexivity.
Qed.

Lemma in_2xx_true (code : Z) :
  (200 <= code < 300)%Z -> ((200 <=? code) && (code <? 300))%Z = true.
Proof.
  intros Hc. apply andb_true_iff. split; [apply Z.leb_le|apply Z.ltb_lt]; lia.
Qed.

Lemma in_2xx_false (code : Z) :
  (code < 200 \/ 300 <= code)%Z -> ((200 <=? code) && (code <? 300))%Z = false.
Proof.
  intros Hc. apply andb_false_iff.
  destruct Hc; [left; apply Z.leb_gt|right; apply Z.ltb_ge]; lia.
Qed.

(** X14. [change_model] never raises. It does nothing when the stored
    [model] equals the index, which a stored text never does. Otherwise,
    an index that has no model sends nothing and stores nothing; an
    index that has one posts its title, once, and then stores the index
    (not the title) under [sd_model_checkpoint] whenever [post]
    returned: after a 2xx reply with a JSON body, and after a reply that
    is an HTTP error as well. When [post] raised, for a 2xx reply whose
    body is not JSON or a server that cannot be reached, nothing is
    stored. The title is one that [json.dumps] writes and [json.loads]
    reads back as it is, as the titles are that the settings file
    held. *)
Theorem change_model_outcomes (models : pyval) (index : Z) (base : string)
    (w : world) :
  w_base_url w = PStr base ->
  exists w' : world,
    change_model models index w = (Ok tt, w') /\
    (~ model_differs w index -> w' = w) /\
    (model_differs w index ->
     (forall e : exn,
         py_getitem_int models index = Raise e ->
         w_sent w' = w_sent w /\ w_data w' = w_data w /\ w_file w' = w_file w) /\
     (forall title : pyval,
         py_getitem_int models index = Ok title ->
         json_keeps title ->
         w_sent w' = w_sent w ++ [change_model_request base title] /\
         (forall (rep : http_reply) (response_dict : pyval),
             w_answer w (change_model_request base title) = Replied rep ->
             (200 <= rep_code rep < 300)%Z ->
             rep_body rep = Some response_dict ->
             w_data w' = <["sd_model_checkpoint" := PInt index]> (w_data w)) /\
         (forall rep : http_reply,
             w_answer w (change_model_request base title) = Replied rep ->
             (rep_code rep < 200 \/ 300 <= rep_code rep)%Z ->
             w_data w' = <["sd_model_checkpoint" := PInt index]> (w_data w)) /\
         (forall rep : http_reply,
             w_answer w (change_model_request base title) = Replied rep ->
             (200 <= rep_code rep < 300)%Z ->
             rep_body rep = None ->
             w_data w' = w_data w /\ w_file w' = w_file w) /\
         (forall e : exn,
             w_answer w (change_model_request base title) = Fails e ->
             is_HTTPError e = false ->
             w_data w' = w_data w /\ w_file w' = w_file w))).
Proof.
  intros Hb.
  destruct (py_eq_int (stored_model w) index) eqn:Hd.
  - exists w. split; [|split].
    + unfold change_model. unfold stored_model in Hd. run_monad.
      destruct (w_data w !! "model"); rewrite Hd; reflexivity.
    + reflexivity.
    + unfold model_differs. rewrite Hd. discriminate.
  - rewrite (change_model_run models index w Hd). unfold try_except.
    destruct (py_getitem_int models index) as [title|e0] eqn:Ei.
    + unfold bind at 1. unfold lift at 1.
      change (dict_of_pairs [(KStr "sd_model_checkpoint", title)])
        with [(KStr "sd_model_checkpoint", title)].
      destruct (ApiClient_post_run "/sdapi/v1/options"
                  (PDict [(KStr "sd_model_checkpoint", title)]) [] base w Hb)
        as (w1 & Hrun & Hs & Ha & Hf & Hw & Hdata & _).
      fold (change_model_request base title) in Hrun, Hs.
      unfold bind at 1. rewrite Hrun.
      destruct (post_outcome (w_answer w (change_model_request base title)))
        as [reply|e1] eqn:Ho.
      * destruct (MyShelf_set_frame "sd_model_checkpoint" (PInt index) w1)
          as (w2 & Hset & Hd2 & Hf2 & _ & _ & Hs2 & _).
        rewrite Hset. exists w2. split; [reflexivity|].
        split; [intros Hn; destruct (Hn Hd)|]. intros _. split; [discriminate|].
        intros title' [= <-] _. split; [rewrite Hs2; exact Hs|].
        split; [|split; [|split]].
        -- intros rep response_dict Hrep Hc Hbody. rewrite Hd2, Hdata. reflexivity.
        -- intros rep Hrep Hc. rewrite Hd2, Hdata. reflexivity.
        -- intros rep Hrep Hc Hbody. rewrite Hrep in Ho. cbn in Ho.
           rewrite (in_2xx_true _ Hc), Hbody in Ho. discriminate.
        -- intros e Hrep He. rewrite Hrep in Ho. cbn in Ho. rewrite He in Ho.
           discriminate.
      * cbn [any_Exception]. unfold LOGGER, modify. eexists. split; [reflexivity|].
        split; [intros Hn; destruct (Hn Hd)|]. intros _. split; [discriminate|].
        intros title' [= <-] _. cbn [w_sent w_data w_file set_log].
        split; [exact Hs|]. split; [|split; [|split]].
        -- intros rep response_dict Hrep Hc Hbody. rewrite Hrep in Ho. cbn in Ho.
           rewrite (in_2xx_true _ Hc), Hbody in Ho. discriminate.
        -- intros rep Hrep Hc. rewrite Hrep in Ho. cbn in Ho.
           rewrite (in_2xx_false _ Hc) in Ho. discriminate.
        -- intros rep Hrep Hc Hbody. split; assumption.
        -- intros e Hrep He. split; assumption.
    + unfold bind at 1. unfold lift at 1. cbn [any_Exception]. unfold LOGGER, modify.
      eexists. split; [reflexivity|].
      split; [intros Hn; destruct (Hn Hd)|]. intros _. split.
      * intros e _. cbn. repeat split.
      * discriminate.
Qed.

Lemma change_model_outcomes_witness :
  (exists w' : world,
      change_model (PList [PStr "v1-5-pruned.ckpt"]) 0 sample_ok_world = (Ok tt, w') /\
      w_sent w' = w_sent sample_ok_world
                  ++ [change_model_request "http://127.0.0.1:7860"
                        (PStr "v1-5-pruned.ckpt")] /\
      w_data w' = <["sd_model_checkpoint" := PInt 0]> (w_data sample_ok_world)) /\
  (exists w' : world,
      change_model (PList [PStr "v1-5-pruned.ckpt"]) 0 sample_error_world = (Ok tt, w') /\
      w_sent w' = w_sent sample_error_world
                  ++ [change_model_request "http://127.0.0.1:7860"
                        (PStr "v1-5-pruned.ckpt")] /\
      w_data w' = <["sd_model_checkpoint" := PInt 0]> (w_data sample_error_world)).
Proof.
  split.
  - destruct (change_model_outcomes (PList [PStr "v1-5-pruned.ckpt"]) 0
                "http://127.0.0.1:7860" sample_ok_world eq_refl)
      as (w' & Hrun & _ & Hdiff).
    destruct (Hdiff eq_refl) as (_ & Htitle).
    destruct (Htitle (PStr "v1-5-pruned.ckpt") eq_refl eq_refl) as (Hsent & Hok & _).
    exists w'. split; [exact Hrun|]. split; [exact Hsent|].
    apply (Hok sample_ok_reply (PDict [(KStr "images", PList [])]) eq_refl);
      [cbn; lia|reflexivity].
  - destruct (change_model_outcomes (PList [PStr "v1-5-pruned.ckpt"]) 0
                "http://127.0.0.1:7860" sample_error_world eq_refl)
      as (w' & Hrun & _ & Hdiff).
    destruct (Hdiff eq_refl) as (_ & Htitle).
    destruct (Htitle (PStr "v1-5-pruned.ckpt") eq_refl eq_refl) as (Hsent & _ & Hrefused & _).
    exists w'. split; [exact Hrun|]. split; [exact Hsent|].
    apply (Hrefused sample_error_reply eq_refl). right. cbn. lia.
Defined.

(** ** Documents written and read back *)

Lemma json_value_list (items : list pyval) :
  json_value (PList items)
  = rbind (all_ok (map json_value items)) (fun items' => Ok (PList items')).
Proof. reflexivity. Qed.

Lemma json_value_dict (items : list (pykey * pyval)) :
  json_value (PDict items)
  = if sortable (map fst items)
    then
      rbind (all_ok
               (map (fun kv => rbind (snd kv)
                                 (fun v' => Ok (KStr (json_key (fst kv)), v')))
                  (sorted_items
                     (map (fun kv => (fst kv, json_value (snd kv))) items))))
            (fun pairs => Ok (PDict (dict_of_pairs pairs)))
    else Raise TypeError.
Proof. reflexivity. Qed.

Lemma all_ok_map {A B : Type} (f : A -> result B) (g : A -> B) (l : list A) :
  Forall (fun x => f x = Ok (g x)) l -> all_ok (map f l) = Ok (map g l).
Proof.
  induction 1 as [|x l Hx _ IH]; [reflexivity|].
  cbn [map all_ok]. rewrite Hx, IH. reflexivity.
Qed.

Lemma all_ok_inv {A : Type} (rs : list (result A)) (l : list A) :
  all_ok rs = Ok l -> Forall2 (fun r a => r = Ok a) rs l.
Proof.
  revert l. induction rs as [|[a|e] rs IH]; intros l; cbn [all_ok rbind].
  - intros [= <-]. constructor.
  - destruct (all_ok rs) as [l'|e] eqn:E; cbn [rbind]; [|discriminate].
    intros [= <-]. constructor; [reflexivity|]. apply IH. reflexivity.
  - discriminate.
Qed.

Lemma insert_by_key_perm {A : Type} (kv : pykey * A) (l : list (pykey * A)) :
  insert_by_key kv l ≡ₚ kv :: l.
Proof.
  induction l as [|kv' l IH]; [reflexivity|].
  cbn [insert_by_key]. destruct (key_ltb (fst kv') (fst kv)); [|reflexivity].
  rewrite IH. apply Permutation_swap.
Qed.

Lemma sorted_items_perm {A : Type} (l : list (pykey * A)) : sorted_items l ≡ₚ l.
Proof.
  induction l as [|kv l IH]; [reflexivity|].
  cbn [sorted_items fold_right]. fold (sorted_items l).
  rewrite insert_by_key_perm, IH. reflexivity.
Qed.

Lemma sorted_items_map {A B : Type} (f : A -> B) (l : list (pykey * A)) :
  sorted_items (map (fun kv => (fst kv, f (snd kv))) l)
  = map (fun kv => (fst kv, f (snd kv))) (sorted_items l).
Proof.
  induction l as [|kv l IH]; [reflexivity|].
  cbn [map sorted_items fold_right].
  fold (sorted_items l). fold (sorted_items (map (fun kv => (fst kv, f (snd kv))) l)).
  rewrite IH. generalize (sorted_items l). intros s.
  induction s as [|kv' s IHs]; [reflexivity|].
  cbn [map insert_by_key fst]. destruct (key_ltb (fst kv') (fst kv)); [|reflexivity].
  cbn [map]. rewrite IHs. reflexivity.
Qed.

Lemma string_ltb_asym (s t : string) : String.ltb s t = true -> String.ltb t s = false.
Proof.
  unfold String.ltb. rewrite (String.compare_antisym t s).
  destruct (String.compare s t); cbn; congruence.
Qed.

Lemma key_ltb_asym (a b : pykey) : key_ltb a b = true -> key_ltb b a = false.
Proof.
  destruct a as [|x|m|s], b as [|y|n|t]; cbn; try discriminate; try reflexivity;
    try (intros E%Z.ltb_lt; apply Z.ltb_ge; lia).
  apply string_ltb_asym.
Qed.

Lemma insert_by_key_order (kv : pykey * pyval) (l : list (pykey * pyval)) :
  in_key_order l -> in_key_order (insert_by_key kv l).
Proof.
  unfold in_key_order. induction 1 as [|kv' l Hl IH Hhd].
  - repeat constructor.
  - cbn [insert_by_key]. destruct (key_ltb (fst kv') (fst kv)) eqn:E.
    + constructor; [exact IH|].
      destruct Hhd as [|kv'' l' Hr]; cbn [insert_by_key].
      * constructor. apply key_ltb_asym, E.
      * destruct (key_ltb (fst kv'') (fst kv)); constructor;
          [exact Hr|apply key_ltb_asym, E].
    + constructor; [constructor; assumption|]. constructor. exact E.
Qed.

Lemma sorted_items_order (l : list (pykey * pyval)) : in_key_order (sorted_items l).
Proof.
  induction l as [|kv l IH]; [constructor|].
  cbn [sorted_items fold_right]. apply insert_by_key_order, IH.
Qed.

Lemma str_dict_perm (l l' : list (pykey * pyval)) :
  l ≡ₚ l' -> str_dict l -> str_dict l'.
Proof.
  intros Hp [Hk Hn]. assert (Hp' : map fst l ≡ₚ map fst l') by (rewrite Hp; reflexivity).
  split; [rewrite <- Hp'; exact Hk|rewrite <- Hp'; exact Hn].
Qed.

Lemma sortable_strings (keys : list pykey) :
  Forall is_KStr keys -> sortable keys = true.
Proof.
  intros Hk. unfold sortable.
  replace (forallb is_str_key keys) with true; [rewrite orb_true_r; reflexivity|].
  symmetry. apply forallb_forall. intros k Hin%list_elem_of_In.
  rewrite Forall_forall in Hk. destruct (Hk k Hin) as [s ->]. reflexivity.
Qed.

(** A dictionary with distinct string keys, holding values that come
    back as they are, comes back with its entries in key order. *)
Lemma json_value_str_dict (items : list (pykey * pyval)) :
  str_dict items ->
  Forall (fun kv => json_keeps (snd kv)) items ->
  json_value (PDict items) = Ok (PDict (sorted_items items)).
Proof.
  intros Hd Hv. rewrite json_value_dict, (sortable_strings _ (proj1 Hd)).
  replace (map (fun kv => (fst kv, json_value (snd kv))) items)
    with (map (fun kv : pykey * pyval => (fst kv, Ok (snd kv))) items).
  2:{ apply map_ext_Forall. eapply Forall_impl; [exact Hv|]. intros [k v] E.
      cbn [fst snd] in *. rewrite E. reflexivity. }
  rewrite (sorted_items_map (@Ok pyval)), map_map. cbn [fst snd rbind].
  assert (Hs : str_dict (sorted_items items)).
  { apply (str_dict_perm items); [symmetry; apply sorted_items_perm|exact Hd]. }
  rewrite (all_ok_map _ (fun kv => kv)).
  - rewrite map_id. cbn [rbind]. rewrite (dict_of_pairs_fixed _ Hs). reflexivity.
  - destruct Hs as [Hk _]. rewrite Forall_map in Hk.
    eapply Forall_impl; [exact Hk|]. intros [k v] [s Hs]. cbn [fst snd] in *. subst k. reflexivity.
Qed.

(** A document has string keys only, all different in a dictionary:
    [as_strings_deeply] leaves it as it is. *)
Lemma json_value_strings (v document : pyval) :
  json_value v = Ok document -> as_strings_deeply document = document.
Proof.
  revert document.
  induction v as [| | | | |xs|items IH] using pyval_dict_ind; intros document;
    try (intros [= <-]; reflexivity).
  - rewrite json_value_list. destruct (all_ok (map json_value xs)); cbn [rbind];
      [|discriminate]. intros [= <-]. reflexivity.
  - rewrite json_value_dict. destruct (sortable (map fst items)); [|discriminate].
    match goal with
    | |- rbind (all_ok ?rs) _ = _ -> _ => destruct (all_ok rs) as [pairs|e] eqn:E
    end; cbn [rbind]; [|discriminate].
    intros [= <-]. apply all_ok_inv in E.
    assert (Hpairs : Forall (fun p => is_KStr (fst p)
                                      /\ as_strings_deeply (snd p) = snd p) pairs).
    { apply (Forall2_Forall_r _ _ _ _ E). rewrite Forall_map.
      assert (Hin : Forall (fun x : pykey * result pyval =>
                              exists kv, kv ∈ items /\ x = (fst kv, json_value (snd kv)))
                      (sorted_items
                         (map (fun kv => (fst kv, json_value (snd kv))) items))).
      { rewrite sorted_items_perm. rewrite Forall_map. apply Forall_forall.
        intros kv Hkv. exists kv. split; [exact Hkv|reflexivity]. }
      eapply Forall_impl; [exact Hin|]. intros x (kv & Hkv & ->) p. cbn [fst snd].
      destruct (json_value (snd kv)) as [v'|e] eqn:Ev; cbn [rbind]; [|discriminate].
      intros [= <-]. cbn [fst snd]. split; [eexists; reflexivity|].
      rewrite Forall_forall in IH. apply (IH kv Hkv). exact Ev. }
    assert (Hk : Forall is_KStr (map fst pairs)).
    { rewrite Forall_map. eapply Forall_impl; [exact Hpairs|]. cbn. tauto. }
    assert (Hv : Forall (fun v => as_strings_deeply v = v) (map snd pairs)).
    { rewrite Forall_map. eapply Forall_impl; [exact Hpairs|]. cbn. tauto. }
    set (d := dict_of_pairs pairs).
    assert (Hd : str_dict d).
    { apply dict_update_str_dict; [apply str_dict_nil|exact Hk]. }
    assert (Hdv : Forall (fun v => as_strings_deeply v = v) (map snd d)).
    { apply dict_update_values; [constructor|exact Hv]. }
    rewrite as_strings_deeply_dict, (stringified_fixed d (proj1 Hd) Hdv).
    rewrite (dict_of_pairs_fixed d Hd). reflexivity.
Qed.

(** ** The document of a layer, saved and loaded *)

Section LayerDataProperties.
Context `{GimpHost}.

(** X15. A document saved on a layer and loaded from it, whatever
    defaults the load is given, is the document [json.dumps] wrote, read
    back: for a dictionary with distinct string keys that holds values
    which JSON gives back as they are, the same entries in the order of
    their keys. The layer is otherwise as it was. A document that
    [json.dumps] rejects is not attached: [save_data] raises and the
    layer is as it was. A layer that has no document gives the defaults,
    their keys made strings, and an empty dictionary when the defaults
    are [None]. *)
Theorem layer_data_round_trip (self : LayerLocal) (data default_data : pyval)
    (l : layer) (w : world) :
  w_layers w !! ll_layer self = Some l ->
  (forall document : pyval,
      json_value data = Ok document ->
      exists w' : world,
        (LayerLocal_save_data self data ;; LayerLocal_load_data self default_data) w
        = (py_copy document, w') /\
        w_layers w' = <[ll_layer self := with_parasite (Some document) l]> (w_layers w)) /\
  (forall items : list (pykey * pyval),
      data = PDict items ->
      str_dict items ->
      Forall (fun kv => json_keeps (snd kv)) items ->
      exists (items' : list (pykey * pyval)) (w' : world),
        (LayerLocal_save_data self data ;; LayerLocal_load_data self default_data) w
        = (Ok (PDict items'), w') /\
        items' ≡ₚ items /\ in_key_order items') /\
  (forall e : exn,
      json_value data = Raise e ->
      (LayerLocal_save_data self data ;; LayerLocal_load_data self default_data) w
      = (Raise e, w)) /\
  (l_parasite l = None ->
   LayerLocal_load_data self default_data w
   = (py_copy (as_strings_deeply match default_data with
                                 | PNone => PDict []
                                 | _ => default_data
                                 end), w)).
Proof.
  intros Hl.
  assert (Hround : forall document : pyval,
            json_value data = Ok document ->
            exists w' : world,
              (LayerLocal_save_data self data ;; LayerLocal_load_data self default_data) w
              = (py_copy document, w') /\
              w_layers w'
              = <[ll_layer self := with_parasite (Some document) l]> (w_layers w)).
  { intros document Hj.
    rewrite (bind_run _ _ _ _ _ (LayerLocal_save_data_run self data document l w Hl Hj)).
    set (w' := set_layers _ w).
    assert (Hl' : w_layers w' !! ll_layer self = Some (with_parasite (Some document) l)).
    { subst w'. cbn [w_layers set_layers]. rewrite lookup_alter_eq, Hl. reflexivity. }
    rewrite (LayerLocal_load_data_run self default_data _ w' Hl').
    unfold loaded_document. cbn [l_parasite with_parasite].
    rewrite (json_value_strings data document Hj).
    exists w'. split; [reflexivity|].
    subst w'. cbn [w_layers set_layers].
    apply map_eq. intros h. destruct (decide (h = ll_layer self)) as [->|Hne].
    - rewrite lookup_alter_eq, lookup_insert_eq, Hl. reflexivity.
    - rewrite lookup_alter_ne, lookup_insert_ne by congruence. reflexivity. }
  split; [exact Hround|]. split; [|split].
  - intros items -> Hd Hv.
    destruct (Hround _ (json_value_str_dict items Hd Hv)) as (w' & Hrun & _).
    exists (sorted_items items), w'. split; [exact Hrun|].
    split; [apply sorted_items_perm|apply sorted_items_order].
  - intros e Hj.
    rewrite (bind_raise _ _ _ _ _ (LayerLocal_save_data_raise self data e l w Hl Hj)).
    reflexivity.
  - intros Hp. rewrite (LayerLocal_load_data_run self default_data l w Hl).
    unfold loaded_document. rewrite Hp. reflexivity.
Qed.

End LayerDataProperties.

Lemma layer_data_round_trip_witness :
  (exists w' : world,
      (LayerLocal_save_data sample_layer_local
         (PDict [(KStr "seed", PInt 42); (KStr "info", PStr "a cat")]) ;;
       LayerLocal_load_data sample_layer_local (PDict CONTROLNET_DEFAULT_SETTINGS))
        sample_document
      = (py_copy (PDict [(KStr "info", PStr "a cat"); (KStr "seed", PInt 42)]), w') /\
      w_layers w'
      = <[ll_layer sample_layer_local
          := with_parasite
               (Some (PDict [(KStr "info", PStr "a cat"); (KStr "seed", PInt 42)]))
               sample_layer]> (w_layers sample_document)) /\
  (LayerLocal_save_data sample_layer_local
     (PDict [(KStr "seed", PInt 42); (KInt 0, PStr "a cat")]) ;;
   LayerLocal_load_data sample_layer_local (PDict CONTROLNET_DEFAULT_SETTINGS))
    sample_document
  = (Raise TypeError, sample_document).
Proof.
  pose proof (layer_data_round_trip sample_layer_local
                (PDict [(KStr "seed", PInt 42); (KStr "info", PStr "a cat")])
                (PDict CONTROLNET_DEFAULT_SETTINGS) sample_layer sample_document eq_refl)
    as (H1 & _).
  pose proof (layer_data_round_trip sample_layer_local
                (PDict [(KStr "seed", PInt 42); (KInt 0, PStr "a cat")])
                (PDict CONTROLNET_DEFAULT_SETTINGS) sample_layer sample_document eq_refl)
    as (_ & _ & H3 & _).
  split; [apply H1; reflexivity|apply H3; reflexivity].
Defined.

(** ** A control layer, saved and extracted *)

Section ControlLayer.
Context `{GimpHost}.

Lemma get_control_net_params_data (cn : nat) (l : layer) (w : world)
    (items : list (pykey * pyval)) :
  w_layers w !! cn = Some l ->
  loaded_document (PDict CONTROLNET_DEFAULT_SETTINGS) l = PDict items ->
  exists (width height : Z) (w' : world),
    get_control_net_params (Some cn) w
    = (Ok (PDict
             (let with_image :=
                dict_setitem (KStr "input_image")
                  (PStr (file_save_layer (layer64_of l width height))) items in
              match l_mask l with
              | Some m =>
                  dict_setitem (KStr "mask")
                    (PStr (file_save_mask (Scaled m width height))) with_image
              | None => with_image
              end)), w') /\
    w_layers w'
    = <[fresh (dom (w_layers w)) := with_attached false (layer64_of l width height)]>
        (w_layers w).
Proof.
  intros Hl Hd.
  destruct (get_control_net_params_steps cn l w (PDict items) Hl Hd eq_refl)
    as (width & height & dup & w4 & Hwidth & Hheight & Hdup & Hw4 & ->).
  assert (Hh4 : w_layers w4 !! ll_layer dup = Some (layer64_of l width height)).
  { rewrite Hw4. apply lookup_insert_eq. }
  assert (Hlayers :
            w_layers (set_layers (alter (with_attached false) (ll_layer dup)) w4)
            = <[fresh (dom (w_layers w))
                := with_attached false (layer64_of l width height)]> (w_layers w)).
  { cbn [w_layers set_layers]. rewrite Hw4, alter_insert_eq, Hdup. reflexivity. }
  exists width, height. cbn [py_update]. unfold lift at 1. unfold bind at 1.
  destruct (l_mask l) as [m|] eqn:Hm.
  - assert (Hm4 : l_mask (layer64_of l width height) = Some (Scaled m width height)).
    { cbn. rewrite Hm. reflexivity. }
    rewrite (bind_run _ _ _ _ _
               (bind_run _ _ _ _ _
                  (LayerLocal_mask_to_base64_run dup _ _ w4 Hh4 Hm4))).
    unfold LayerLocal_remove.
    rewrite (bind_run _ _ _ _ _ (LayerLocal_attach_run dup false _ w4 Hh4)).
    eexists. split; [reflexivity|exact Hlayers].
  - unfold ret at 1. unfold bind at 1. unfold LayerLocal_remove.
    rewrite (bind_run _ _ _ _ _ (LayerLocal_attach_run dup false _ w4 Hh4)).
    eexists. split; [reflexivity|exact Hlayers].
Qed.

Lemma cn_settings_of_run (a : control_layer_args) (cn_models : list pyval)
    (module model resize : string) (w : world) :
  w_data w !! "cn_models" = Some (PList cn_models) ->
  py_getitem CONTROLNET_MODULES (module_index a) = Ok module ->
  py_getitem cn_models (model_index a) = Ok (PStr model) ->
  py_getitem CONTROLNET_RESIZE_MODES (resize_mode_index a) = Ok resize ->
  cn_settings_of a w
  = (Ok (PDict
           [ (KStr "module", PStr module);
             (KStr "model", PStr model);
             (KStr "weight", PFloat (weight a));
             (KStr "resize_mode", PStr resize);
             (KStr "lowvram", PBool (low_vram a));
             (KStr "control_mode", control_mode a);
             (KStr "guidance_start", PFloat (guidance_start a));
             (KStr "guidance_end", PFloat (guidance_end a));
             (KStr "guidance", PFloat (guidance a));
             (KStr "processor_res", PFloat (processor_res a));
             (KStr "threshold_a", PFloat (threshold_a a));
             (KStr "threshold_b", PFloat (threshold_b a)) ]), w).
Proof.
  intros Hm Hmod Hmodel Hres. unfold cn_settings_of. run_monad.
  rewrite Hm, Hmod. cbn [py_getitem_int]. rewrite Hmodel, Hres. reflexivity.
Qed.

(** X16. What [save_control_layer] writes on a layer is what
    [get_control_net_params] sends for it. With the three indices in
    range, the layer is renamed [ControlNet] followed by the number of
    the wrapper and keeps its pixels and mask; the unit extracted from
    it afterwards holds the module, model and resize mode named by the
    indices and the values of the dialog as they were given, these
    twelve settings in the order of their names, in which they were
    written on the layer, then the image under [input_image] and a mask
    only when the layer has one. It holds none of the default control
    settings. *)
Theorem control_layer_round_trip (a : control_layer_args) (h : nat) (l : layer)
    (cn_models : list pyval) (module model resize : string) (w : world) :
  w_layers w !! h = Some l ->
  w_data w !! "cn_models" = Some (PList cn_models) ->
  py_getitem CONTROLNET_MODULES (module_index a) = Ok module ->
  py_getitem cn_models (model_index a) = Ok (PStr model) ->
  py_getitem CONTROLNET_RESIZE_MODES (resize_mode_index a) = Ok resize ->
  json_keeps (control_mode a) ->
  exists (w1 w2 : world) (named : layer) (unit : list (pykey * pyval)),
    save_control_layer (Some h) a w = (Ok tt, w1) /\
    w_layers w1 = <[h := named]> (w_layers w) /\
    l_name named = "ControlNet" +:+ pretty (w_layer_count w) /\
    l_pixels named = l_pixels l /\ l_mask named = l_mask l /\
    get_control_net_params (Some h) w1 = (Ok (PDict unit), w2) /\
    map fst unit
    = map KStr ([ "control_mode"; "guidance"; "guidance_end"; "guidance_start";
                  "lowvram"; "model"; "module"; "processor_res"; "resize_mode";
                  "threshold_a"; "threshold_b"; "weight"; "input_image" ]
                ++ match l_mask l with Some _ => ["mask"] | None => [] end) /\
    dict_get (KStr "module") unit = Some (PStr module) /\
    dict_get (KStr "model") unit = Some (PStr model) /\
    dict_get (KStr "weight") unit = Some (PFloat (weight a)) /\
    dict_get (KStr "resize_mode") unit = Some (PStr resize) /\
    dict_get (KStr "lowvram") unit = Some (PBool (low_vram a)) /\
    dict_get (KStr "control_mode") unit = Some (control_mode a) /\
    dict_get (KStr "guidance_start") unit = Some (PFloat (guidance_start a)) /\
    dict_get (KStr "guidance_end") unit = Some (PFloat (guidance_end a)) /\
    dict_get (KStr "guidance") unit = Some (PFloat (guidance a)) /\
    dict_get (KStr "processor_res") unit = Some (PFloat (processor_res a)) /\
    dict_get (KStr "threshold_a") unit = Some (PFloat (threshold_a a)) /\
    dict_get (KStr "threshold_b") unit = Some (PFloat (threshold_b a)).
Proof.
  intros Hl Hm Hmod Hmodel Hres Hcm.
  unfold save_control_layer.
  rewrite (bind_run _ _ _ _ _ (cn_settings_of_run a cn_models module model resize w
                                 Hm Hmod Hmodel Hres)).
  match goal with |- context [PDict ?d] => set (items := d) end.
  assert (Hitems : str_dict items).
  { split.
    - repeat constructor; eexists; reflexivity.
    - repeat (apply NoDup_cons; split;
              [intros Hin;
               repeat (apply elem_of_cons in Hin as [Hin|Hin]; [discriminate Hin|]);
               apply elem_of_nil in Hin; exact Hin|]).
      apply NoDup_nil. exact I. }
  assert (Hvalues : Forall (fun kv => json_keeps (snd kv)) items).
  { repeat constructor. exact Hcm. }
  pose proof (json_value_str_dict items Hitems Hvalues) as Hj.
  set (settings := PDict (sorted_items items)) in *.
  rewrite (bind_run _ _ _ _ _ (LayerLocal_init_run h l w Hl)).
  set (cn_layer := {| ll_id := w_layer_count w; ll_layer := h |}).
  set (w0 := set_layer_count _ w).
  assert (Hl0 : w_layers w0 !! ll_layer cn_layer = Some l) by exact Hl.
  rewrite (bind_run _ _ _ _ _
             (LayerLocal_save_data_run cn_layer (PDict items) settings l w0 Hl0 Hj)).
  set (w0' := set_layers _ w0).
  assert (Hl0' : w_layers w0' !! ll_layer cn_layer = Some (with_parasite (Some settings) l)).
  { subst w0'. cbn [w_layers set_layers]. rewrite lookup_alter_eq, Hl0. reflexivity. }
  rewrite (bind_run _ _ _ _ _ (LayerLocal_rename_run cn_layer _ _ w0' Hl0')).
  set (w1 := set_layers _ w0').
  set (named := with_name ("ControlNet" +:+ pretty (w_layer_count w))
                  (with_parasite (Some settings) l)).
  assert (Hw1 : w_layers w1 = <[h := named]> (w_layers w)).
  { subst w1 w0' w0. cbn [w_layers set_layers set_layer_count ll_layer cn_layer ll_id].
    apply map_eq. intros h'. destruct (decide (h' = h)) as [->|Hne].
    - rewrite !lookup_alter_eq, lookup_insert_eq, Hl. reflexivity.
    - rewrite !lookup_alter_ne, lookup_insert_ne by congruence. reflexivity. }
  assert (Hl1 : w_layers w1 !! h = Some named) by (rewrite Hw1; apply lookup_insert_eq).
  assert (Hdoc : loaded_document (PDict CONTROLNET_DEFAULT_SETTINGS) named
                 = settings).
  { unfold loaded_document. cbn [l_parasite named with_name with_parasite].
    exact (json_value_strings _ _ Hj). }
  destruct (get_control_net_params_data h named w1 _ Hl1 Hdoc)
    as (width & height & w2 & Hrun & _).
  exists w1, w2, named. eexists.
  split; [reflexivity|]. split; [exact Hw1|]. split; [reflexivity|].
  split; [reflexivity|]. split; [reflexivity|].
  split; [exact Hrun|]. cbn [l_mask named with_name with_parasite].
  destruct (l_mask l); vm_compute; repeat split.
Qed.

End ControlLayer.

Lemma control_layer_round_trip_witness :
  exists (w1 w2 : world) (named : layer) (unit : list (pykey * pyval)),
    @save_control_layer (Some 0%nat) sample_control_args sample_control_world
    = (Ok tt, w1) /\
    w_layers w1 = <[0%nat := named]> (w_layers sample_control_world) /\
    l_name named = "ControlNet" +:+ pretty (w_layer_count sample_control_world) /\
    l_pixels named = l_pixels sample_layer /\ l_mask named = l_mask sample_layer /\
    @get_control_net_params sample_host (Some 0%nat) w1 = (Ok (PDict unit), w2) /\
    map fst unit
    = map KStr ([ "control_mode"; "guidance"; "guidance_end"; "guidance_start";
                  "lowvram"; "model"; "module"; "processor_res"; "resize_mode";
                  "threshold_a"; "threshold_b"; "weight"; "input_image" ]
                ++ match l_mask sample_layer with Some _ => ["mask"] | None => [] end) /\
    dict_get (KStr "module") unit = Some (PStr "canny") /\
    dict_get (KStr "model") unit = Some (PStr "control_v11p_sd15_canny") /\
    dict_get (KStr "weight") unit = Some (PFloat (weight sample_control_args)) /\
    dict_get (KStr "resize_mode") unit = Some (PStr "Scale to Fit (Inner Fit)") /\
    dict_get (KStr "lowvram") unit = Some (PBool (low_vram sample_control_args)) /\
    dict_get (KStr "control_mode") unit = Some (control_mode sample_control_args) /\
    dict_get (KStr "guidance_start") unit
    = Some (PFloat (guidance_start sample_control_args)) /\
    dict_get (KStr "guidance_end") unit = Some (PFloat (guidance_end sample_control_args)) /\
    dict_get (KStr "guidance") unit = Some (PFloat (guidance sample_control_args)) /\
    dict_get (KStr "processor_res") unit
    = Some (PFloat (processor_res sample_control_args)) /\
    dict_get (KStr "threshold_a") unit = Some (PFloat (threshold_a sample_control_args)) /\
    dict_get (KStr "threshold_b") unit = Some (PFloat (threshold_b sample_control_args)).
Proof.
  apply (@control_layer_round_trip sample_host sample_control_args 0%nat sample_layer
           sample_cn_models "canny" "control_v11p_sd15_canny" "Scale to Fit (Inner Fit)"
           sample_control_world); reflexivity.
Defined.

(** ** The layers of a response, resized *)

Lemma LayerLocal_resize_run (self : LayerLocal) (width height : Z) (l : layer)
    (w : world) :
  w_layers w !! ll_layer self = Some l ->
  exists w' : world,
    LayerLocal_resize self width height w = (Ok tt, w') /\
    w_layers w' = alter (layer_scale width height) (ll_layer self) (w_layers w).
Proof.
  intros Hl. unfold LayerLocal_resize, LOGGER. unfold bind at 1. unfold modify at 1.
  eexists. split.
  - apply update_layer_run with (l := l). exact Hl.
  - reflexivity.
Qed.

Lemma for_in_resize_run (width height : Z) (hs : list nat) (w : world) :
  Forall (fun h => is_Some (w_layers w !! h)) hs ->
  NoDup hs ->
  exists w' : world,
    for_in hs (fun layer =>
                 layer_local <- LayerLocal_init layer ;;
                 LayerLocal_resize layer_local width height) w
    = (Ok tt, w') /\
    forall h : nat,
      w_layers w' !! h
      = if decide (h ∈ hs) then layer_scale width height <$> w_layers w !! h
        else w_layers w !! h.
Proof.
  revert w. induction hs as [|h0 hs IH]; intros w Hall Hnd.
  - exists w. split; [reflexivity|]. intros h.
    destruct (decide (h ∈ [])) as [Hin|_]; [|reflexivity].
    apply elem_of_nil in Hin. destruct Hin.
  - apply Forall_cons in Hall as [[l0 Hl0] Hall].
    apply NoDup_cons in Hnd as [Hnotin Hnd].
    cbn [for_in].
    set (w1 := set_layer_count (w_layer_count w + 1) w).
    destruct (LayerLocal_resize_run {| ll_id := w_layer_count w; ll_layer := h0 |}
                width height l0 w1 Hl0) as (w2 & Hres & Hw2).
    cbn [ll_layer] in Hw2. change (w_layers w1) with (w_layers w) in Hw2.
    destruct (IH w2) as (w' & Hrun & Hlayers); [|exact Hnd|].
    { eapply Forall_impl; [exact Hall|]. intros h [l Hl]. rewrite Hw2.
      destruct (decide (h = h0)) as [->|Hne].
      - rewrite lookup_alter_eq, Hl. eexists. reflexivity.
      - rewrite lookup_alter_ne by congruence. eauto. }
    exists w'. split.
    + assert (Hbody : (layer_local <- LayerLocal_init h0 ;;
                       LayerLocal_resize layer_local width height) w = (Ok tt, w2)).
      { rewrite (bind_run _ _ _ _ _ (LayerLocal_init_run h0 l0 w Hl0)). exact Hres. }
      cbn beta. rewrite (bind_run _ _ _ _ _ Hbody). exact Hrun.
    + intros h. rewrite Hlayers, Hw2.
      destruct (decide (h = h0)) as [->|Hne].
      * rewrite lookup_alter_eq.
        destruct (decide (h0 ∈ hs)) as [Hin|_]; [destruct (Hnotin Hin)|].
        destruct (decide (h0 ∈ h0 :: hs)) as [_|Hn]; [reflexivity|].
        destruct Hn. apply elem_of_cons. left. reflexivity.
      * rewrite lookup_alter_ne by congruence.
        destruct (decide (h ∈ hs)) as [Hin|Hnin];
          destruct (decide (h ∈ h0 :: hs)) as [Hin'|Hnin']; try reflexivity.
        -- destruct Hnin'. apply elem_of_cons. right. exact Hin.
        -- apply elem_of_cons in Hin' as [->|Hin']; [destruct (Hne eq_refl)|].
           destruct (Hnin Hin').
Qed.

Lemma ResponseLayers_resize_run (hs : list nat) (width height : Z) (w : world) :
  Forall (fun h => is_Some (w_layers w !! h)) hs ->
  NoDup hs ->
  exists w' : world,
    ResponseLayers_resize hs width height w = (Ok hs, w') /\
    forall h : nat,
      w_layers w' !! h
      = if decide (h ∈ hs) then layer_scale width height <$> w_layers w !! h
        else w_layers w !! h.
Proof.
  intros Hall Hnd.
  destruct (for_in_resize_run width height hs w Hall Hnd) as (w' & Hrun & Hlayers).
  exists w'. split; [|exact Hlayers].
  unfold ResponseLayers_resize. rewrite (bind_run _ _ _ _ _ Hrun). reflexivity.
Qed.

Lemma allocated_altered (w w1 w2 : world) (hs : list nat) (ls : list layer)
    (f : layer -> layer) :
  allocated w w1 hs ls ->
  (forall h : nat,
      w_layers w2 !! h
      = if decide (h ∈ hs) then f <$> w_layers w1 !! h else w_layers w1 !! h) ->
  allocated w w2 hs (map f ls).
Proof.
  intros (Hheld & Hnew & Hnd & Hrest) Hw2.
  split; [|split; [exact Hnew|split; [exact Hnd|]]].
  - apply Forall2_fmap_r.
    assert (Hpart : forall (hs' : list nat) (ls' : list layer),
               Forall2 (fun h l => w_layers w1 !! h = Some l) hs' ls' ->
               Forall (fun h => h ∈ hs) hs' ->
               Forall2 (fun h l => w_layers w2 !! h = Some (f l)) hs' ls').
    { intros hs' ls' Hheld'. induction Hheld' as [|h l hs' ls' Hl Hheld' IH];
        intros Hin; [constructor|].
      apply Forall_cons in Hin as [Hh Hin]. constructor; [|exact (IH Hin)].
      rewrite Hw2. destruct (decide (h ∈ hs)) as [_|Hn]; [|destruct (Hn Hh)].
      rewrite Hl. reflexivity. }
    apply Hpart; [exact Hheld|]. apply Forall_forall. auto.
  - intros h Hn. rewrite Hw2.
    destruct (decide (h ∈ hs)) as [Hin|_]; [destruct (Hn Hin)|].
    apply Hrest, Hn.
Qed.

Section ResizedLayers.
Context `{GimpHost}.

Lemma ResponseLayers_init_allocates (r : generation_response)
    (o : gmap string pyval) (w : world) :
  length (infotexts r) = length (all_seeds r) ->
  (length (all_seeds r) <= length (images r))%nat ->
  Forall loads (if annotator_layers_wanted o then images r
                else take (length (all_seeds r)) (images r)) ->
  exists (hs : list nat) (w' : world),
    ResponseLayers_init (Some r) (Some o) w = (Ok hs, w') /\
    allocated w w' hs
      (provenance_layers r ++ if annotator_layers_wanted o then annotator_layers r else []).
Proof.
  intros Hinfo Hlen Hload. unfold ResponseLayers_init.
  assert (Hload1 : Forall loads (take (length (all_seeds r)) (images r))).
  { destruct (annotator_layers_wanted o); [apply Forall_take|]; exact Hload. }
  replace (for_each (response_layer r o) 0 (images r) [] w)
    with (for_each (response_layer r o) 0
            (take (length (all_seeds r)) (images r)
             ++ drop (length (all_seeds r)) (images r)) [] w)
    by (rewrite take_drop; reflexivity).
  rewrite for_each_app.
  destruct (for_each_generated r o (take (length (all_seeds r)) (images r))
              (all_seeds r) (infotexts r) 0 [] w eq_refl eq_refl)
    as (generated & w1 & -> & Hgen);
    [rewrite length_take; lia|congruence|exact Hload1|].
  cbn [app]. rewrite length_take, Nat.min_l by exact Hlen. cbn [Nat.add].
  destruct (annotator_layers_wanted o) eqn:Ew.
  - destruct (for_each_annotators r o (drop (length (all_seeds r)) (images r))
                (length (all_seeds r)) generated w1 (le_n _) Ew)
      as (annotators & w' & -> & Hann); [apply Forall_drop, Hload|].
    exists (generated ++ annotators), w'. split; [reflexivity|].
    apply (allocated_app w w1 w'); assumption.
  - rewrite (for_each_skipped r o _ _ generated w1 (le_n _) Ew).
    rewrite app_nil_r.
    destruct (drop (length (all_seeds r)) (images r)); eexists _, _;
      (split; [reflexivity|]); exact Hgen.
Qed.

(** X17. The expression that ends [image_to_image] and [inpainting],
    the layers of the response resized. For a response with as many
    info texts as seeds and at least as many images, every layer it
    makes has the requested width and height, in the layer and in its
    pixels: one tagged layer for each seed and, unless the skip option
    is true, one annotator layer for each image left, when the images
    that are to become layers load; every other layer object is as it
    was. When an image that is to become a layer does not load, the
    layers of the images before it are the layers made and resized, and
    nothing is raised. When [post] gave [None] no layer is made or
    changed and nothing is raised: the failure is only logged. *)
Theorem response_layers_resized (cn_skip_annotator_layers : pyval)
    (orig_width orig_height : Z) (w : world) :
  (forall r : generation_response,
      length (infotexts r) = length (all_seeds r) ->
      (length (all_seeds r) <= length (images r))%nat ->
      Forall loads (if truthy cn_skip_annotator_layers
                    then take (length (all_seeds r)) (images r) else images r) ->
      exists (hs : list nat) (w' : world),
        resized_response_layers (Some r) cn_skip_annotator_layers orig_width
          orig_height w = (Ok hs, w') /\
        allocated w w' hs
          (map (layer_scale orig_width orig_height)
             (provenance_layers r
              ++ if truthy cn_skip_annotator_layers then [] else annotator_layers r))) /\
  (forall (r : generation_response) (before : list string) (image : string)
          (after : list string),
      length (infotexts r) = length (all_seeds r) ->
      images r = before ++ image :: after ->
      Forall loads before ->
      ~ loads image ->
      (length before < length (all_seeds r))%nat ->
      exists (hs : list nat) (w' : world),
        resized_response_layers (Some r) cn_skip_annotator_layers orig_width
          orig_height w = (Ok hs, w') /\
        length hs = length before /\
        allocated w w' hs
          (map (layer_scale orig_width orig_height)
             (take (length before) (provenance_layers r)))) /\
  (forall (r : generation_response) (before : list string) (image : string)
          (after : list string),
      length (infotexts r) = length (all_seeds r) ->
      images r = before ++ image :: after ->
      Forall loads before ->
      ~ loads image ->
      (length (all_seeds r) <= length before)%nat ->
      truthy cn_skip_annotator_layers = false ->
      exists (hs : list nat) (w' : world),
        resized_response_layers (Some r) cn_skip_annotator_layers orig_width
          orig_height w = (Ok hs, w') /\
        length hs = length before /\
        allocated w w' hs
          (map (layer_scale orig_width orig_height)
             (provenance_layers r
              ++ take (length before - length (all_seeds r)) (annotator_layers r)))) /\
  exists w' : world,
    resized_response_layers None cn_skip_annotator_layers orig_width orig_height w
    = (Ok [], w') /\
    w_layers w' = w_layers w /\
    w_log w' = w_log w ++ [(LogException, "ResponseLayers")].
Proof.
  assert (Hresize : forall (hs : list nat) (ls : list layer) (w1 : world),
            allocated w w1 hs ls ->
            exists w' : world,
              ResponseLayers_resize hs orig_width orig_height w1 = (Ok hs, w') /\
              allocated w w' hs (map (layer_scale orig_width orig_height) ls)).
  { intros hs ls w1 Halloc.
    destruct (ResponseLayers_resize_run hs orig_width orig_height w1)
      as (w' & Hrun & Hlayers).
    { apply Forall_forall. intros h Hh. exact (allocated_held w w1 hs _ h Halloc Hh). }
    { destruct Halloc as (_ & _ & Hnd & _). exact Hnd. }
    exists w'. split; [exact Hrun|].
    exact (allocated_altered w w1 w' hs _ _ Halloc Hlayers). }
  split; [|split; [|split]].
  - intros r Hinfo Hlen Hload. unfold resized_response_layers.
    assert (Hwanted : annotator_layers_wanted
                        ({[ "skip_annotator_layers" := cn_skip_annotator_layers ]}
                           : gmap string pyval)
                      = negb (truthy cn_skip_annotator_layers)).
    { unfold annotator_layers_wanted. rewrite lookup_singleton_eq. reflexivity. }
    destruct (ResponseLayers_init_allocates r
                {[ "skip_annotator_layers" := cn_skip_annotator_layers ]} w Hinfo Hlen)
      as (hs & w1 & Hinit & Halloc).
    { rewrite Hwanted. destruct (truthy cn_skip_annotator_layers); exact Hload. }
    rewrite Hwanted in Halloc.
    rewrite (bind_run _ _ _ _ _ Hinit).
    destruct (Hresize hs _ w1 Halloc) as (w' & Hrun & Hall).
    exists hs, w'. split; [exact Hrun|].
    replace (if truthy cn_skip_annotator_layers then [] else annotator_layers r)
      with (if negb (truthy cn_skip_annotator_layers) then annotator_layers r else [])
      by (destruct (truthy cn_skip_annotator_layers); reflexivity).
    exact Hall.
  - intros r before image after Hinfo Himages Hbefore Himage Hlt.
    unfold resized_response_layers.
    destruct (ResponseLayers_init_stops r
                (Some {[ "skip_annotator_layers" := cn_skip_annotator_layers ]}) w
                before image after Hinfo Himages Hbefore Himage Hlt)
      as (hs & w1 & Hinit & Hlength & Halloc).
    rewrite (bind_run _ _ _ _ _ Hinit).
    destruct (Hresize hs _ w1 Halloc) as (w' & Hrun & Hall).
    exists hs, w'. split; [exact Hrun|]. split; [exact Hlength|exact Hall].
  - intros r before image after Hinfo Himages Hbefore Himage Hge Hskip.
    unfold resized_response_layers.
    destruct (ResponseLayers_init_stops_at_annotator r
                (Some {[ "skip_annotator_layers" := cn_skip_annotator_layers ]}) w
                before image after Hinfo Himages Hbefore Himage Hge)
      as (generated & annotators & w1 & Hinit & Hglen & Halen & Halloc).
    { unfold insert_requested. rewrite lookup_singleton_eq, Hskip. reflexivity. }
    rewrite (bind_run _ _ _ _ _ Hinit).
    destruct (Hresize _ _ w1 Halloc) as (w' & Hrun & Hall).
    exists (generated ++ annotators), w'. split; [exact Hrun|].
    split; [rewrite length_app; lia|exact Hall].
  - eexists. split; [reflexivity|]. split; reflexivity.
Qed.

(** ** The layer that image_to_image sends *)

(** X18. [get_layer_as_base64] returns the encoding of a copy of the
    layer taken while the copy is in the document: the copy has the size
    of the layer (nothing is rounded here) and the name of the layer
    followed by [ copy]. On return the copy is out of the document
    again, as a new object; the layer itself and the layers of the
    document are as they were, and two wrappers have been counted. *)
Theorem layer_encoding_frame (h0 : nat) (l : layer) (w : world) :
  w_layers w !! h0 = Some l ->
  exists w' : world,
    get_layer_as_base64 h0 w
    = (Ok (file_save_layer (with_attached true (layer_copy l))), w') /\
    w_layers w' = <[fresh (dom (w_layers w)) := layer_copy l]> (w_layers w) /\
    w_layers w !! fresh (dom (w_layers w)) = None /\
    w_layers w' !! h0 = Some l /\
    attached_layers w' = attached_layers w /\
    w_layer_count w' = (w_layer_count w + 2)%Z.
Proof.
  intros Hl. unfold get_layer_as_base64.
  rewrite (bind_run _ _ _ _ _ (LayerLocal_init_run h0 l w Hl)).
  set (source := {| ll_id := w_layer_count w; ll_layer := h0 |}).
  set (w1 := set_layer_count _ w).
  assert (Hl1 : w_layers w1 !! ll_layer source = Some l) by exact Hl.
  rewrite (bind_run _ _ _ _ _ (LayerLocal_copy_run source l w1 Hl1)).
  change (w_layers w1) with (w_layers w).
  set (h := fresh (dom (w_layers w))).
  set (dup := {| ll_id := w_layer_count w1; ll_layer := h |}).
  set (w2 := set_layer_count _ (set_layers _ w1)).
  assert (Hh2 : w_layers w2 !! ll_layer dup = Some (layer_copy l))
    by apply lookup_insert_eq.
  unfold LayerLocal_insert.
  rewrite (bind_run _ _ _ _ _ (LayerLocal_attach_run dup true _ w2 Hh2)).
  set (w3 := set_layers _ w2).
  assert (Hh3 : w_layers w3 !! ll_layer dup = Some (with_attached true (layer_copy l))).
  { subst w3. cbn [w_layers set_layers]. rewrite lookup_alter_eq, Hh2. reflexivity. }
  rewrite (bind_run _ _ _ _ _ (LayerLocal_to_base64_run dup _ w3 Hh3)).
  unfold LayerLocal_remove.
  rewrite (bind_run _ _ _ _ _ (LayerLocal_attach_run dup false _ w3 Hh3)).
  pose proof (fresh_layer_unused w) as Hfresh. fold h in Hfresh.
  assert (Hlayers : w_layers (set_layers (alter (with_attached false) (ll_layer dup)) w3)
                    = <[h := layer_copy l]> (w_layers w)).
  { subst w3 w2 w1. cbn [w_layers set_layers set_layer_count ll_layer dup].
    rewrite !alter_insert_eq. reflexivity. }
  eexists. split; [reflexivity|]. split; [exact Hlayers|]. split; [exact Hfresh|].
  split; [|split].
  - rewrite Hlayers, lookup_insert_ne; [exact Hl|]. intros E.
    rewrite E in Hfresh. congruence.
  - unfold attached_layers. rewrite Hlayers.
    apply map_filter_insert_not'.
    + cbn. discriminate.
    + intros y Hy. rewrite Hfresh in Hy. discriminate Hy.
  - cbn. lia.
Qed.

(** ** The control units of a request *)

Lemma dict_parasite_loaded (l : layer) :
  dict_parasite l ->
  exists items, loaded_document (PDict CONTROLNET_DEFAULT_SETTINGS) l = PDict items.
Proof.
  unfold loaded_document. intros [-> | [items ->]]; eexists; reflexivity.
Qed.

Lemma attached_layers_detached (w w' : world) (l : layer) :
  w_layers w' = <[fresh (dom (w_layers w)) := l]> (w_layers w) ->
  l_attached l = false ->
  attached_layers w' = attached_layers w.
Proof.
  intros Hw' Hl. unfold attached_layers. rewrite Hw'.
  apply map_filter_insert_not'.
  - cbn. rewrite Hl. discriminate.
  - intros y Hy. rewrite fresh_layer_unused in Hy. discriminate Hy.
Qed.

(** X19. The control units of a request. With no unit enabled the data
    are sent as they are. With both enabled, on layers that carry no
    document or a dictionary, the data get one more entry,
    [alwayson_scripts], holding the unit of layer 1 and then the unit of
    layer 2, each with its image rounded to multiples of 64; every other
    entry keeps its value, and after the two extractions the two layers
    and the layers of the document are as they were. A unit that is
    enabled while its layer is [None] is put in the list as [None]
    ([image_to_image] refuses such a call before it gets here). *)
Theorem controlnet_units_attached (data : list (pykey * pyval)) (w : world) :
  (forall cn1_layer cn2_layer : option nat,
      with_controlnet_units data false cn1_layer false cn2_layer w = (Ok data, w)) /\
  (exists d : list (pykey * pyval),
      with_controlnet_units data true None false None w = (Ok d, w) /\
      dict_get (KStr "alwayson_scripts") d
      = Some (PDict [(KStr "controlnet", PDict [(KStr "args", PList [PNone])])])) /\
  (forall (cn1_layer cn2_layer : nat) (l1 l2 : layer),
      w_layers w !! cn1_layer = Some l1 ->
      w_layers w !! cn2_layer = Some l2 ->
      dict_parasite l1 -> dict_parasite l2 ->
      exists (unit1 unit2 : list (pykey * pyval)) (width1 height1 width2 height2 : Z)
             (d : list (pykey * pyval)) (w' : world),
        with_controlnet_units data true (Some cn1_layer) true (Some cn2_layer) w
        = (Ok d, w') /\
        dict_get (KStr "alwayson_scripts") d
        = Some (PDict [(KStr "controlnet",
                        PDict [(KStr "args", PList [PDict unit1; PDict unit2])])]) /\
        (forall key : string,
            key <> "alwayson_scripts" ->
            dict_get (KStr key) d = dict_get (KStr key) data) /\
        dict_get (KStr "input_image") unit1
        = Some (PStr (file_save_layer (layer64_of l1 width1 height1))) /\
        dict_get (KStr "input_image") unit2
        = Some (PStr (file_save_layer (layer64_of l2 width2 height2))) /\
        (width1 mod 64 = 0 /\ height1 mod 64 = 0 /\
         width2 mod 64 = 0 /\ height2 mod 64 = 0)%Z /\
        attached_layers w' = attached_layers w /\
        w_layers w' !! cn1_layer = Some l1 /\ w_layers w' !! cn2_layer = Some l2).
Proof.
  split; [reflexivity|]. split.
  { eexists. split; [reflexivity|]. apply dict_get_setitem. }
  intros cn1_layer cn2_layer l1 l2 Hl1 Hl2 Hp1 Hp2.
  destruct (dict_parasite_loaded l1 Hp1) as [items1 Hd1].
  destruct (dict_parasite_loaded l2 Hp2) as [items2 Hd2].
  destruct (get_control_net_params_run cn1_layer l1 w items1 Hl1 Hd1)
    as (width1 & height1 & unit1 & w1 & Hw1 & Hh1 & Hrun1 & Hlayers1 & Himage1 & _).
  assert (Hne1 : forall h l, w_layers w !! h = Some l -> fresh (dom (w_layers w)) <> h).
  { intros h l Hh E. pose proof (fresh_layer_unused w) as Hf. rewrite E in Hf.
    congruence. }
  assert (Hl2' : w_layers w1 !! cn2_layer = Some l2).
  { rewrite Hlayers1, lookup_insert_ne by (eapply Hne1; exact Hl2). exact Hl2. }
  assert (Hl1' : w_layers w1 !! cn1_layer = Some l1).
  { rewrite Hlayers1, lookup_insert_ne by (eapply Hne1; exact Hl1). exact Hl1. }
  destruct (get_control_net_params_run cn2_layer l2 w1 items2 Hl2' Hd2)
    as (width2 & height2 & unit2 & w2 & Hw2 & Hh2 & Hrun2 & Hlayers2 & Himage2 & _).
  assert (Hne2 : forall h l, w_layers w1 !! h = Some l -> fresh (dom (w_layers w1)) <> h).
  { intros h l Hh E. pose proof (fresh_layer_unused w1) as Hf. rewrite E in Hf.
    congruence. }
  exists unit1, unit2, width1, height1, width2, height2. eexists. exists w2.
  split.
  { unfold with_controlnet_units, controlnet_units_of, bind, ret.
    rewrite Hrun1, Hrun2. reflexivity. }
  split; [apply dict_get_setitem|].
  split.
  { intros key Hk. unfold dict_update. cbn [fold_left fst snd].
    apply dict_get_setitem_str_ne. exact Hk. }
  split; [exact Himage1|]. split; [exact Himage2|].
  split.
  { destruct (round_to_multiple_near (py_float (l_width l1)) 64)
      as (v1 & E1 & M1 & _); [lia|].
    destruct (round_to_multiple_near (py_float (l_height l1)) 64)
      as (v2 & E2 & M2 & _); [lia|].
    destruct (round_to_multiple_near (py_float (l_width l2)) 64)
      as (v3 & E3 & M3 & _); [lia|].
    destruct (round_to_multiple_near (py_float (l_height l2)) 64)
      as (v4 & E4 & M4 & _); [lia|].
    rewrite Hw1 in E1. rewrite Hh1 in E2. rewrite Hw2 in E3. rewrite Hh2 in E4.
    injection E1 as <-. injection E2 as <-. injection E3 as <-. injection E4 as <-.
    repeat split; assumption. }
  split.
  { rewrite (attached_layers_detached w1 w2 _ Hlayers2 eq_refl).
    apply (attached_layers_detached w w1 _ Hlayers1 eq_refl). }
  split.
  - rewrite Hlayers2, lookup_insert_ne by (eapply Hne2; exact Hl1'). exact Hl1'.
  - rewrite Hlayers2, lookup_insert_ne by (eapply Hne2; exact Hl2'). exact Hl2'.
Qed.

End ResizedLayers.

Lemma response_layers_resized_witness :
  exists (hs : list nat) (w' : world),
    @resized_response_layers sample_host (Some sample_response) (PBool false) 512 768
      sample_world = (Ok hs, w') /\
    allocated sample_world w' hs
      (map (layer_scale 512 768)
         (@provenance_layers sample_host sample_response
          ++ if truthy (PBool false) then []
             else @annotator_layers sample_host sample_response)).
Proof.
  apply (proj1 (@response_layers_resized sample_host (PBool false) 512 768
                  sample_world) sample_response).
  - reflexivity.
  - cbn. lia.
  - repeat constructor.
Defined.

Lemma layer_encoding_frame_witness :
  exists w' : world,
    @get_layer_as_base64 sample_host 0%nat sample_document
    = (Ok (@file_save_layer sample_host (with_attached true (layer_copy sample_layer))),
       w') /\
    w_layers w'
    = <[fresh (dom (w_layers sample_document)) := layer_copy sample_layer]>
        (w_layers sample_document) /\
    w_layers sample_document !! fresh (dom (w_layers sample_document)) = None /\
    w_layers w' !! 0%nat = Some sample_layer /\
    attached_layers w' = attached_layers sample_document /\
    w_layer_count w' = (w_layer_count sample_document + 2)%Z.
Proof.
  apply (@layer_encoding_frame sample_host 0%nat sample_layer sample_document).
  reflexivity.
Defined.

Lemma controlnet_units_attached_witness :
  exists (unit1 unit2 : list (pykey * pyval)) (width1 height1 width2 height2 : Z)
         (d : list (pykey * pyval)) (w' : world),
    @with_controlnet_units sample_host [(KStr "prompt", PStr "a cat")]
      true (Some 0%nat) true (Some 0%nat) sample_document = (Ok d, w') /\
    dict_get (KStr "alwayson_scripts") d
    = Some (PDict [(KStr "controlnet",
                    PDict [(KStr "args", PList [PDict unit1; PDict unit2])])]) /\
    (forall key : string,
        key <> "alwayson_scripts" ->
        dict_get (KStr key) d = dict_get (KStr key) [(KStr "prompt", PStr "a cat")]) /\
    dict_get (KStr "input_image") unit1
    = Some (PStr (@file_save_layer sample_host (layer64_of sample_layer width1 height1))) /\
    dict_get (KStr "input_image") unit2
    = Some (PStr (@file_save_layer sample_host (layer64_of sample_layer width2 height2))) /\
    (width1 mod 64 = 0 /\ height1 mod 64 = 0 /\
     width2 mod 64 = 0 /\ height2 mod 64 = 0)%Z /\
    attached_layers w' = attached_layers sample_document /\
    w_layers w' !! 0%nat = Some sample_layer /\ w_layers w' !! 0%nat = Some sample_layer.
Proof.
  apply (proj2 (proj2 (@controlnet_units_attached sample_host
                         [(KStr "prompt", PStr "a cat")] sample_document))
           0%nat 0%nat sample_layer sample_layer);
    try reflexivity; left; reflexivity.
Defined.

(** ** The populators of a procedure *)

Lemma mapping_lookup_None {A : Type} (pairs : list (string * A)) (name : string) :
  ~ In name (map fst pairs) -> mapping_lookup pairs name = None.
Proof.
  induction pairs as [|[key value] pairs IH]; [reflexivity|].
  cbn [mapping_lookup map fst]. intros Hn.
  rewrite IH by (intros Hin; apply Hn; right; exact Hin).
  destruct (String.eqb_spec key name) as [->|]; [|reflexivity].
  destruct Hn. left. reflexivity.
Qed.

Lemma registered_procedure (procedure_name : string) :
  In procedure_name PYTHON_PROCEDURE_NAMES ->
  exists populators : list DialogPopulator,
    from_procedure_name procedure_name = Ok populators /\ populators <> [].
Proof.
  intros Hin. cbn in Hin.
  repeat (destruct Hin as [<-|Hin];
          [eexists; split; [vm_compute; reflexivity|discriminate]|]).
  destruct Hin.
Qed.

(** X20. The procedures the plug-in registers are the names that have
    populators: [from_procedure_name] returns a list that is not empty
    for each of the twelve names of [PYTHON_PROCEDURE_NAMES], and raises
    [KeyError] for every other name. *)
Theorem procedures_have_populators (procedure_name : string) :
  (In procedure_name PYTHON_PROCEDURE_NAMES ->
   exists populators : list DialogPopulator,
     from_procedure_name procedure_name = Ok populators /\ populators <> []) /\
  (~ In procedure_name PYTHON_PROCEDURE_NAMES ->
   from_procedure_name procedure_name = Raise (KeyError procedure_name)).
Proof.
  split; [apply registered_procedure|].
  intros Hn. unfold from_procedure_name.
  rewrite mapping_lookup_None; [reflexivity|]. exact Hn.
Qed.

Lemma procedures_have_populators_witness :
  (exists populators : list DialogPopulator,
      from_procedure_name PYTHON_PROCEDURE_INPAINTING = Ok populators /\
      populators <> []) /\
  from_procedure_name "StabDiffAuto1111-upscale"
  = Raise (KeyError "StabDiffAuto1111-upscale").
Proof.
  split.
  - apply (procedures_have_populators PYTHON_PROCEDURE_INPAINTING).
    cbn. do 6 right. left. reflexivity.
  - apply (procedures_have_populators "StabDiffAuto1111-upscale").
    cbn. intros Hin. repeat destruct Hin as [Hin|Hin]; try discriminate Hin. exact Hin.
Defined.

(** ** The merged responses of a dialog *)

Lemma dict_get_absent (key : string) (d : list (pykey * pyval)) :
  Forall is_KStr (map fst d) ->
  ~ In (KStr key) (map fst d) ->
  dict_get (KStr key) d = None.
Proof.
  induction d as [|[k v] d IH]; [reflexivity|].
  cbn [map fst dict_get]. intros Hk Hn.
  apply Forall_cons in Hk as [[s ->] Hk].
  cbn [pykey_eqb]. destruct (String.eqb_spec key s) as [->|Hne].
  - destruct Hn. left. reflexivity.
  - apply IH; [exact Hk|]. intros Hin. apply Hn. right. exact Hin.
Qed.

Lemma dict_get_update (key : string) (d other : list (pykey * pyval)) :
  str_dict other ->
  dict_get (KStr key) (dict_update d other)
  = match dict_get (KStr key) other with
    | Some v => Some v
    | None => dict_get (KStr key) d
    end.
Proof.
  unfold dict_update. revert d.
  induction other as [|[k v] other IH]; intros d [Hk Hnd]; [reflexivity|].
  cbn [map fst] in Hk, Hnd.
  apply Forall_cons in Hk as [[s ->] Hk]. apply NoDup_cons in Hnd as [Hnotin Hnd].
  cbn [fold_left fst snd]. rewrite IH by (split; assumption).
  cbn [dict_get pykey_eqb]. destruct (String.eqb_spec key s) as [->|Hne].
  - rewrite dict_get_absent; [apply dict_get_setitem|exact Hk|].
    intros Hin. apply Hnotin, list_elem_of_In, Hin.
  - destruct (dict_get (KStr key) other); [reflexivity|].
    apply dict_get_setitem_str_ne. exact Hne.
Qed.

Lemma merge_responses_run (responses : DialogPopulator -> option (list (pykey * pyval)))
    (populators : list DialogPopulator) (merged_dict : list (pykey * pyval))
    (key : string) (w : world) :
  (forall p found, responses p = Some found -> str_dict found) ->
  exists (d : list (pykey * pyval)) (w' : world),
    merge_responses responses merged_dict populators w = (Ok d, w') /\
    dict_get (KStr key) d
    = match last_response responses key populators with
      | Some v => Some v
      | None => dict_get (KStr key) merged_dict
      end /\
    length (w_log w') = (length (w_log w) + length populators)%nat /\
    w_data w' = w_data w /\ w_sent w' = w_sent w /\ w_layers w' = w_layers w.
Proof.
  intros Hdicts. revert merged_dict w.
  induction populators as [|p populators IH]; intros merged_dict w.
  - exists merged_dict, w. cbn. repeat split. lia.
  - cbn [merge_responses last_response]. unfold merge_response.
    destruct (responses p) as [found|] eqn:Hp.
    + pose proof (Hdicts p found Hp) as Hfound.
      destruct found as [|kv found].
      * unfold LOGGER. unfold bind at 1. unfold bind at 1. unfold modify, ret.
        destruct (IH merged_dict
                    (set_log (fun l => l ++ [(LogInfo, "Empty responses for "
                                                        +:+ DialogPopulator_str p)]) w))
          as (d & w' & Hrun & Hget & Hlog & Hdata & Hsent & Hlayers).
        exists d, w'. split; [exact Hrun|]. split.
        -- rewrite Hget. cbn [dict_get].
           destruct (last_response responses key populators); reflexivity.
        -- cbn [w_log set_log w_data w_sent w_layers] in *.
           rewrite length_app in Hlog. cbn in Hlog.
           repeat split; try assumption. cbn [length]. lia.
      * unfold LOGGER. unfold bind at 1. unfold bind at 1. unfold modify, ret.
        destruct (IH (dict_update merged_dict (kv :: found))
                    (set_log (fun l => l ++ [(LogInfo, "Found response for "
                                                        +:+ DialogPopulator_str p)]) w))
          as (d & w' & Hrun & Hget & Hlog & Hdata & Hsent & Hlayers).
        exists d, w'. split; [exact Hrun|]. split.
        -- rewrite Hget, (dict_get_update key merged_dict _ Hfound).
           destruct (last_response responses key populators); reflexivity.
        -- cbn [w_log set_log w_data w_sent w_layers] in *.
           rewrite length_app in Hlog. cbn in Hlog.
           repeat split; try assumption. cbn [length]. lia.
    + unfold LOGGER. unfold bind at 1. unfold bind at 1. unfold modify, ret.
      destruct (IH merged_dict
                  (set_log (fun l => l ++ [(LogInfo, "No responses for "
                                                      +:+ DialogPopulator_str p)]) w))
        as (d & w' & Hrun & Hget & Hlog & Hdata & Hsent & Hlayers).
      exists d, w'. split; [exact Hrun|]. split.
      * rewrite Hget. destruct (last_response responses key populators); reflexivity.
      * cbn [w_log set_log w_data w_sent w_layers] in *.
        rewrite length_app in Hlog. cbn in Hlog.
        repeat split; try assumption. cbn [length]. lia.
Qed.

(** X21. The merged responses of a registered procedure hold, for every
    key, the value of the last populator in the procedure's list whose
    responses have the key; a populator without responses, or with empty
    ones, changes nothing. One information record is logged for each
    populator and nothing else changes. A name that is not registered
    raises [KeyError]. The responses are dictionaries with string keys,
    the names of the widgets. *)
Theorem merged_responses_last_wins
    (responses : DialogPopulator -> option (list (pykey * pyval)))
    (procedure_name key : string) (w : world) :
  (forall p found, responses p = Some found -> str_dict found) ->
  (In procedure_name PYTHON_PROCEDURE_NAMES ->
   exists (populators : list DialogPopulator) (d : list (pykey * pyval)) (w' : world),
     from_procedure_name procedure_name = Ok populators /\
     merged_responses responses procedure_name w = (Ok d, w') /\
     dict_get (KStr key) d = last_response responses key populators /\
     length (w_log w') = (length (w_log w) + length populators)%nat /\
     w_data w' = w_data w /\ w_sent w' = w_sent w /\ w_layers w' = w_layers w) /\
  (~ In procedure_name PYTHON_PROCEDURE_NAMES ->
   merged_responses responses procedure_name w = (Raise (KeyError procedure_name), w)).
Proof.
  intros Hdicts. split.
  - intros Hin.
    destruct (registered_procedure procedure_name Hin) as (populators & Hps & _).
    destruct (merge_responses_run responses populators [] key w Hdicts)
      as (d & w' & Hrun & Hget & Hrest).
    exists populators, d, w'. split; [exact Hps|]. split.
    + unfold merged_responses. rewrite Hps. exact Hrun.
    + split; [|exact Hrest]. rewrite Hget.
      destruct (last_response responses key populators); reflexivity.
  - intros Hn. unfold merged_responses, from_procedure_name.
    rewrite mapping_lookup_None; [reflexivity|exact Hn].
Qed.

Lemma sample_responses_dicts (p : DialogPopulator) (found : list (pykey * pyval)) :
  sample_responses p = Some found -> str_dict found.
Proof.
  destruct p; cbn; intros [= <-]; (split; [repeat constructor; eexists; reflexivity|]);
    repeat constructor; rewrite ?elem_of_cons, ?elem_of_nil; intros Hin;
    repeat destruct Hin as [Hin|Hin]; try discriminate Hin; exact Hin.
Qed.

Lemma merged_responses_last_wins_witness :
  exists (populators : list DialogPopulator) (d : list (pykey * pyval)) (w' : world),
    from_procedure_name PYTHON_PROCEDURE_TEXT2IMG = Ok populators /\
    merged_responses sample_responses PYTHON_PROCEDURE_TEXT2IMG sample_world = (Ok d, w') /\
    dict_get (KStr "seed") d = last_response sample_responses "seed" populators /\
    length (w_log w') = (length (w_log sample_world) + length populators)%nat /\
    w_data w' = w_data sample_world /\ w_sent w' = w_sent sample_world /\
    w_layers w' = w_layers sample_world.
Proof.
  apply (merged_responses_last_wins sample_responses PYTHON_PROCEDURE_TEXT2IMG "seed"
           sample_world sample_responses_dicts).
  cbn. do 10 right. left. reflexivity.
Defined.
